(** * Telephone billing: billing engine and selection disambiguation

    A shallow embedding of [main.py]:
    - [Module Billing]: the rate plans, [log_call] and [generate_bill]
      over an explicit database state (the three SQLite tables);
    - [Module Selection]: the handlers of [BillingApp] that share
      [self.timer], over an explicit widget state and the queue of
      callbacks scheduled with [master.after];
    - [Module Store], [Module Desk] and [Module Office]: the customer
      listing, the customer tab, and the call and billing tabs.

    Modelling conventions.
    - SQLite [REAL] and Python [float] are idealised as exact rationals
      ([Q]); every equation on money below is an equation between the
      very same arithmetic expressions, so no rounding fact is used.
    - A table is the list of its rows in rowid order; an
      [AUTOINCREMENT] key is drawn from a per-table sequence counter.
    - The clock ([datetime.now], [time.strftime]) is an argument.
    - A [str] is the string of its UTF-8 bytes. The arguments of
      [log_call] and [generate_bill] are bound to SQL parameters as
      [sqlite3] binds them: an [int] outside 64 bits, a text longer than
      SQLite allows and a [LIKE] pattern longer than SQLite allows make
      the statement raise. Keys read back from a table and timestamps
      taken from the clock are values the store holds already. The
      customer functions ([add_customer], [update_customer],
      [delete_customer]) are modelled for arguments within these limits,
      as the handlers pass them, and the sequence counters are not
      bounded: a table is never filled up to its last key. *)

From Stdlib Require Import ZArith QArith List String Ascii Bool Lia.
From Stdlib Require Import Sorted Permutation.
Import ListNotations.

Module Billing.

Local Open Scope Z_scope.
Local Open Scope string_scope.

(** ** Configuration *)

(** [RATE_PLANS]: a dict literal, kept in insertion order. *)
Definition RATE_PLANS : list (string * Q) :=
  [ ("Standard", 5 # 100); ("Premium", 3 # 100); ("Business", 8 # 100) ].

(** [d[k]] as an option, and [d.get(k, default)]. *)
Fixpoint dict_lookup (d : list (string * Q)) (k : string) : option Q :=
  match d with
  | [] => None
  | (k', v) :: d' => if String.eqb k' k then Some v else dict_lookup d' k
  end.

Definition dict_get (d : list (string * Q)) (k : string) (default : Q) : Q :=
  match dict_lookup d k with
  | Some v => v
  | None => default
  end.

(** [DEFAULT_RATE_PER_SECOND = RATE_PLANS["Standard"]]. *)
Definition DEFAULT_RATE_PER_SECOND : Q :=
  Eval cbv in dict_get RATE_PLANS "Standard" 0%Q.

(** ** Tables *)

Record Customer := mkCustomer {
  customer_id : Z;
  phone_number : string;
  name : string;
  address : string;
  rate_plan : string
}.

Record CallLog := mkCallLog {
  call_id : Z;
  call_customer_id : Z;
  callee_number : string;
  start_time : string;
  duration_seconds : Z;
  cost : Q
}.

(** [total_charge] holds whatever [SUM(cost)] returned, which is [NULL]
    on an empty selection. *)
Record Bill := mkBill {
  bill_id : Z;
  bill_customer_id : Z;
  billing_period : string;
  total_calls : Z;
  total_charge : option Q;
  date_generated : string
}.

(** The database file: three tables and the [sqlite_sequence] counters
    behind their [AUTOINCREMENT] keys. *)
Record DB := mkDB {
  Customers : list Customer;
  CallLogs : list CallLog;
  BillHistory : list Bill;
  seq_customers : Z;
  seq_calls : Z;
  seq_bills : Z
}.

Definition empty_db : DB := mkDB [] [] [] 0 0 0.

(** ** SQL operators *)

(** ASCII upper-casing, as SQLite's [LIKE] folds case for ASCII only. *)
Definition ascii_upper (c : ascii) : ascii :=
  let n := nat_of_ascii c in
  if (Nat.leb 97 n && Nat.leb n 122)%bool then ascii_of_nat (n - 32) else c.

Definition like_char_eq (a b : ascii) : bool :=
  Ascii.eqb (ascii_upper a) (ascii_upper b).

(** [s LIKE pat] with no [ESCAPE]: [%] matches any run of characters,
    [_] matches exactly one, any other character matches itself up to
    ASCII case. *)
Fixpoint like (pat : string) : string -> bool :=
  match pat with
  | EmptyString =>
      fun s => match s with EmptyString => true | String _ _ => false end
  | String c pat' =>
      if Ascii.eqb c "%"%char then
        fix any_run (s : string) : bool :=
          (like pat' s
           || match s with
              | EmptyString => false
              | String _ s' => any_run s'
              end)%bool
      else if Ascii.eqb c "_"%char then
        fun s =>
          match s with
          | EmptyString => false
          | String _ s' => like pat' s'
          end
      else
        fun s =>
          match s with
          | EmptyString => false
          | String d s' => (like_char_eq c d && like pat' s')%bool
          end
  end.

(** [LIKE] reads both operands as NUL-terminated strings: what follows
    a zero byte in the pattern or in the value is not looked at. *)
Fixpoint c_string (s : string) : string :=
  match s with
  | EmptyString => EmptyString
  | String c s' =>
      if Ascii.eqb c Ascii.zero then EmptyString else String c (c_string s')
  end.

Definition sql_like (pat s : string) : bool := like (c_string pat) (c_string s).

(** ** Limits of the store *)

(** A Python [int] is bound as a 64-bit [INTEGER]; outside that range
    binding raises [OverflowError]. *)
Definition sqlite_int (z : Z) : bool :=
  (Z.leb (- 2 ^ 63) z && Z.ltb z (2 ^ 63))%bool.

(** SQLite's default limits, in bytes, on a text value and on a [LIKE]
    pattern. *)
Definition SQLITE_MAX_LENGTH : Z := 1000000000.

Definition SQLITE_MAX_LIKE_PATTERN_LENGTH : Z := 50000.

Definition byte_length (s : string) : Z := Z.of_nat (String.length s).

(** A [str] parameter within [SQLITE_MAX_LENGTH]; a longer one makes
    binding raise [sqlite3.DataError]. *)
Definition sqlite_text (s : string) : bool :=
  Z.leb (byte_length s) SQLITE_MAX_LENGTH.

(** [int * float] converts the [int] first; one that rounds to 2^1024
    or beyond raises [OverflowError]. The doubles end at 2^1024 - 2^971,
    and the integers from half-way to 2^1024 on round up. *)
Definition float_overflow (z : Z) : bool :=
  Z.leb (2 ^ 1024 - 2 ^ 970) (Z.abs z).

(** [SUM(x)]: [NULL] over no row. *)
Definition sql_sum (xs : list Q) : option Q :=
  match xs with
  | [] => None
  | _ :: _ => Some (fold_left Qplus xs 0%Q)
  end.

(** [WHERE customer_id = ? AND start_time LIKE ?] on [CallLogs]. *)
Definition call_matches (cid : Z) (pattern : string) (r : CallLog) : bool :=
  (Z.eqb (call_customer_id r) cid && sql_like pattern (start_time r))%bool.

(** [SELECT SUM(cost), COUNT(call_id) FROM CallLogs WHERE ...]: an
    aggregate without [GROUP BY] always yields one row, so [fetchone()]
    is a pair and the [(None, None)] fallback is never taken. *)
Definition select_sum_count (db : DB) (cid : Z) (pattern : string)
  : option Q * Z :=
  let rows := filter (call_matches cid pattern) (CallLogs db) in
  (sql_sum (map cost rows), Z.of_nat (List.length rows)).

(** [WHERE customer_id = ? AND billing_period = ?] on [BillHistory]. *)
Definition bill_matches (cid : Z) (period : string) (b : Bill) : bool :=
  (Z.eqb (bill_customer_id b) cid && String.eqb (billing_period b) period)%bool.

(** [SELECT bill_id FROM BillHistory WHERE ...] then [fetchone()]. *)
Definition select_bill_id (db : DB) (cid : Z) (period : string) : option Z :=
  option_map bill_id (find (bill_matches cid period) (BillHistory db)).

(** [UPDATE BillHistory SET total_calls, total_charge, date_generated
    WHERE bill_id = ?]. *)
Definition update_bill (db : DB) (bid : Z) (calls : Z) (charge : option Q)
    (generated : string) : DB :=
  mkDB (Customers db) (CallLogs db)
       (map (fun b =>
               if Z.eqb (bill_id b) bid
               then mkBill (bill_id b) (bill_customer_id b) (billing_period b)
                           calls charge generated
               else b)
            (BillHistory db))
       (seq_customers db) (seq_calls db) (seq_bills db).

(** [INSERT INTO BillHistory (customer_id, billing_period, total_calls,
    total_charge, date_generated)]. *)
Definition insert_bill (db : DB) (cid : Z) (period : string) (calls : Z)
    (charge : option Q) (generated : string) : DB :=
  let bid := seq_bills db + 1 in
  mkDB (Customers db) (CallLogs db)
       (BillHistory db ++ [mkBill bid cid period calls charge generated])
       (seq_customers db) (seq_calls db) bid.

(** ** Exceptions, message boxes and outcomes *)

(** The statements [generate_bill] runs against the store, in program
    order; a persistence fault is raised by one of them. Closing the
    connection in the [finally] clause is not taken as a fault point. *)
Inductive store_op := Connect | SelectCalls | SelectBill | WriteBill | Commit.

Definition store_op_eqb (a b : store_op) : bool :=
  match a, b with
  | Connect, Connect | SelectCalls, SelectCalls | SelectBill, SelectBill
  | WriteBill, WriteBill | Commit, Commit => true
  | _, _ => false
  end.

Inductive exn :=
  | sqlite3_Error (op : store_op)
  | TypeError
  | UnboundLocalError
  | OverflowError
  | DataError
  | OperationalError.

(** The calls to [messagebox] made by the data-access functions. *)
Inductive message :=
  | Info_NoCalls
  | Info_BillUpdated (period : string) (charge : Q)
  | Info_BillGenerated (period : string) (charge : Q)
  | Error_FailedToGenerateBill (e : exn)
  | Error_CustomerNotFound (phone : string)
  | Info_CallLogged (phone plan : string) (duration : Z) (call_cost : Q)
  | Error_DatabaseOperationFailed (e : exn).

Definition is_showerror (m : message) : bool :=
  match m with
  | Error_FailedToGenerateBill _ | Error_CustomerNotFound _
  | Error_DatabaseOperationFailed _ => true
  | _ => false
  end.

(** How a call of a function ends: with a returned truth value or with
    an exception that escapes it. *)
Inductive returned :=
  | Returns (b : bool)
  | Raises (e : exn).

(** What one call of [generate_bill] leaves behind: the committed
    database, the message boxes shown, and the exception that escapes
    the function, if any. *)
Record outcome := mkOutcome {
  out_db : DB;
  out_msgs : list message;
  out_raised : option exn
}.

(** A statement run under a fault oracle: [flt = Some op] makes
    statement [op] raise [sqlite3.Error]. *)
Definition attempt {A : Type} (flt : option store_op) (op : store_op) (v : A)
  : exn + A :=
  match flt with
  | Some f => if store_op_eqb f op then inl (sqlite3_Error op) else inr v
  | None => inr v
  end.

(** [f"...${total_charge:.2f}"]: formatting [None] raises. *)
Definition format_charge (charge : option Q) (box : Q -> message)
  : exn + list message :=
  match charge with
  | Some ch => inr [box ch]
  | None => inl TypeError
  end.

(** ** Customer CRUD (through [execute_query], foreign keys on) *)

Definition phone_taken (db : DB) (phone : string) (but : option Z) : bool :=
  existsb (fun c =>
             (String.eqb (phone_number c) phone
              && match but with
                 | Some cid => negb (Z.eqb (customer_id c) cid)
                 | None => true
                 end)%bool)
          (Customers db).

(** [add_customer]: the [UNIQUE] phone number makes the insert fail
    with [IntegrityError], reported as [False]. *)
Definition add_customer (db : DB) (phone nm addr plan : string) : DB * bool :=
  if phone_taken db phone None then (db, false)
  else
    let cid := seq_customers db + 1 in
    (mkDB (Customers db ++ [mkCustomer cid phone nm addr plan])
          (CallLogs db) (BillHistory db) cid (seq_calls db) (seq_bills db),
     true).

Definition update_customer (db : DB) (cid : Z) (phone nm addr plan : string)
  : DB * bool :=
  if (existsb (fun c => Z.eqb (customer_id c) cid) (Customers db)
      && phone_taken db phone (Some cid))%bool
  then (db, false)
  else
    (mkDB (map (fun c =>
                  if Z.eqb (customer_id c) cid
                  then mkCustomer (customer_id c) phone nm addr plan
                  else c)
               (Customers db))
          (CallLogs db) (BillHistory db)
          (seq_customers db) (seq_calls db) (seq_bills db),
     true).

(** [delete_customer]: [ON DELETE CASCADE] removes the customer's call
    logs and bills with the customer. *)
Definition delete_customer (db : DB) (cid : Z) : DB * bool :=
  (mkDB (filter (fun c => negb (Z.eqb (customer_id c) cid)) (Customers db))
        (filter (fun r => negb (Z.eqb (call_customer_id r) cid)) (CallLogs db))
        (filter (fun b => negb (Z.eqb (bill_customer_id b) cid)) (BillHistory db))
        (seq_customers db) (seq_calls db) (seq_bills db),
   true).

(** ** [log_call] *)

(** [SELECT customer_id, rate_plan FROM Customers WHERE phone_number = ?]
    then [fetchone()]. *)
Definition select_customer_by_phone (db : DB) (phone : string)
  : option (Z * string) :=
  option_map (fun c => (customer_id c, rate_plan c))
             (find (fun c => String.eqb (phone_number c) phone) (Customers db)).

Definition insert_call (db : DB) (cid : Z) (callee started : string)
    (duration : Z) (call_cost : Q) : DB :=
  let id := seq_calls db + 1 in
  mkDB (Customers db)
       (CallLogs db ++ [mkCallLog id cid callee started duration call_cost])
       (BillHistory db) (seq_customers db) id (seq_bills db).

(** The lookup through [execute_query] with [fetch_mode='one']: a
    phone number that cannot be bound makes it show the "DB Error" box
    and answer [None], like a lookup that finds no row. *)
Definition fetch_customer_by_phone (db : DB) (phone : string)
  : list message * option (Z * string) :=
  if sqlite_text phone then ([], select_customer_by_phone db phone)
  else ([Error_DatabaseOperationFailed DataError], None).

(** The parameters of the [INSERT] are bound in order: the callee
    number before the duration. *)
Definition bind_call (callee : string) (duration : Z) : option exn :=
  if negb (sqlite_text callee) then Some DataError
  else if negb (sqlite_int duration) then Some OverflowError
  else None.

(** [log_call]: the product [duration_seconds * rate] is computed
    outside any [try], so its [OverflowError] escapes; a failure of the
    [INSERT] is caught by [execute_query], which shows the "DB Error" box
    and answers [False]. *)
Definition log_call (db : DB) (phone callee : string) (duration : Z)
    (now : string) : DB * list message * returned :=
  match fetch_customer_by_phone db phone with
  | (boxes, None) =>
      (db, (boxes ++ [Error_CustomerNotFound phone])%list, Returns false)
  | (_, Some (cid, rate_plan_name)) =>
      let rate := dict_get RATE_PLANS rate_plan_name DEFAULT_RATE_PER_SECOND in
      if float_overflow duration then (db, [], Raises OverflowError)
      else
        let call_cost := (inject_Z duration * rate)%Q in
        match bind_call callee duration with
        | Some e => (db, [Error_DatabaseOperationFailed e], Returns false)
        | None =>
            (insert_call db cid callee now duration call_cost,
             [Info_CallLogged phone rate_plan_name duration call_cost],
             Returns true)
        end
  end.

(** ** [generate_bill] *)

(** The aggregate query as [cursor.execute] runs it on
    [(customer_id, period_filter)]: the two parameters are bound in
    order, and [LIKE] refuses a pattern longer than
    [SQLITE_MAX_LIKE_PATTERN_LENGTH] when it is evaluated, which happens
    on the rows that pass [customer_id = ?]. *)
Definition select_calls (db : DB) (cid : Z) (pattern : string)
  : exn + (option Q * Z) :=
  if negb (sqlite_int cid) then inl OverflowError
  else if negb (sqlite_text pattern) then inl DataError
  else if (Z.ltb SQLITE_MAX_LIKE_PATTERN_LENGTH (byte_length pattern)
           && existsb (fun r => Z.eqb (call_customer_id r) cid) (CallLogs db))%bool
  then inl OperationalError
  else inr (select_sum_count db cid pattern).

(** The body of the [try] block once the connection is open. The first
    component is the database as committed when the block is left:
    an [UPDATE] or [INSERT] only reaches the file at [conn.commit()],
    and closing the connection drops what was not committed. Once the
    aggregate query has run, the parameters of the later statements are
    bound without error: the same id, the period, which is shorter than
    its filter, a count, a sum and a timestamp. *)
Definition generate_bill_try (flt : option store_op) (db : DB)
    (cid : Z) (period now : string) : DB * (exn + list message) :=
  let period_filter := period ++ "%" in
  match attempt flt SelectCalls (select_calls db cid period_filter) with
  | inl e => (db, inl e)
  | inr (inl e) => (db, inl e)
  | inr (inr (charge, calls)) =>
      if Z.eqb calls 0 then (db, inr [Info_NoCalls])
      else
        match attempt flt SelectBill (select_bill_id db cid period) with
        | inl e => (db, inl e)
        | inr (Some bid) =>
            match attempt flt WriteBill (update_bill db bid calls charge now) with
            | inl e => (db, inl e)
            | inr pending =>
                match attempt flt Commit pending with
                | inl e => (db, inl e)
                | inr committed =>
                    (committed, format_charge charge (Info_BillUpdated period))
                end
            end
        | inr None =>
            match attempt flt WriteBill (insert_bill db cid period calls charge now) with
            | inl e => (db, inl e)
            | inr pending =>
                match attempt flt Commit pending with
                | inl e => (db, inl e)
                | inr committed =>
                    (committed, format_charge charge (Info_BillGenerated period))
                end
            end
        end
  end.

(** [generate_bill]: [except Exception] turns whatever the block raised
    into one error box. When [sqlite3.connect] itself raised, [conn] was
    never bound and the [finally] clause raises [UnboundLocalError]. *)
Definition generate_bill (flt : option store_op) (db : DB)
    (cid : Z) (period now : string) : outcome :=
  match attempt flt Connect tt with
  | inl e => mkOutcome db [Error_FailedToGenerateBill e] (Some UnboundLocalError)
  | inr _ =>
      match generate_bill_try flt db cid period now with
      | (db', inl e) => mkOutcome db' [Error_FailedToGenerateBill e] None
      | (db', inr msgs) => mkOutcome db' msgs None
      end
  end.

(** ** Histories of the store *)

Inductive operation :=
  | OpAddCustomer (phone nm addr plan : string)
  | OpUpdateCustomer (cid : Z) (phone nm addr plan : string)
  | OpDeleteCustomer (cid : Z)
  | OpLogCall (phone callee : string) (duration : Z) (now : string)
  | OpGenerateBill (flt : option store_op) (cid : Z) (period now : string).

Definition apply_op (db : DB) (o : operation) : DB :=
  match o with
  | OpAddCustomer ph nm ad pl => fst (add_customer db ph nm ad pl)
  | OpUpdateCustomer cid ph nm ad pl => fst (update_customer db cid ph nm ad pl)
  | OpDeleteCustomer cid => fst (delete_customer db cid)
  | OpLogCall ph callee d now => fst (fst (log_call db ph callee d now))
  | OpGenerateBill flt cid p now => out_db (generate_bill flt db cid p now)
  end.

(** The databases the program can produce from a fresh file. *)
Definition history (ops : list operation) : DB := fold_left apply_op ops empty_db.

(** ** Integrity conditions *)

Definition bill_key (b : Bill) : Z * string :=
  (bill_customer_id b, billing_period b).

(** Bill ids are distinct and below the sequence counter; no two bills
    share (customer, period). *)
Record bills_ok (db : DB) : Prop := mkBillsOk {
  bill_ids_nodup : NoDup (map bill_id (BillHistory db));
  bill_ids_below : forall b, In b (BillHistory db) -> bill_id b <= seq_bills db;
  bill_keys_nodup : NoDup (map bill_key (BillHistory db))
}.

(** Every call log belongs to a customer of the table. *)
Definition calls_owned (db : DB) : Prop :=
  forall r, In r (CallLogs db) ->
            exists c, In c (Customers db) /\ customer_id c = call_customer_id r.

Definition customer_exists (db : DB) (cid : Z) : bool :=
  existsb (fun c => Z.eqb (customer_id c) cid) (Customers db).

(** The bills stored for (customer, period). *)
Definition bills_for (db : DB) (cid : Z) (period : string) : list Bill :=
  filter (bill_matches cid period) (BillHistory db).

(** The period as a prefix of the timestamp, character for character. *)
Definition starts_with (p s : string) : bool := String.prefix p s.

(** The row written by the [UPDATE] of [update_bill]. *)
Definition touch (bid calls : Z) (charge : option Q) (generated : string)
    (b : Bill) : Bill :=
  if Z.eqb (bill_id b) bid
  then mkBill (bill_id b) (bill_customer_id b) (billing_period b)
              calls charge generated
  else b.

(** A bill without its generation timestamp. *)
Definition bill_content (b : Bill) : Z * Z * string * Z * option Q :=
  (bill_id b, bill_customer_id b, billing_period b, total_calls b, total_charge b).

(** Which statement raised [sqlite3.Error] during a call, if one did. *)
Definition fault_signalled (flt : option store_op) (db : DB)
    (cid : Z) (period now : string) : option store_op :=
  match attempt flt Connect tt with
  | inl (sqlite3_Error op) => Some op
  | inl _ => None
  | inr _ =>
      match snd (generate_bill_try flt db cid period now) with
      | inl (sqlite3_Error op) => Some op
      | _ => None
      end
  end.

(** The calls of a customer whose timestamp begins with the period. *)
Definition calls_in_period (db : DB) (cid : Z) (period : string) : list CallLog :=
  filter (fun r => (Z.eqb (call_customer_id r) cid
                    && starts_with period (start_time r))%bool)
         (CallLogs db).

(** Characters that [LIKE] reads literally and without case folding:
    neither wildcard nor ASCII letter nor the zero byte. *)
Definition plain_char (c : ascii) : bool :=
  let n := nat_of_ascii c in
  (negb (Ascii.eqb c "%"%char) && negb (Ascii.eqb c "_"%char)
   && negb (Nat.leb 65 n && Nat.leb n 90)
   && negb (Nat.leb 97 n && Nat.leb n 122)
   && negb (Ascii.eqb c Ascii.zero))%bool.

Fixpoint plain (s : string) : bool :=
  match s with
  | EmptyString => true
  | String c s' => (plain_char c && plain s')%bool
  end.

(** ** Sample data *)

Definition db_one_call : DB :=
  mkDB [mkCustomer 1 "555-0100" "Ada" "1 Main St" "Standard"]
       [mkCallLog 1 1 "555-0199" "2024-05-03 10:00:00" 120
                  (inject_Z 120 * (5 # 100))%Q]
       [] 1 1 0.

(** A period of [n] characters ["9"], as one can type or paste into the
    entry. *)
Fixpoint nines (n : nat) : string :=
  match n with
  | O => EmptyString
  | S n' => String "9"%char (nines n')
  end.

(** [db_one_call] after its May bill was generated once. *)
Definition db_one_bill : DB :=
  Eval cbv in out_db (generate_bill None db_one_call 1 "2024-05" "2024-06-01 09:00:00").

End Billing.

(** * The selection handlers of [BillingApp] *)

Module Selection.

Local Open Scope nat_scope.
Local Open Scope string_scope.

(** ** Widgets *)

Inductive widget_state := NORMAL | DISABLED.

(** A [tk.Entry]: its text and its state. [delete] and [insert] do
    nothing on a disabled entry. Only [phone_entry] is ever disabled;
    the name and address entries stay in their initial normal state and
    are kept as their text. *)
Record Entry := mkEntry {
  entry_text : string;
  entry_state : widget_state
}.

Definition entry_config (e : Entry) (st : widget_state) : Entry :=
  mkEntry (entry_text e) st.

(** [e.delete(0, tk.END)]. *)
Definition entry_delete_all (e : Entry) : Entry :=
  match entry_state e with
  | NORMAL => mkEntry "" NORMAL
  | DISABLED => e
  end.

(** [e.insert(0, v)]. *)
Definition entry_insert0 (e : Entry) (v : string) : Entry :=
  match entry_state e with
  | NORMAL => mkEntry (v ++ entry_text e) NORMAL
  | DISABLED => e
  end.

(** The same two calls on an entry that is always normal. *)
Definition text_delete_all (t : string) : string := "".

Definition text_insert0 (t v : string) : string := v ++ t.

(** The [values] of a tree row, as [load_customers_to_treeview] inserts
    them: one customer record. *)
Record Values := mkValues {
  v_id : Z;
  v_phone : string;
  v_name : string;
  v_address : string;
  v_rate : string
}.

(** A row of [customer_tree]; [values = None] is a row without values,
    for which [item(row, 'values')] is empty. *)
Record Item := mkItem {
  iid : nat;
  values : option Values
}.

(** The form: what the handlers read and write besides the timer. *)
Record Form := mkForm {
  selected_customer_id : Z;
  phone_entry : Entry;
  name_entry : string;
  address_entry : string;
  rate_plan_var : string;
  add_btn : widget_state;
  update_btn : widget_state;
  delete_btn : widget_state
}.

(** The application object together with the part of the Tk event loop
    the handlers act on: [after_pending] lists the ids of the callbacks
    scheduled with [master.after] that have neither fired nor been
    cancelled (every one of them runs [execute_single_click_delete]);
    [after_serial] numbers the next id. *)
Record App := mkApp {
  timer : option nat;
  form : Form;
  customer_tree : list Item;
  tree_selection : list nat;
  after_pending : list nat;
  after_serial : nat
}.

(** [list(RATE_PLANS.keys())[0]]. *)
Definition first_rate_plan : string :=
  match Billing.RATE_PLANS with
  | (k, _) :: _ => k
  | [] => ""
  end.

(** [master.after(250, self.execute_single_click_delete)]: the new id,
    and the loop with the callback queued. *)
Definition after (s : App) : nat * App :=
  (after_serial s,
   mkApp (timer s) (form s) (customer_tree s) (tree_selection s)
         (after_pending s ++ [after_serial s]) (S (after_serial s))).

(** [master.after_cancel(id)]. *)
Definition after_cancel (s : App) (id : nat) : App :=
  mkApp (timer s) (form s) (customer_tree s) (tree_selection s)
        (filter (fun t => negb (Nat.eqb t id)) (after_pending s))
        (after_serial s).

Definition set_timer (s : App) (t : option nat) : App :=
  mkApp t (form s) (customer_tree s) (tree_selection s)
        (after_pending s) (after_serial s).

Definition set_form (s : App) (f : Form) : App :=
  mkApp (timer s) f (customer_tree s) (tree_selection s)
        (after_pending s) (after_serial s).

Definition set_selection (s : App) (sel : list nat) : App :=
  mkApp (timer s) (form s) (customer_tree s) sel
        (after_pending s) (after_serial s).

(** [customer_tree.item(row, 'values')]. *)
Definition item_values (s : App) (row : nat) : option Values :=
  match find (fun it => Nat.eqb (iid it) row) (customer_tree s) with
  | Some it => values it
  | None => None
  end.

(** ** Intents *)

(** The two modes a gesture can put the form in: the update mode set up
    by a double click and the delete mode set up when the single-click
    timer fires. A handler's intent names the mode it has just set up. *)
Inductive intent :=
  | UpdateIntent (row : nat)
  | DeleteIntent (row : nat).

Inductive mode := AddMode | UpdateMode | DeleteMode.

(** The mode shown by the three buttons. *)
Definition form_mode (f : Form) : option mode :=
  match add_btn f, update_btn f, delete_btn f with
  | NORMAL, DISABLED, DISABLED => Some AddMode
  | DISABLED, NORMAL, NORMAL => Some UpdateMode
  | NORMAL, DISABLED, NORMAL => Some DeleteMode
  | _, _, _ => None
  end.

(** ** Handlers *)

(** [if self.timer: after_cancel(self.timer); self.timer = None]. *)
Definition cancel_timer (s : App) : App :=
  match timer s with
  | Some t => set_timer (after_cancel s t) None
  | None => s
  end.

Definition clear_customer_entries (s : App) : App :=
  let s := cancel_timer s in
  let f := form s in
  let s :=
    set_form s
      (mkForm 0%Z
              (entry_delete_all (entry_config (phone_entry f) NORMAL))
              (text_delete_all (name_entry f))
              (text_delete_all (address_entry f))
              first_rate_plan
              NORMAL DISABLED DISABLED) in
  match tree_selection s with
  | [] => s
  | _ :: _ => set_selection s []
  end.

Definition execute_single_click_delete (s : App) : App * option intent :=
  match tree_selection s with
  | [] => (clear_customer_entries s, None)
  | row :: _ =>
      match item_values s row with
      | Some v =>
          let f := form s in
          let s :=
            set_form s
              (mkForm (v_id v)
                      (entry_delete_all (entry_config (phone_entry f) NORMAL))
                      (text_delete_all (name_entry f))
                      (text_delete_all (address_entry f))
                      first_rate_plan
                      NORMAL DISABLED NORMAL) in
          (set_timer s None, Some (DeleteIntent row))
      | None => (set_timer s None, None)
      end
  end.

Definition handle_treeview_select (s : App) : App :=
  match tree_selection s with
  | [] => clear_customer_entries s
  | _ :: _ =>
      let s := match timer s with
               | Some t => after_cancel s t
               | None => s
               end in
      let (id, s) := after s in
      set_timer s (Some id)
  end.

(** [row] is [customer_tree.identify_row(event.y)]: the row under the
    pointer, if there is one. *)
Definition handle_double_click_update (s : App) (row : option nat)
  : App * option intent :=
  let s := cancel_timer s in
  match row with
  | None => (clear_customer_entries s, None)
  | Some r =>
      match item_values s r with
      | Some v =>
          let f := form s in
          let phone := entry_delete_all (entry_config (phone_entry f) NORMAL) in
          let nm := text_delete_all (name_entry f) in
          let addr := text_delete_all (address_entry f) in
          (set_form s
             (mkForm (v_id v)
                     (entry_config (entry_insert0 phone (v_phone v)) DISABLED)
                     (text_insert0 nm (v_name v))
                     (text_insert0 addr (v_address v))
                     (v_rate v)
                     DISABLED NORMAL NORMAL),
           Some (UpdateIntent r))
      | None => (s, None)
      end
  end.

(** ** The event loop *)

Inductive event :=
  | TreeviewSelect (sel : list nat)
  | Double1 (row : option nat)
  | ClearSelection
  | AfterFires (id : nat).

(** One turn of the loop. [<<TreeviewSelect>>] arrives once the widget
    has changed its selection to [sel]. A scheduled callback fires only
    while its id is pending, and leaves the queue when it does. *)
Definition step (s : App) (e : event) : option (App * option intent) :=
  match e with
  | TreeviewSelect sel => Some (handle_treeview_select (set_selection s sel), None)
  | Double1 row => Some (handle_double_click_update s row)
  | ClearSelection => Some (clear_customer_entries s, None)
  | AfterFires id =>
      if existsb (Nat.eqb id) (after_pending s)
      then Some (execute_single_click_delete (after_cancel s id))
      else None
  end.

Definition emitted (i : option intent) : list intent :=
  match i with
  | Some x => [x]
  | None => []
  end.

Fixpoint run (s : App) (evs : list event) : option (App * list intent) :=
  match evs with
  | [] => Some (s, [])
  | e :: evs' =>
      match step s e with
      | None => None
      | Some (s', i) =>
          match run s' evs' with
          | None => None
          | Some (s'', rest) => Some (s'', (emitted i ++ rest)%list)
          end
      end
  end.

(** The application as [__init__] leaves it, with the rows loaded. *)
Definition init_app (rows : list Item) : App :=
  mkApp None
        (mkForm 0%Z (mkEntry "" NORMAL) "" ""
                first_rate_plan NORMAL DISABLED DISABLED)
        rows [] [] 0.

(** [self.timer] holds exactly the pending callback, if there is one. *)
Definition timer_tracks (s : App) : Prop :=
  after_pending s = match timer s with
                    | Some t => [t]
                    | None => []
                    end.

(** The form in add mode with nothing selected, as
    [clear_customer_entries] leaves it. *)
Definition cleared_form : Form :=
  mkForm 0%Z (mkEntry "" NORMAL) "" "" "Standard" NORMAL DISABLED DISABLED.

(** The form in delete mode for a row, as [execute_single_click_delete]
    leaves it, and in update mode, as [handle_double_click_update] does. *)
Definition delete_form (v : Values) : Form :=
  mkForm (v_id v) (mkEntry "" NORMAL) "" "" "Standard" NORMAL DISABLED NORMAL.

Definition update_form (v : Values) : Form :=
  mkForm (v_id v) (mkEntry (v_phone v) DISABLED) (v_name v) (v_address v)
         (v_rate v) DISABLED NORMAL NORMAL.

(** ** Sample data *)

Definition two_rows : list Item :=
  [ mkItem 1 (Some (mkValues 7 "555-0100" "Ada" "1 Main St" "Premium"));
    mkItem 2 (Some (mkValues 9 "555-0101" "Bob" "2 High St" "Standard")) ].

(** Update mode for row 1, no timer pending. *)
Definition app_updating : App :=
  Eval cbv in
    match run (init_app two_rows) [TreeviewSelect [1]; Double1 (Some 1)] with
    | Some (s, _) => s
    | None => init_app two_rows
    end.

End Selection.

(** * The customer table: listing and integrity *)

Module Store.
Import Billing.

Local Open Scope Z_scope.
Local Open Scope string_scope.

(** [ORDER BY customer_id DESC]: insertion into a list kept in
    descending order of id. The key is the table's primary key, so the
    order among equal ids is never observed. *)
Fixpoint insert_desc (c : Customer) (l : list Customer) : list Customer :=
  match l with
  | [] => [c]
  | x :: l' =>
      if Z.ltb (customer_id x) (customer_id c) then c :: l
      else x :: insert_desc c l'
  end.

Definition order_by_id_desc (l : list Customer) : list Customer :=
  fold_right insert_desc [] l.

(** [get_all_customers]: all five columns of every row, newest id
    first; [execute_query] is taken not to fail, so the [[]] fallback
    is not reached. *)
Definition get_all_customers (db : DB) : list Customer :=
  order_by_id_desc (Customers db).

(** The primary key and the [UNIQUE] phone number, as the table keeps
    them: ids between 1 and the sequence counter, increasing in rowid
    order, and no phone number twice. *)
Record customers_ok (db : DB) : Prop := mkCustomersOk {
  customer_seq_nonneg : 0 <= seq_customers db;
  customer_ids_range :
    forall c, In c (Customers db) -> 0 < customer_id c <= seq_customers db;
  customer_ids_sorted :
    StronglySorted (fun a b => customer_id a < customer_id b) (Customers db);
  customer_phones_nodup : NoDup (map phone_number (Customers db))
}.

(** The rate [log_call] resolves for a plan name. *)
Definition resolve_rate (plan : string) : Q :=
  dict_get RATE_PLANS plan DEFAULT_RATE_PER_SECOND.

(** [rate in RATE_PLANS]. *)
Definition dict_mem (d : list (string * Q)) (k : string) : bool :=
  existsb (fun kv => String.eqb (fst kv) k) d.

(** ** Sample data *)

Definition ops_two_customers : list operation :=
  [OpAddCustomer "555-0100" "Ada" "1 Main St" "Standard";
   OpAddCustomer "555-0101" "Bob" "2 High St" "Premium";
   OpLogCall "555-0100" "555-0199" 120 "2024-05-03 10:00:00";
   OpLogCall "555-0101" "555-0199" 30 "2024-05-04 11:00:00";
   OpGenerateBill None 1 "2024-05" "2024-06-01 09:00:00";
   OpGenerateBill None 2 "2024-05" "2024-06-01 09:01:00"].

Definition db_two_customers : DB := Eval cbv in history ops_two_customers.

End Store.

(** * The customer tab: CRUD handlers over the form, the tree and the store *)

Module Desk.
Import Billing Store Selection.

Local Open Scope nat_scope.
Local Open Scope string_scope.

(** The application object with the database file it works on.
    [tree_serial] numbers the next row id the tree widget hands out. The
    widgets of the call-log and billing tabs are not part of this state:
    [update_customer_dropdowns], which the handlers below call last,
    only writes to those. *)
Record Desk := mkDesk {
  app : App;
  db : DB;
  tree_serial : nat
}.

(** The message boxes of the three handlers and of the data-access
    functions they call. *)
Inductive box :=
  | Warn_AddInput
  | Warn_NoCustomerForUpdate
  | Warn_UpdateInput
  | Err_UpdateFailed
  | Warn_NoCustomerForDeletion
  | Ask_ConfirmDeletion (cid : Z) (nm : string)
  | Err_DeletionFailed
  | Err_Integrity
  | Info_CustomerAdded (nm : string)
  | Info_CustomerUpdated (cid : Z)
  | Info_CustomerDeleted (cid : Z).

(** The tuple [get_all_customers] returns for a row, as the tree shows
    it. *)
Definition values_of (c : Customer) : Values :=
  mkValues (customer_id c) (phone_number c) (Billing.name c) (address c)
           (rate_plan c).

(** [customer_tree.insert('', tk.END, values=record)] for each record,
    with fresh row ids. *)
Fixpoint insert_rows (n : nat) (cs : list Customer) : list Item :=
  match cs with
  | [] => []
  | c :: cs' => mkItem n (Some (values_of c)) :: insert_rows (S n) cs'
  end.

Definition load_customers_to_treeview (d : Desk) : Desk :=
  let a := app d in
  let a := match tree_selection a with
           | [] => a
           | _ :: _ => set_selection a []
           end in
  let customers := get_all_customers (db d) in
  mkDesk (mkApp (timer a) (form a) (insert_rows (tree_serial d) customers)
                (tree_selection a) (after_pending a) (after_serial a))
         (db d)
         (tree_serial d + List.length customers).

(** ** Form accessors *)

Definition set_phone_entry (f : Form) (e : Entry) : Form :=
  mkForm (selected_customer_id f) e (name_entry f) (address_entry f)
         (rate_plan_var f) (add_btn f) (update_btn f) (delete_btn f).

Definition set_name_entry (f : Form) (t : string) : Form :=
  mkForm (selected_customer_id f) (phone_entry f) t (address_entry f)
         (rate_plan_var f) (add_btn f) (update_btn f) (delete_btn f).

Definition set_address_entry (f : Form) (t : string) : Form :=
  mkForm (selected_customer_id f) (phone_entry f) (name_entry f) t
         (rate_plan_var f) (add_btn f) (update_btn f) (delete_btn f).

Definition set_rate_plan_var (f : Form) (k : string) : Form :=
  mkForm (selected_customer_id f) (phone_entry f) (name_entry f)
         (address_entry f) k (add_btn f) (update_btn f) (delete_btn f).

(** [self.phone_entry.config(state=st)] on the application. *)
Definition config_phone (a : App) (st : widget_state) : App :=
  set_form a (set_phone_entry (form a) (entry_config (phone_entry (form a)) st)).

(** Truth of a string in a condition. *)
Definition nonempty (t : string) : bool := negb (String.eqb t "").

(** [phone and name and rate in RATE_PLANS]. *)
Definition fields_valid (phone nm rate : string) : bool :=
  (nonempty phone && nonempty nm && dict_mem RATE_PLANS rate)%bool.

(** ** Handlers *)

(** After a successful change: [clear_customer_entries()], then
    [load_customers_to_treeview()] on the changed database. *)
Definition refresh (a : App) (db' : DB) (serial : nat) : Desk :=
  load_customers_to_treeview (mkDesk (clear_customer_entries a) db' serial).

Definition handle_add_customer (d : Desk) : Desk * list box :=
  let a := config_phone (app d) NORMAL in
  let f := form a in
  let phone := entry_text (phone_entry f) in
  let nm := name_entry f in
  let addr := address_entry f in
  let rate := rate_plan_var f in
  let (d', boxes) :=
    if fields_valid phone nm rate then
      match add_customer (db d) phone nm addr rate with
      | (db', true) => (refresh a db' (tree_serial d), [Info_CustomerAdded nm])
      | (_, false) => (mkDesk a (db d) (tree_serial d), [Err_Integrity])
      end
    else (mkDesk a (db d) (tree_serial d), [Warn_AddInput]) in
  (mkDesk (config_phone (app d') NORMAL) (db d') (tree_serial d'), boxes).

Definition handle_update_customer (d : Desk) : Desk * list box :=
  let f := form (app d) in
  let cust_id := selected_customer_id f in
  let phone := entry_text (phone_entry f) in
  let nm := name_entry f in
  let addr := address_entry f in
  let rate := rate_plan_var f in
  if Z.leb cust_id 0 then (d, [Warn_NoCustomerForUpdate])
  else if fields_valid phone nm rate then
    let a := config_phone (app d) NORMAL in
    match update_customer (db d) cust_id phone nm addr rate with
    | (db', true) => (refresh a db' (tree_serial d), [Info_CustomerUpdated cust_id])
    | (_, false) =>
        (mkDesk (config_phone a DISABLED) (db d) (tree_serial d),
         [Err_Integrity; Err_UpdateFailed])
    end
  else (d, [Warn_UpdateInput]).

(** The name shown in the confirmation: column 2 of the first selected
    row, ["Unknown"] when there is none. *)
Definition selected_name (a : App) : string :=
  match tree_selection a with
  | [] => "Unknown"
  | row :: _ =>
      match item_values a row with
      | Some v => v_name v
      | None => "Unknown"
      end
  end.

(** [confirm] is the answer to [messagebox.askyesno]. *)
Definition handle_delete_customer (d : Desk) (confirm : bool)
  : Desk * list box :=
  let cust_id := selected_customer_id (form (app d)) in
  let nm := selected_name (app d) in
  if Z.leb cust_id 0 then (d, [Warn_NoCustomerForDeletion])
  else if confirm then
    let a := config_phone (app d) NORMAL in
    match delete_customer (db d) cust_id with
    | (db', true) =>
        (refresh a db' (tree_serial d),
         [Ask_ConfirmDeletion cust_id nm; Info_CustomerDeleted cust_id])
    | (_, false) =>
        (mkDesk (config_phone a DISABLED) (db d) (tree_serial d),
         [Ask_ConfirmDeletion cust_id nm; Err_DeletionFailed])
    end
  else (d, [Ask_ConfirmDeletion cust_id nm]).

(** ** Events of the customer tab *)

(** The selection events of the tree, the user's edits of the form and
    the three buttons. A disabled button does not run its command; a
    disabled entry cannot be edited; the read-only combobox offers the
    keys of [RATE_PLANS]. *)
Inductive event :=
  | Sel (e : Selection.event)
  | TypePhone (t : string)
  | TypeName (t : string)
  | TypeAddress (t : string)
  | PickRate (k : string)
  | AddButton
  | UpdateButton
  | DeleteButton (confirm : bool).

Definition with_app (d : Desk) (a : App) : Desk :=
  mkDesk a (db d) (tree_serial d).

Definition step (d : Desk) (e : event) : option (Desk * list box) :=
  let a := app d in
  let f := form a in
  match e with
  | Sel se =>
      match Selection.step a se with
      | Some (a', _) => Some (with_app d a', [])
      | None => None
      end
  | TypePhone t =>
      match entry_state (phone_entry f) with
      | NORMAL => Some (with_app d (set_form a (set_phone_entry f (mkEntry t NORMAL))), [])
      | DISABLED => Some (d, [])
      end
  | TypeName t => Some (with_app d (set_form a (set_name_entry f t)), [])
  | TypeAddress t => Some (with_app d (set_form a (set_address_entry f t)), [])
  | PickRate k =>
      if dict_mem RATE_PLANS k
      then Some (with_app d (set_form a (set_rate_plan_var f k)), [])
      else Some (d, [])
  | AddButton =>
      match add_btn f with
      | NORMAL => Some (handle_add_customer d)
      | DISABLED => Some (d, [])
      end
  | UpdateButton =>
      match update_btn f with
      | NORMAL => Some (handle_update_customer d)
      | DISABLED => Some (d, [])
      end
  | DeleteButton confirm =>
      match delete_btn f with
      | NORMAL => Some (handle_delete_customer d confirm)
      | DISABLED => Some (d, [])
      end
  end.

Fixpoint run (d : Desk) (evs : list event) : option (Desk * list box) :=
  match evs with
  | [] => Some (d, [])
  | e :: evs' =>
      match step d e with
      | None => None
      | Some (d', bs) =>
          match run d' evs' with
          | None => None
          | Some (d'', rest) => Some (d'', (bs ++ rest)%list)
          end
      end
  end.

(** The application as [__init__] leaves it on a database file. *)
Definition init_desk (db0 : DB) : Desk :=
  load_customers_to_treeview (mkDesk (init_app []) db0 0).

(** ** Conditions kept by the customer tab *)

(** Every stored customer passed the handlers' validation. *)
Definition customers_valid (db0 : DB) : Prop :=
  forall c, In c (Customers db0) ->
            fields_valid (phone_number c) (Billing.name c) (rate_plan c) = true.

(** The tree shows the customer table, newest id first. *)
Definition tree_mirrors (d : Desk) : Prop :=
  map values (customer_tree (app d))
  = map (fun c => Some (values_of c)) (get_all_customers (db d)).

(** What the form's mode says about the selected customer. *)
Definition form_ok (db0 : DB) (f : Form) : Prop :=
  match form_mode f with
  | Some AddMode => selected_customer_id f = 0%Z
  | Some UpdateMode =>
      entry_state (phone_entry f) = DISABLED
      /\ exists c, In c (Customers db0)
                   /\ customer_id c = selected_customer_id f
                   /\ phone_number c = entry_text (phone_entry f)
  | Some DeleteMode =>
      exists c, In c (Customers db0) /\ customer_id c = selected_customer_id f
  | None => False
  end.

(** What holds of the widgets whatever the database started as. *)
Record view_ok (d : Desk) : Prop := mkViewOk {
  ok_timer : timer_tracks (app d);
  ok_tree : tree_mirrors d;
  ok_form : form_ok (db d) (form (app d))
}.

(** The states the customer tab reaches from start-up on [db0]. *)
Definition reachable_from (db0 : DB) (d : Desk) : Prop :=
  exists evs boxes, run (init_desk db0) evs = Some (d, boxes).

(** ** Sample data *)

Definition desk_two : Desk := Eval cbv in init_desk db_two_customers.

(** [desk_two] after a single click on its first row (customer 2) and
    the expiry of the timer, and after a click and a double click on it. *)
Definition desk_two_delete : Desk :=
  Eval cbv in
    match run desk_two [Sel (TreeviewSelect [0]); Sel (AfterFires 0)] with
    | Some (d, _) => d
    | None => desk_two
    end.


(** [desk_two] after a third customer was typed in and added. *)
Definition desk_two_added : Desk :=
  Eval cbv in
    match run desk_two [TypePhone "555-0102"; TypeName "Cy"; PickRate "Business";
                        AddButton] with
    | Some (d, _) => d
    | None => desk_two
    end.

End Desk.

(** * The call-log and billing tabs over the customer tab *)

Module Office.
Import Billing Store Selection Desk.

Local Open Scope Z_scope.
Local Open Scope string_scope.

(** [f"{name} ({phone})"]. *)
Definition display_name (c : Customer) : string :=
  Billing.name c ++ " (" ++ phone_number c ++ ")".

(** [customer_phone_map]: display name to [{'id': .., 'phone': ..}].
    Only [get] is ever applied to it; an assignment is kept as a new
    binding in front, which [map_get] finds first, as the last
    assignment to a key is the one a dict returns. *)
Definition phone_map := list (string * (Z * string)).

Fixpoint map_get (m : phone_map) (k : string) : option (Z * string) :=
  match m with
  | [] => None
  | (k', v) :: m' => if String.eqb k' k then Some v else map_get m' k
  end.

Definition build_phone_map (customers : list Customer) : phone_map :=
  fold_left (fun m c => (display_name c, (customer_id c, phone_number c)) :: m)
            customers [].

(** The application with its three tabs. The bill tree of the billing
    tab, which only [handle_customer_select] fills and nothing reads, is
    not part of the state. *)
Record Office := mkOffice {
  desk : Desk;
  customer_phone_map : phone_map;
  customer_options : list string;
  call_customer_var : string;
  callee_entry : string;
  duration_entry : string;
  bill_customer_var : string;
  billing_period_var : string
}.

Definition set_desk (o : Office) (d : Desk) : Office :=
  mkOffice d (customer_phone_map o) (customer_options o) (call_customer_var o)
           (callee_entry o) (duration_entry o) (bill_customer_var o)
           (billing_period_var o).

Definition set_db (o : Office) (db' : DB) : Office :=
  set_desk o (mkDesk (app (desk o)) db' (tree_serial (desk o))).

(** The selection a dropdown keeps: the current one when it is still an
    option, else the first option, else the empty string. *)
Definition keep_or_first (current : string) (options : list string) : string :=
  match options with
  | [] => ""
  | first :: _ =>
      if existsb (String.eqb current) options then current else first
  end.

Definition update_customer_dropdowns (o : Office) : Office :=
  let customers := get_all_customers (db (desk o)) in
  let options := map display_name customers in
  mkOffice (desk o) (build_phone_map customers) options
           (keep_or_first (call_customer_var o) options)
           (callee_entry o) (duration_entry o)
           (keep_or_first (bill_customer_var o) options)
           (billing_period_var o).

(** The boxes of the two tabs, next to those of the customer tab and of
    the data-access functions. *)
Inductive office_box :=
  | Tab_box (b : box)
  | Store_box (m : message)
  | Warn_AllFieldsRequired
  | Warn_DurationNotPositive
  | Warn_DurationNotInteger
  | Err_SelectedCustomerNotFound
  | Warn_CustomerAndPeriod.

(** The boxes [add_customer], [update_customer] and [delete_customer]
    show on success: the branches that go on to
    [update_customer_dropdowns]. *)
Definition is_change_info (b : box) : bool :=
  match b with
  | Info_CustomerAdded _ | Info_CustomerUpdated _ | Info_CustomerDeleted _ => true
  | _ => false
  end.

Section WithInt.

(** [int(duration_str)]: [None] stands for [ValueError]. An exception
    that escapes [log_call] ends the handler where it is: Tk reports it
    on the error stream, and no box is shown. *)
Variable int_of_string : string -> option Z.

Definition handle_log_call (o : Office) (now : string)
  : Office * list office_box :=
  let selected := call_customer_var o in
  let callee := callee_entry o in
  let duration_str := duration_entry o in
  if (negb (nonempty selected) || negb (nonempty callee)
      || negb (nonempty duration_str))%bool
  then (o, [Warn_AllFieldsRequired])
  else
    match int_of_string duration_str with
    | None => (o, [Warn_DurationNotInteger])
    | Some duration =>
        if Z.leb duration 0 then (o, [Warn_DurationNotPositive])
        else
          match map_get (customer_phone_map o) selected with
          | Some (_, calling_phone) =>
              if nonempty calling_phone then
                match log_call (db (desk o)) calling_phone callee duration now with
                | (db', msgs, Returns true) =>
                    (mkOffice (desk (set_db o db')) (customer_phone_map o)
                              (customer_options o) (call_customer_var o) ""
                              (duration_entry o) (bill_customer_var o)
                              (billing_period_var o),
                     map Store_box msgs)
                | (db', msgs, Returns false) => (set_db o db', map Store_box msgs)
                | (_, _, Raises _) => (o, [])
                end
              else (o, [Err_SelectedCustomerNotFound])
          | None => (o, [Err_SelectedCustomerNotFound])
          end
    end.

Definition handle_generate_bill (o : Office) (flt : option store_op)
    (now : string) : Office * list office_box :=
  let selected := bill_customer_var o in
  let period := billing_period_var o in
  if (negb (nonempty selected) || negb (nonempty period))%bool
  then (o, [Warn_CustomerAndPeriod])
  else
    match map_get (customer_phone_map o) selected with
    | Some (cid, _) =>
        if Z.eqb cid 0 then (o, [])
        else
          let out := generate_bill flt (db (desk o)) cid period now in
          (set_db o (out_db out), map Store_box (out_msgs out))
    | None => (o, [])
    end.

(** The events of the three tabs. The two comboboxes are read-only and
    offer [customer_options]. *)
Inductive event :=
  | Tab (e : Desk.event)
  | PickCallCustomer (k : string)
  | TypeCallee (t : string)
  | TypeDuration (t : string)
  | LogCallButton (now : string)
  | PickBillCustomer (k : string)
  | TypePeriod (t : string)
  | GenerateButton (flt : option store_op) (now : string).

Definition step (o : Office) (e : event) : option (Office * list office_box) :=
  match e with
  | Tab te =>
      match Desk.step (desk o) te with
      | None => None
      | Some (d', boxes) =>
          let o' := set_desk o d' in
          Some (if existsb is_change_info boxes
                then update_customer_dropdowns o' else o',
                map Tab_box boxes)
      end
  | PickCallCustomer k =>
      if existsb (String.eqb k) (customer_options o)
      then Some (mkOffice (desk o) (customer_phone_map o) (customer_options o)
                          k (callee_entry o) (duration_entry o)
                          (bill_customer_var o) (billing_period_var o), [])
      else Some (o, [])
  | TypeCallee t =>
      Some (mkOffice (desk o) (customer_phone_map o) (customer_options o)
                     (call_customer_var o) t (duration_entry o)
                     (bill_customer_var o) (billing_period_var o), [])
  | TypeDuration t =>
      Some (mkOffice (desk o) (customer_phone_map o) (customer_options o)
                     (call_customer_var o) (callee_entry o) t
                     (bill_customer_var o) (billing_period_var o), [])
  | LogCallButton now => Some (handle_log_call o now)
  | PickBillCustomer k =>
      if existsb (String.eqb k) (customer_options o)
      then Some (mkOffice (desk o) (customer_phone_map o) (customer_options o)
                          (call_customer_var o) (callee_entry o)
                          (duration_entry o) k (billing_period_var o), [])
      else Some (o, [])
  | TypePeriod t =>
      Some (mkOffice (desk o) (customer_phone_map o) (customer_options o)
                     (call_customer_var o) (callee_entry o) (duration_entry o)
                     (bill_customer_var o) t, [])
  | GenerateButton flt now => Some (handle_generate_bill o flt now)
  end.

Fixpoint run (o : Office) (evs : list event)
  : option (Office * list office_box) :=
  match evs with
  | [] => Some (o, [])
  | e :: evs' =>
      match step o e with
      | None => None
      | Some (o', bs) =>
          match run o' evs' with
          | None => None
          | Some (o'', rest) => Some (o'', (bs ++ rest)%list)
          end
      end
  end.

(** The application as [__init__] leaves it; [month] is the
    ["%Y-%m"] of the clock at start-up. *)
Definition init_office (db0 : DB) (month : string) : Office :=
  update_customer_dropdowns
    (mkOffice (init_desk db0) [] [] "" "" "60" "" month).

Definition reachable_from (db0 : DB) (month : string) (o : Office) : Prop :=
  exists evs boxes, run (init_office db0 month) evs = Some (o, boxes).

End WithInt.

(** ** Conditions on the call and bill tables *)

(** Calls as [handle_log_call] lets them through. *)
Definition calls_positive (db0 : DB) : Prop :=
  forall r, In r (CallLogs db0) ->
            0 < duration_seconds r /\ (0 < cost r)%Q.

(** Bills as [generate_bill] writes them and [handle_generate_bill]
    asks for them. *)
Definition bills_counted (db0 : DB) : Prop :=
  forall b, In b (BillHistory db0) ->
            1 <= total_calls b /\ total_charge b <> None
            /\ customer_exists db0 (bill_customer_id b) = true.

Definition bills_named (db0 : DB) : Prop :=
  forall b, In b (BillHistory db0) -> billing_period b <> "".

(** The dropdowns and the map as [update_customer_dropdowns] builds
    them from the current table. *)
Definition dropdowns_current (o : Office) : Prop :=
  customer_phone_map o = build_phone_map (get_all_customers (db (desk o)))
  /\ customer_options o = map display_name (get_all_customers (db (desk o))).

(** ** Sample data *)

(** A stand-in for [int] on strings of ASCII digits. *)
Fixpoint digits_value (s : string) (acc : Z) : option Z :=
  match s with
  | EmptyString => Some acc
  | String c s' =>
      let n := Z.of_nat (nat_of_ascii c) in
      if (Z.leb 48 n && Z.leb n 57)%bool
      then digits_value s' (10 * acc + (n - 48))
      else None
  end.

Definition digits_int (s : string) : option Z :=
  match s with
  | EmptyString => None
  | _ => digits_value s 0
  end.

Definition office_two : Office :=
  Eval cbv in init_office db_two_customers "2024-05".

(** [office_two] with a callee typed in. *)
Definition office_two_call : Office :=
  Eval cbv in
    match run digits_int office_two [TypeCallee "555-0199"] with
    | Some (o, _) => o
    | None => office_two
    end.

End Office.

(** * Properties of the billing engine *)

Module BillingSpec.
Import Billing.

Local Open Scope Z_scope.
Local Open Scope string_scope.

(** ** Running the model *)

Example like_prefix_hit : like "2024-05%" "2024-05-03 10:00:00" = true.
Proof. reflexivity. Qed.

Example like_prefix_miss : like "2024-06%" "2024-05-03 10:00:00" = false.
Proof. reflexivity. Qed.

Example like_percent_inside : like "%05%" "2024-05-03 10:00:00" = true.
Proof. reflexivity. Qed.

Example like_folds_case : like "ab%" "ABc" = true.
Proof. reflexivity. Qed.

Example history_one_call :
  history [OpAddCustomer "555-0100" "Ada" "1 Main St" "Standard";
           OpLogCall "555-0100" "555-0199" 120 "2024-05-03 10:00:00"]
  = db_one_call.
Proof. reflexivity. Qed.

Example generate_bill_first :
  BillHistory (out_db (generate_bill None db_one_call 1 "2024-05" "2024-06-01 09:00:00"))
  = [mkBill 1 1 "2024-05" 1 (Some (0 + inject_Z 120 * (5 # 100))%Q) "2024-06-01 09:00:00"].
Proof. reflexivity. Qed.

(** ** The aggregate query *)

Lemma sum_count_some db cid pat charge calls :
  select_sum_count db cid pat = (charge, calls) ->
  calls <> 0 -> exists ch, charge = Some ch.
Proof.
  unfold select_sum_count.
  destruct (filter (call_matches cid pat) (CallLogs db)) as [|r rows];
    simpl; intros E Hn; inversion E; subst.
  - congruence.
  - eexists; reflexivity.
Qed.

Lemma sum_count_zero db cid pat :
  snd (select_sum_count db cid pat) = 0 <->
  filter (call_matches cid pat) (CallLogs db) = [].
Proof.
  unfold select_sum_count; simpl.
  destruct (filter (call_matches cid pat) (CallLogs db)); simpl; split;
    intros H; try reflexivity; try discriminate; lia.
Qed.

(** ** The limits of the store *)



(** The aggregate query either raises on its parameters or answers the
    aggregate. *)
Lemma select_calls_cases db cid pat :
  (exists e, select_calls db cid pat = inl e)
  \/ select_calls db cid pat = inr (select_sum_count db cid pat).
Proof.
  unfold select_calls.
  destruct (negb (sqlite_int cid)); [left; eexists; reflexivity|].
  destruct (negb (sqlite_text pat)); [left; eexists; reflexivity|].
  destruct (Z.ltb SQLITE_MAX_LIKE_PATTERN_LENGTH (byte_length pat)
            && existsb (fun r => Z.eqb (call_customer_id r) cid) (CallLogs db))%bool;
    [left; eexists; reflexivity | right; reflexivity].
Qed.


Lemma select_calls_inr db cid pat x :
  select_calls db cid pat = inr x -> x = select_sum_count db cid pat.
Proof.
  destruct (select_calls_cases db cid pat) as [[e ->] | ->];
    [discriminate | intros E; inversion E; reflexivity].
Qed.

(** An id and a filter within the limits: the query answers. *)
Lemma select_calls_ok db cid pat :
  sqlite_int cid = true ->
  byte_length pat <= SQLITE_MAX_LIKE_PATTERN_LENGTH ->
  select_calls db cid pat = inr (select_sum_count db cid pat).
Proof.
  intros Hc Hp. unfold select_calls, sqlite_text. rewrite Hc. cbn [negb].
  assert (H1 : Z.leb (byte_length pat) SQLITE_MAX_LENGTH = true)
    by (apply Z.leb_le; unfold SQLITE_MAX_LENGTH, SQLITE_MAX_LIKE_PATTERN_LENGTH in *;
        lia).
  assert (H2 : Z.ltb SQLITE_MAX_LIKE_PATTERN_LENGTH (byte_length pat) = false)
    by (apply Z.ltb_ge; exact Hp).
  rewrite H1, H2. reflexivity.
Qed.

(** The query depends on the call table only. *)
Lemma select_calls_calls db db' cid pat :
  CallLogs db' = CallLogs db ->
  select_calls db' cid pat = select_calls db cid pat.
Proof. unfold select_calls, select_sum_count. intros ->. reflexivity. Qed.

(** ** [generate_bill] without a fault *)

Lemma generate_bill_None db cid period now :
  generate_bill None db cid period now =
  match select_calls db cid (period ++ "%") with
  | inl e => mkOutcome db [Error_FailedToGenerateBill e] None
  | inr (charge, calls) =>
      if Z.eqb calls 0 then mkOutcome db [Info_NoCalls] None
      else
        match select_bill_id db cid period with
        | Some bid =>
            match format_charge charge (Info_BillUpdated period) with
            | inl e => mkOutcome (update_bill db bid calls charge now)
                                 [Error_FailedToGenerateBill e] None
            | inr msgs => mkOutcome (update_bill db bid calls charge now) msgs None
            end
        | None =>
            match format_charge charge (Info_BillGenerated period) with
            | inl e => mkOutcome (insert_bill db cid period calls charge now)
                                 [Error_FailedToGenerateBill e] None
            | inr msgs =>
                mkOutcome (insert_bill db cid period calls charge now) msgs None
            end
        end
  end.
Proof.
  unfold generate_bill, generate_bill_try, attempt; cbv beta iota.
  destruct (select_calls db cid (period ++ "%")) as [e | [charge calls]];
    [reflexivity|].
  destruct (Z.eqb calls 0); [reflexivity|].
  destruct (select_bill_id db cid period); reflexivity.
Qed.

(** A statement that raises on its parameters: the error box, nothing
    written. *)
Lemma generate_bill_raises db cid period now e :
  select_calls db cid (period ++ "%") = inl e ->
  generate_bill None db cid period now
  = mkOutcome db [Error_FailedToGenerateBill e] None.
Proof. intros E. rewrite generate_bill_None, E. reflexivity. Qed.

(** A query that counts no call: the "no calls" box, nothing written. *)
Lemma generate_bill_zero_count db cid period now charge :
  select_calls db cid (period ++ "%") = inr (charge, 0) ->
  generate_bill None db cid period now = mkOutcome db [Info_NoCalls] None.
Proof. intros E. rewrite generate_bill_None, E. reflexivity. Qed.

(** With at least one matching call the sum is a number, so the box
    shown is the update or the insert one. *)
Lemma generate_bill_writes db cid period now charge calls :
  select_calls db cid (period ++ "%") = inr (charge, calls) ->
  calls <> 0 ->
  exists ch, charge = Some ch /\
  generate_bill None db cid period now =
  match select_bill_id db cid period with
  | Some bid => mkOutcome (update_bill db bid calls charge now)
                          [Info_BillUpdated period ch] None
  | None => mkOutcome (insert_bill db cid period calls charge now)
                      [Info_BillGenerated period ch] None
  end.
Proof.
  intros E Hn.
  assert (E' := eq_sym (select_calls_inr _ _ _ _ E)).
  destruct (sum_count_some _ _ _ _ _ E' Hn) as [ch ->].
  exists ch; split; [reflexivity|].
  rewrite generate_bill_None, E.
  apply Z.eqb_neq in Hn; rewrite Hn.
  destruct (select_bill_id db cid period); reflexivity.
Qed.

(** ** Rows after an update or an insert *)

Lemma update_bill_rows db bid calls charge now :
  BillHistory (update_bill db bid calls charge now)
  = map (touch bid calls charge now) (BillHistory db).
Proof. reflexivity. Qed.

Lemma touch_id bid calls charge now b :
  bill_id (touch bid calls charge now b) = bill_id b.
Proof. unfold touch; destruct (Z.eqb (bill_id b) bid); reflexivity. Qed.

Lemma touch_key bid calls charge now b :
  bill_key (touch bid calls charge now b) = bill_key b.
Proof. unfold touch; destruct (Z.eqb (bill_id b) bid); reflexivity. Qed.

Lemma touch_matches cid period bid calls charge now b :
  bill_matches cid period (touch bid calls charge now b) = bill_matches cid period b.
Proof. unfold touch; destruct (Z.eqb (bill_id b) bid); reflexivity. Qed.

Lemma bill_matches_key cid period b :
  bill_matches cid period b = true <-> bill_key b = (cid, period).
Proof.
  unfold bill_matches, bill_key. rewrite andb_true_iff, Z.eqb_eq, String.eqb_eq.
  split; [intros [-> ->]; reflexivity | intros E; inversion E; auto].
Qed.

Section ListFacts.
Context {A B : Type}.

Lemma find_map_stable (P : A -> bool) (f : A -> A) (l : list A) :
  (forall x, P (f x) = P x) ->
  find P (map f l) = option_map f (find P l).
Proof.
  intros HP. induction l as [|x l IH]; simpl; [reflexivity|].
  rewrite HP. destruct (P x); [reflexivity | exact IH].
Qed.

Lemma filter_map_stable (P : A -> bool) (f : A -> A) (l : list A) :
  (forall x, P (f x) = P x) ->
  filter P (map f l) = map f (filter P l).
Proof.
  intros HP. induction l as [|x l IH]; simpl; [reflexivity|].
  rewrite HP. destruct (P x); simpl; rewrite IH; reflexivity.
Qed.

Lemma find_none_filter (P : A -> bool) (l : list A) :
  find P l = None -> filter P l = [].
Proof.
  induction l as [|x l IH]; simpl; [reflexivity|].
  destruct (P x); [discriminate | exact IH].
Qed.

Lemma find_snoc (P : A -> bool) (l : list A) (x : A) :
  find P (l ++ [x]) =
  match find P l with
  | Some y => Some y
  | None => if P x then Some x else None
  end.
Proof.
  induction l as [|y l IH]; simpl; [reflexivity|].
  destruct (P y); [reflexivity | exact IH].
Qed.

Lemma NoDup_snoc (l : list A) (x : A) :
  NoDup l -> ~ In x l -> NoDup (l ++ [x]).
Proof.
  induction 1 as [|y l Hy Hl IH]; simpl; intros Hx.
  - constructor; [intros [] | constructor].
  - constructor.
    + rewrite in_app_iff; simpl. intros [H | [H | []]]; [auto | subst; auto].
    + apply IH; auto.
Qed.

(** Under a key without duplicates, the first row found for a key is
    the only one. *)
Lemma find_unique_filter (key : A -> B) (P : A -> bool) (k : B)
    (l : list A) (b : A) :
  (forall x, P x = true <-> key x = k) ->
  NoDup (map key l) ->
  find P l = Some b -> filter P l = [b].
Proof.
  intros HP. induction l as [|x l IH]; simpl; intros Hnd Hf; [discriminate|].
  inversion Hnd as [|? ? Hx Hl]; subst.
  destruct (P x) eqn:Px.
  - inversion Hf; subst. f_equal.
    apply HP in Px.
    clear IH Hf Hl Hnd. induction l as [|y l IHl]; simpl; [reflexivity|].
    destruct (P y) eqn:Py.
    + exfalso. apply Hx. apply HP in Py. simpl. left. congruence.
    + apply IHl. intros H; apply Hx; simpl; auto.
  - apply IH; assumption.
Qed.

Lemma nodup_filter_le1 (key : A -> B) (P : A -> bool) (k : B) (l : list A) :
  (forall x, P x = true <-> key x = k) ->
  NoDup (map key l) -> (List.length (filter P l) <= 1)%nat.
Proof.
  intros HP Hnd. destruct (find P l) as [b|] eqn:Hf.
  - rewrite (find_unique_filter key P k l b HP Hnd Hf). simpl; lia.
  - rewrite (find_none_filter _ _ Hf). simpl; lia.
Qed.
End ListFacts.

Lemma select_bill_id_update db bid calls charge now cid period :
  select_bill_id (update_bill db bid calls charge now) cid period
  = select_bill_id db cid period.
Proof.
  unfold select_bill_id. rewrite update_bill_rows.
  rewrite find_map_stable by (intros; apply touch_matches).
  destruct (find (bill_matches cid period) (BillHistory db)); simpl;
    [rewrite touch_id|]; reflexivity.
Qed.

Lemma select_bill_id_insert db cid period calls charge now :
  select_bill_id db cid period = None ->
  select_bill_id (insert_bill db cid period calls charge now) cid period
  = Some (seq_bills db + 1).
Proof.
  unfold select_bill_id; simpl. rewrite find_snoc.
  destruct (find (bill_matches cid period) (BillHistory db)); [discriminate|].
  intros _. unfold bill_matches; simpl.
  rewrite Z.eqb_refl, String.eqb_refl. reflexivity.
Qed.

Lemma bills_for_update db bid calls charge now cid period :
  bills_for (update_bill db bid calls charge now) cid period
  = map (touch bid calls charge now) (bills_for db cid period).
Proof.
  unfold bills_for. rewrite update_bill_rows.
  apply filter_map_stable. intros; apply touch_matches.
Qed.

Lemma bills_ok_update db bid calls charge now :
  bills_ok db -> bills_ok (update_bill db bid calls charge now).
Proof.
  intros [Hid Hle Hkey]. constructor.
  - rewrite update_bill_rows, map_map.
    erewrite map_ext; [exact Hid | intros; apply touch_id].
  - rewrite update_bill_rows. intros b Hb.
    apply in_map_iff in Hb as [b0 [<- Hb0]].
    rewrite touch_id. simpl. apply Hle; assumption.
  - rewrite update_bill_rows, map_map.
    erewrite map_ext; [exact Hkey | intros; apply touch_key].
Qed.

Lemma select_none_no_key db cid period :
  select_bill_id db cid period = None ->
  ~ In (cid, period) (map bill_key (BillHistory db)).
Proof.
  unfold select_bill_id. intros Hs Hin.
  apply in_map_iff in Hin as [b [Hk Hb]].
  destruct (find (bill_matches cid period) (BillHistory db)) eqn:Hf;
    [discriminate|].
  pose proof (find_none _ _ Hf b Hb) as Hm.
  apply bill_matches_key in Hk. congruence.
Qed.

Lemma bills_ok_insert db cid period calls charge now :
  bills_ok db -> select_bill_id db cid period = None ->
  bills_ok (insert_bill db cid period calls charge now).
Proof.
  intros [Hid Hle Hkey] Hs. constructor; simpl.
  - rewrite map_app; simpl. apply NoDup_snoc; [assumption|].
    intros Hin. apply in_map_iff in Hin as [b [Hb Hin]].
    apply Hle in Hin. lia.
  - intros b Hb. apply in_app_iff in Hb as [Hb | [<- | []]]; simpl.
    + apply Hle in Hb. lia.
    + lia.
  - rewrite map_app; simpl. apply NoDup_snoc; [assumption|].
    apply select_none_no_key; assumption.
Qed.

(** ** What a call can do to the store *)

Lemma generate_bill_atomic flt db cid period now :
  out_db (generate_bill flt db cid period now) = db
  \/ generate_bill flt db cid period now = generate_bill None db cid period now.
Proof.
  unfold generate_bill, generate_bill_try.
  destruct flt as [[]|]; cbn [attempt store_op_eqb]; auto;
    destruct (select_calls db cid (period ++ "%")) as [e | [charge calls]]; auto;
    destruct (Z.eqb calls 0); auto;
    destruct (select_bill_id db cid period); auto.
Qed.

Lemma generate_bill_tables flt db cid period now :
  Customers (out_db (generate_bill flt db cid period now)) = Customers db
  /\ CallLogs (out_db (generate_bill flt db cid period now)) = CallLogs db.
Proof.
  destruct (generate_bill_atomic flt db cid period now) as [-> | ->]; auto.
  rewrite generate_bill_None.
  destruct (select_calls db cid (period ++ "%")) as [e | [charge calls]]; auto.
  destruct (Z.eqb calls 0); auto.
  destruct (select_bill_id db cid period);
    [destruct (format_charge charge (Info_BillUpdated period))
    |destruct (format_charge charge (Info_BillGenerated period))]; auto.
Qed.

Lemma bills_ok_generate flt db cid period now :
  bills_ok db -> bills_ok (out_db (generate_bill flt db cid period now)).
Proof.
  intros Hok.
  destruct (generate_bill_atomic flt db cid period now) as [-> | ->]; auto.
  rewrite generate_bill_None.
  destruct (select_calls db cid (period ++ "%")) as [e | [charge calls]]; auto.
  destruct (Z.eqb calls 0); auto.
  destruct (select_bill_id db cid period) eqn:Hs;
    [destruct (format_charge charge (Info_BillUpdated period))
    |destruct (format_charge charge (Info_BillGenerated period))]; simpl;
    auto using bills_ok_update, bills_ok_insert.
Qed.

Lemma select_sum_count_calls db db' cid pat :
  CallLogs db' = CallLogs db ->
  select_sum_count db' cid pat = select_sum_count db cid pat.
Proof. unfold select_sum_count; intros ->; reflexivity. Qed.

Lemma select_found db cid period bid :
  bills_ok db -> select_bill_id db cid period = Some bid ->
  exists b, bills_for db cid period = [b]
            /\ bill_id b = bid /\ bill_customer_id b = cid
            /\ billing_period b = period.
Proof.
  intros [_ _ Hkey]. unfold select_bill_id, bills_for.
  destruct (find (bill_matches cid period) (BillHistory db)) as [b|] eqn:Hf;
    simpl; intros E; inversion E; subst.
  exists b. split.
  - apply (find_unique_filter bill_key _ (cid, period)); auto.
    intros; apply bill_matches_key.
  - apply find_some in Hf as [_ Hm]. apply bill_matches_key in Hm.
    inversion Hm; auto.
Qed.

(** Re-running the [UPDATE] with the same totals changes timestamps only. *)
Lemma touch_again bid calls charge t1 t2 b :
  bill_content (touch bid calls charge t2 (touch bid calls charge t1 b))
  = bill_content (touch bid calls charge t1 b).
Proof.
  unfold touch. destruct (Z.eqb (bill_id b) bid) eqn:E; simpl; rewrite E; reflexivity.
Qed.

Lemma touch_other bid calls charge now b :
  bill_id b <> bid -> touch bid calls charge now b = b.
Proof. unfold touch. intros H. apply Z.eqb_neq in H. rewrite H. reflexivity. Qed.

(** ** Generating the same bill twice *)

(** C1. Two calls of [generate_bill] in a row for the same customer and
    period, with no call logged in between, run the same aggregate query
    with the same answer, find the same bill id, store the same
    (total_calls, total_charge) and leave at most one row for the pair.
    When the query counts a call, the first call writes the bill (an
    [INSERT] under the next bill id when the pair had no row, an [UPDATE]
    of its row when it had one) and the second call takes the [UPDATE]
    branch on that very row, changing nothing but its timestamp. When the
    query counts none, or raises on its parameters, both calls show the
    same box and write nothing. *)
Theorem generate_bill_idempotent db cid period t1 t2 :
  bills_ok db ->
  let o1 := generate_bill None db cid period t1 in
  let o2 := generate_bill None (out_db o1) cid period t2 in
  select_bill_id (out_db o2) cid period = select_bill_id (out_db o1) cid period
  /\ select_calls (out_db o1) cid (period ++ "%")
     = select_calls db cid (period ++ "%")
  /\ map bill_content (BillHistory (out_db o2))
     = map bill_content (BillHistory (out_db o1))
  /\ (List.length (bills_for (out_db o2) cid period) <= 1)%nat
  /\ match select_calls db cid (period ++ "%") with
     | inl e => o1 = mkOutcome db [Error_FailedToGenerateBill e] None /\ o2 = o1
     | inr (charge, calls) =>
         if Z.eqb calls 0
         then o1 = mkOutcome db [Info_NoCalls] None /\ o2 = o1
         else
           exists bid ch,
             charge = Some ch
             /\ match select_bill_id db cid period with
                | Some bid0 =>
                    bid = bid0 /\ out_msgs o1 = [Info_BillUpdated period ch]
                | None =>
                    bid = seq_bills db + 1
                    /\ out_msgs o1 = [Info_BillGenerated period ch]
                end
             /\ select_bill_id (out_db o1) cid period = Some bid
             /\ bills_for (out_db o1) cid period
                = [mkBill bid cid period calls (Some ch) t1]
             /\ bills_for (out_db o2) cid period
                = [mkBill bid cid period calls (Some ch) t2]
             /\ out_msgs o2 = [Info_BillUpdated period ch]
     end.
Proof.
  intros Hok; cbv zeta.
  assert (Hle : forall o, bills_ok (out_db o) ->
                (List.length (bills_for (out_db o) cid period) <= 1)%nat).
  { intros o [_ _ Hk]. apply (nodup_filter_le1 bill_key _ (cid, period)); auto.
    intros; apply bill_matches_key. }
  assert (Hsame : forall o : outcome, out_db o = db ->
            select_bill_id (out_db o) cid period = select_bill_id db cid period
            /\ map bill_content (BillHistory (out_db o))
               = map bill_content (BillHistory db)
            /\ (List.length (bills_for (out_db o) cid period) <= 1)%nat).
  { intros o Ho. rewrite Ho. repeat split.
    apply (Hle (mkOutcome db [] None)); exact Hok. }
  pose proof (select_calls_calls db
                (out_db (generate_bill None db cid period t1)) cid (period ++ "%")
                (proj2 (generate_bill_tables None db cid period t1))) as Hq.
  destruct (select_calls db cid (period ++ "%")) as [e | [charge calls]] eqn:E.
  - assert (H1 : forall t, generate_bill None db cid period t
                             = mkOutcome db [Error_FailedToGenerateBill e] None)
      by (intros t; apply generate_bill_raises; exact E).
    rewrite (H1 t1) in *; cbn [out_db] in *. rewrite (H1 t2).
    destruct (Hsame (mkOutcome db [Error_FailedToGenerateBill e] None) eq_refl)
      as [Ha [Hb Hc]].
    repeat split; auto.
  - destruct (Z.eqb_spec calls 0) as [Hz | Hnz].
    + subst calls.
      assert (H1 : forall t, generate_bill None db cid period t
                               = mkOutcome db [Info_NoCalls] None)
        by (intros t; apply (generate_bill_zero_count _ _ _ _ charge); exact E).
      rewrite (H1 t1) in *; cbn [out_db] in *. rewrite (H1 t2).
      destruct (Hsame (mkOutcome db [Info_NoCalls] None) eq_refl) as [Ha [Hb Hc]].
      repeat split; auto.
    + destruct (generate_bill_writes db cid period t1 charge calls E Hnz)
        as [ch [-> H1]].
      set (db1 := out_db (generate_bill None db cid period t1)) in *.
      assert (Hok1 : bills_ok db1) by (apply bills_ok_generate; exact Hok).
      destruct (generate_bill_writes db1 cid period t2 _ _ Hq Hnz) as [ch' [Ech H2]].
      inversion Ech; subst ch'; clear Ech.
      assert (Hrow : exists bid,
                 match select_bill_id db cid period with
                 | Some bid0 =>
                     bid = bid0
                     /\ out_msgs (generate_bill None db cid period t1)
                        = [Info_BillUpdated period ch]
                 | None =>
                     bid = seq_bills db + 1
                     /\ out_msgs (generate_bill None db cid period t1)
                        = [Info_BillGenerated period ch]
                 end
                 /\ select_bill_id db1 cid period = Some bid
                 /\ bills_for db1 cid period
                    = [mkBill bid cid period calls (Some ch) t1]
                 /\ (forall b, In b (BillHistory db1) -> bill_id b = bid ->
                        total_calls b = calls /\ total_charge b = Some ch)).
      { subst db1. rewrite H1.
        destruct (select_bill_id db cid period) as [bid|] eqn:Hs;
          cbn [out_db out_msgs].
        - exists bid. rewrite select_bill_id_update, bills_for_update.
          destruct (select_found db cid period bid Hok Hs) as [b [-> [Hb [Hc Hp]]]].
          split; [split; reflexivity|]. split; [exact Hs|]. split.
          + simpl. unfold touch. rewrite Hb, Z.eqb_refl, Hc, Hp. reflexivity.
          + intros x Hx Hid. rewrite update_bill_rows in Hx.
            apply in_map_iff in Hx as [y [<- _]].
            rewrite touch_id in Hid. unfold touch.
            apply Z.eqb_eq in Hid; rewrite Hid. split; reflexivity.
        - exists (seq_bills db + 1).
          rewrite select_bill_id_insert by assumption.
          split; [split; reflexivity|]. split; [reflexivity|]. split.
          + unfold bills_for; simpl. rewrite filter_app; simpl.
            unfold select_bill_id in Hs.
            destruct (find (bill_matches cid period) (BillHistory db)) eqn:Hf;
              [discriminate|].
            rewrite (find_none_filter _ _ Hf); simpl.
            unfold bill_matches; simpl. rewrite Z.eqb_refl, String.eqb_refl.
            reflexivity.
          + destruct Hok as [_ Hbelow _].
            intros x Hx Hid. apply in_app_iff in Hx as [Hx | [<- | []]].
            * apply Hbelow in Hx. lia.
            * split; reflexivity. }
      destruct Hrow as [bid [Hfirst [Hs1 [Hb1 Hsame1]]]].
      rewrite Hs1 in H2. rewrite H2; cbn [out_db out_msgs].
      split; [apply select_bill_id_update|].
      split; [exact Hq|].
      split.
      { rewrite update_bill_rows, map_map. apply map_ext_in. intros b Hb.
        unfold touch. destruct (Z.eqb (bill_id b) bid) eqn:Eb; [|reflexivity].
        apply Z.eqb_eq in Eb. destruct (Hsame1 b Hb Eb) as [Hc Hch].
        unfold bill_content; simpl. rewrite Hc, Hch. reflexivity. }
      split.
      { apply (Hle (mkOutcome (update_bill db1 bid calls (Some ch) t2) [] None)).
        simpl. apply bills_ok_update; exact Hok1. }
      exists bid, ch.
      rewrite bills_for_update, Hb1; simpl.
      unfold touch; simpl. rewrite Z.eqb_refl.
      repeat split; auto.
Qed.

Lemma bills_ok_one_call : bills_ok db_one_call.
Proof.
  constructor; simpl; [constructor | intros b [] | constructor].
Qed.

Lemma generate_bill_idempotent_witness :
  bills_ok db_one_call
  /\ exists bid ch,
       bills_for (out_db (generate_bill None db_one_call 1 "2024-05"
                                        "2024-06-01 09:00:00"))
                 1 "2024-05"
       = [mkBill bid 1 "2024-05" 1 (Some ch) "2024-06-01 09:00:00"]
       /\ bills_for
            (out_db (generate_bill None
                       (out_db (generate_bill None db_one_call 1 "2024-05"
                                              "2024-06-01 09:00:00"))
                       1 "2024-05" "2024-06-01 09:05:00"))
            1 "2024-05"
          = [mkBill bid 1 "2024-05" 1 (Some ch) "2024-06-01 09:05:00"]
       /\ out_msgs (generate_bill None
                      (out_db (generate_bill None db_one_call 1 "2024-05"
                                             "2024-06-01 09:00:00"))
                      1 "2024-05" "2024-06-01 09:05:00")
          = [Info_BillUpdated "2024-05" ch].
Proof.
  split; [exact bills_ok_one_call|].
  pose proof (generate_bill_idempotent db_one_call 1 "2024-05"
                "2024-06-01 09:00:00" "2024-06-01 09:05:00"
                bills_ok_one_call) as H.
  cbv zeta in H. destruct H as [_ [_ [_ [_ H]]]].
  change (select_calls db_one_call 1 ("2024-05" ++ "%"))
    with (@inr exn (option Q * Z) (Some (0 + inject_Z 120 * (5 # 100))%Q, 1)) in H.
  cbv iota beta in H. change (Z.eqb 1 0) with false in H. cbv iota in H.
  destruct H as [bid [ch [_ [_ [_ [Hb1 [Hb2 Hm]]]]]]].
  exists bid, ch. split; [exact Hb1 | split; [exact Hb2 | exact Hm]].
Defined.

Example generate_bill_second :
  BillHistory
    (out_db (generate_bill None db_one_bill 1 "2024-05" "2024-06-01 09:05:00"))
  = [mkBill 1 1 "2024-05" 1 (Some (0 + inject_Z 120 * (5 # 100))%Q)
            "2024-06-01 09:05:00"].
Proof. reflexivity. Qed.

(** ** What [log_call] can do to the store *)


(** Otherwise nothing is stored; [True] is returned for a stored call
    only. *)
Lemma log_call_cases db phone callee d now :
  (fst (fst (log_call db phone callee d now)) = db
   /\ snd (log_call db phone callee d now) <> Returns true)
  \/ exists cid plan,
       select_customer_by_phone db phone = Some (cid, plan)
       /\ sqlite_text phone = true /\ sqlite_text callee = true
       /\ sqlite_int d = true
       /\ log_call db phone callee d now
          = (insert_call db cid callee now d
               (inject_Z d * dict_get RATE_PLANS plan DEFAULT_RATE_PER_SECOND)%Q,
             [Info_CallLogged phone plan d
                (inject_Z d * dict_get RATE_PLANS plan DEFAULT_RATE_PER_SECOND)%Q],
             Returns true).
Proof.
  unfold log_call, fetch_customer_by_phone, bind_call.
  destruct (sqlite_text phone) eqn:Hp; [|left; split; [reflexivity | discriminate]].
  destruct (select_customer_by_phone db phone) as [[cid plan]|] eqn:Hsel;
    [|left; split; [reflexivity | discriminate]].
  destruct (float_overflow d); [left; split; [reflexivity | discriminate]|].
  destruct (sqlite_text callee) eqn:Hc; cbn [negb];
    [|left; split; [reflexivity | discriminate]].
  destruct (sqlite_int d) eqn:Hd; cbn [negb];
    [|left; split; [reflexivity | discriminate]].
  right. exists cid, plan. repeat split; reflexivity.
Qed.

(** ** Integrity along every history *)

Lemma bills_ok_same_bills db db' :
  BillHistory db' = BillHistory db -> seq_bills db' = seq_bills db ->
  bills_ok db -> bills_ok db'.
Proof.
  intros Hb Hs [Hid Hle Hkey].
  constructor; rewrite ?Hb, ?Hs; auto.
Qed.

Lemma NoDup_map_filter {A B : Type} (f : A -> B) (P : A -> bool) (l : list A) :
  NoDup (map f l) -> NoDup (map f (filter P l)).
Proof.
  induction l as [|x l IH]; simpl; intros Hnd; [constructor|].
  inversion Hnd as [|? ? Hx Hl]; subst.
  destruct (P x); simpl; [constructor|]; auto.
  intros Hin. apply Hx. apply in_map_iff in Hin as [y [Hy Hin]].
  apply filter_In in Hin as [Hin _]. apply in_map_iff. eauto.
Qed.

Lemma bills_ok_delete db cid :
  bills_ok db -> bills_ok (fst (delete_customer db cid)).
Proof.
  intros [Hid Hle Hkey]. constructor; simpl.
  - apply NoDup_map_filter; assumption.
  - intros b Hb. apply filter_In in Hb as [Hb _]. auto.
  - apply NoDup_map_filter; assumption.
Qed.

Lemma bills_ok_apply db o : bills_ok db -> bills_ok (apply_op db o).
Proof.
  intros Hok. destruct o as [ph nm ad pl | cid ph nm ad pl | cid
                            | ph callee d now | flt cid p now]; simpl.
  - unfold add_customer. destruct (phone_taken db ph None); simpl; auto.
    revert Hok; apply bills_ok_same_bills; reflexivity.
  - unfold update_customer.
    destruct (existsb _ (Customers db) && phone_taken db ph (Some cid))%bool;
      simpl; auto.
    revert Hok; apply bills_ok_same_bills; reflexivity.
  - apply bills_ok_delete; assumption.
  - destruct (log_call_cases db ph callee d now)
      as [[-> _] | [c [pl [_ [_ [_ [_ ->]]]]]]]; [exact Hok|].
    revert Hok; apply bills_ok_same_bills; reflexivity.
  - apply bills_ok_generate; assumption.
Qed.

Lemma calls_owned_apply db o : calls_owned db -> calls_owned (apply_op db o).
Proof.
  intros Hown. destruct o as [ph nm ad pl | cid ph nm ad pl | cid
                             | ph callee d now | flt cid p now]; simpl.
  - unfold add_customer. destruct (phone_taken db ph None); simpl; auto.
    intros r Hr. destruct (Hown r Hr) as [c [Hc Hid]].
    exists c. split; [apply in_or_app; auto | assumption].
  - unfold update_customer.
    destruct (existsb _ (Customers db) && phone_taken db ph (Some cid))%bool;
      simpl; auto.
    intros r Hr. destruct (Hown r Hr) as [c [Hc Hid]].
    exists (if Z.eqb (customer_id c) cid
            then mkCustomer (customer_id c) ph nm ad pl else c).
    split.
    + apply in_map_iff. exists c. auto.
    + destruct (Z.eqb (customer_id c) cid); assumption.
  - intros r Hr. simpl in Hr. apply filter_In in Hr as [Hr Hne].
    destruct (Hown r Hr) as [c [Hc Hid]].
    exists c. split; [|assumption]. simpl.
    apply filter_In. split; [assumption|]. rewrite Hid. exact Hne.
  - destruct (log_call_cases db ph callee d now)
      as [[-> _] | [cid [pl [Hsel [_ [_ [_ ->]]]]]]]; [exact Hown|].
    unfold select_customer_by_phone in Hsel.
    destruct (find (fun c => String.eqb (phone_number c) ph) (Customers db))
      as [c|] eqn:Hf; [|discriminate].
    inversion Hsel; subst; clear Hsel.
    intros r Hr. cbn [fst insert_call CallLogs Customers] in *.
    apply in_app_iff in Hr as [Hr | [<- | []]]; auto.
    exists c. split; [|reflexivity]. apply find_some in Hf as [Hc _]. exact Hc.
  - destruct (generate_bill_tables flt db cid p now) as [Hc Hl].
    unfold calls_owned. rewrite Hc, Hl. exact Hown.
Qed.

Lemma fold_apply_invariant (P : DB -> Prop) :
  (forall db o, P db -> P (apply_op db o)) ->
  forall ops db, P db -> P (fold_left apply_op ops db).
Proof.
  intros Hstep ops. induction ops as [|o ops IH]; simpl; auto.
Qed.

(** Every database the program builds from a fresh file keeps its
    bills unique per (customer, period) and its call logs owned. *)
Lemma history_bills_ok ops : bills_ok (history ops).
Proof.
  apply (fold_apply_invariant bills_ok bills_ok_apply).
  constructor; simpl; [constructor | intros b [] | constructor].
Qed.

Lemma history_calls_owned ops : calls_owned (history ops).
Proof.
  apply (fold_apply_invariant calls_owned calls_owned_apply).
  intros r [].
Qed.

(** ** Customers that do not exist *)

Lemma no_calls_of_unknown db cid pat :
  calls_owned db -> customer_exists db cid = false ->
  filter (call_matches cid pat) (CallLogs db) = [].
Proof.
  intros Hown Hex.
  destruct (filter (call_matches cid pat) (CallLogs db)) as [|r rows] eqn:Hf;
    [reflexivity | exfalso].
  assert (Hr : In r (filter (call_matches cid pat) (CallLogs db)))
    by (rewrite Hf; left; reflexivity).
  apply filter_In in Hr as [Hr Hm].
  unfold call_matches in Hm. apply andb_true_iff in Hm as [Hc _].
  apply Z.eqb_eq in Hc.
  destruct (Hown r Hr) as [c [Hin Hid]].
  assert (Ht : customer_exists db cid = true).
  { unfold customer_exists. apply existsb_exists. exists c. split; auto.
    apply Z.eqb_eq. congruence. }
  congruence.
Qed.

(** C3, as the code has it. [generate_bill] never looks the customer up.
    For an id that is in no row of [Customers], in a store whose call
    logs all belong to customers, nothing is written whatever the id and
    the period are; when the id is one SQLite can bind (64 bits) and the
    period filter a text it can bind, the aggregate finds no call and the
    "no calls" information box is the only box shown. *)
Theorem generate_bill_unknown_customer db cid period now :
  calls_owned db -> customer_exists db cid = false ->
  out_db (generate_bill None db cid period now) = db
  /\ (sqlite_int cid = true -> sqlite_text (period ++ "%") = true ->
      generate_bill None db cid period now = mkOutcome db [Info_NoCalls] None).
Proof.
  intros Hown Hex.
  assert (Hnone : forall pat, filter (call_matches cid pat) (CallLogs db) = [])
    by (intros pat; apply no_calls_of_unknown; assumption).
  assert (Hrows : existsb (fun r => Z.eqb (call_customer_id r) cid) (CallLogs db)
                  = false).
  { destruct (existsb (fun r => Z.eqb (call_customer_id r) cid) (CallLogs db))
      eqn:Hx; [exfalso | reflexivity].
    apply existsb_exists in Hx as [r [Hr Hc]]. apply Z.eqb_eq in Hc.
    destruct (Hown r Hr) as [c [Hin Hid]].
    assert (Ht : customer_exists db cid = true).
    { unfold customer_exists. apply existsb_exists. exists c. split; auto.
      apply Z.eqb_eq. congruence. }
    congruence. }
  split.
  - rewrite generate_bill_None.
    destruct (select_calls_cases db cid (period ++ "%")) as [[e ->] | ->];
      [reflexivity|].
    unfold select_sum_count. rewrite Hnone. reflexivity.
  - intros Hc Hp. rewrite generate_bill_None. unfold select_calls.
    rewrite Hc, Hp, Hrows, andb_false_r. cbn [negb].
    unfold select_sum_count. rewrite Hnone. reflexivity.
Qed.

Lemma calls_owned_one_call : calls_owned db_one_call.
Proof.
  intros r [<- | []]. eexists; split; [left; reflexivity | reflexivity].
Qed.

Lemma generate_bill_unknown_customer_witness :
  customer_exists db_one_call 42 = false
  /\ sqlite_int 42 = true /\ sqlite_text ("2024-05" ++ "%") = true
  /\ generate_bill None db_one_call 42 "2024-05" "2024-06-01 09:00:00"
     = mkOutcome db_one_call [Info_NoCalls] None.
Proof.
  split; [reflexivity|]. split; [reflexivity|]. split; [reflexivity|].
  apply (proj2 (generate_bill_unknown_customer db_one_call 42 "2024-05"
                  "2024-06-01 09:00:00" calls_owned_one_call eq_refl));
    reflexivity.
Defined.

(** C3, as stated, fails: customer 42 is in no row, yet the call shows the
    informational "no calls" box and no error box at all. *)
Lemma generate_bill_unknown_customer_counterexample :
  customer_exists db_one_call 42 = false
  /\ out_msgs (generate_bill None db_one_call 42 "2024-05" "2024-06-01 09:00:00")
     = [Info_NoCalls]
  /\ existsb is_showerror
       (out_msgs (generate_bill None db_one_call 42 "2024-05" "2024-06-01 09:00:00"))
     = false.
Proof. repeat split. Qed.

(** An id beyond 64 bits is not bound: the error box of the [except]
    clause, for the [OverflowError] of the binding. *)
Example generate_bill_unbound_id :
  generate_bill None db_one_call (2 ^ 63) "2024-05" "2024-06-01 09:00:00"
  = mkOutcome db_one_call [Error_FailedToGenerateBill OverflowError] None.
Proof. reflexivity. Qed.

(** A period of 50000 characters makes a filter of 50001: [LIKE] refuses
    it on the call of customer 1, and is never asked for customer 42,
    who has no call. *)
Example generate_bill_long_period :
  generate_bill None db_one_call 1 (nines (50 * 1000)) "2024-06-01 09:00:00"
  = mkOutcome db_one_call [Error_FailedToGenerateBill OperationalError] None
  /\ generate_bill None db_one_call 42 (nines (50 * 1000)) "2024-06-01 09:00:00"
     = mkOutcome db_one_call [Info_NoCalls] None
  /\ generate_bill None db_one_call 1 (nines (50 * 1000 - 1)) "2024-06-01 09:00:00"
     = mkOutcome db_one_call [Info_NoCalls] None.
Proof. split; [|split]; vm_compute; reflexivity. Qed.

(** What follows a zero byte in the period is not read, nor is the [%]
    appended to it: the filter is then the text before the zero byte. *)
Example period_with_zero_byte :
  sql_like (String "%"%char (String Ascii.zero "x") ++ "%") "2024-05-03 10:00:00"
  = true
  /\ sql_like ("2024" ++ String Ascii.zero "" ++ "%") "2024-05-03 10:00:00"
     = false
  /\ sql_like ("2024" ++ String Ascii.zero "" ++ "%") "2024" = true.
Proof. repeat split. Qed.

(** ** Persistence faults *)

Example fault_at_connect db cid period now :
  fault_signalled (Some Connect) db cid period now = Some Connect.
Proof. reflexivity. Qed.

Example fault_at_select db cid period now :
  fault_signalled (Some SelectCalls) db cid period now = Some SelectCalls.
Proof. reflexivity. Qed.

Example fault_at_commit :
  generate_bill (Some Commit) db_one_call 1 "2024-05" "2024-06-01 09:00:00"
  = mkOutcome db_one_call [Error_FailedToGenerateBill (sqlite3_Error Commit)] None.
Proof. reflexivity. Qed.



(** ** Call cost *)

Lemma rate_plans_known plan r :
  In (plan, r) RATE_PLANS -> dict_lookup RATE_PLANS plan = Some r.
Proof.
  simpl. intros [H | [H | [H | []]]]; inversion H; subst; reflexivity.
Qed.


Example rate_standard : dict_get RATE_PLANS "Standard" DEFAULT_RATE_PER_SECOND = 5 # 100.
Proof. reflexivity. Qed.

Example rate_premium : dict_get RATE_PLANS "Premium" DEFAULT_RATE_PER_SECOND = 3 # 100.
Proof. reflexivity. Qed.

Example rate_business : dict_get RATE_PLANS "Business" DEFAULT_RATE_PER_SECOND = 8 # 100.
Proof. reflexivity. Qed.

Example rate_fallback : dict_get RATE_PLANS "Gold" DEFAULT_RATE_PER_SECOND = 5 # 100.
Proof. reflexivity. Qed.

Example log_call_beyond_integer :
  log_call db_one_call "555-0100" "555-0123" (2 ^ 63) "2024-05-04 08:00:00"
  = (db_one_call, [Error_DatabaseOperationFailed OverflowError], Returns false).
Proof. reflexivity. Qed.

Example log_call_beyond_float :
  log_call db_one_call "555-0100" "555-0123" (2 ^ 1024) "2024-05-04 08:00:00"
  = (db_one_call, [], Raises OverflowError).
Proof. reflexivity. Qed.



(** ** The period filter *)

Lemma any_run_true pat' :
  like pat' "" = true -> forall s, like (String "%"%char pat') s = true.
Proof.
  intros H0 s. induction s as [|c s IH].
  - simpl. rewrite H0. reflexivity.
  - change (like (String "%"%char pat') (String c s))
      with (like pat' (String c s) || like (String "%"%char pat') s)%bool.
    rewrite IH. apply orb_true_r.
Qed.

Lemma ascii_upper_cases (d : ascii) :
  let n := nat_of_ascii d in
  if (Nat.leb 97 n && Nat.leb n 122)%bool
  then (Nat.leb 65 (nat_of_ascii (ascii_upper d))
        && Nat.leb (nat_of_ascii (ascii_upper d)) 90)%bool = true
  else ascii_upper d = d.
Proof.
  destruct d as [[] [] [] [] [] [] [] []]; vm_compute; reflexivity.
Qed.

Lemma plain_char_parts c :
  plain_char c = true ->
  Ascii.eqb c "%"%char = false /\ Ascii.eqb c "_"%char = false
  /\ (Nat.leb 65 (nat_of_ascii c) && Nat.leb (nat_of_ascii c) 90)%bool = false
  /\ (Nat.leb 97 (nat_of_ascii c) && Nat.leb (nat_of_ascii c) 122)%bool = false
  /\ Ascii.eqb c Ascii.zero = false.
Proof.
  unfold plain_char. intros Hp.
  apply andb_true_iff in Hp as [Hp Hz]. apply andb_true_iff in Hp as [Hp Hlow].
  apply andb_true_iff in Hp as [Hp Hup]. apply andb_true_iff in Hp as [Hpc Hus].
  apply negb_true_iff in Hz, Hlow, Hup, Hpc, Hus. auto.
Qed.

Lemma like_char_eq_plain c d :
  plain_char c = true -> like_char_eq c d = Ascii.eqb c d.
Proof.
  intros Hp. destruct (plain_char_parts c Hp) as [_ [_ [Hup [Hlow _]]]].
  unfold like_char_eq.
  assert (Hc : ascii_upper c = c).
  { unfold ascii_upper. rewrite Hlow. reflexivity. }
  rewrite Hc. pose proof (ascii_upper_cases d) as Hd. cbv zeta in Hd.
  destruct (Nat.leb 97 (nat_of_ascii d) && Nat.leb (nat_of_ascii d) 122)%bool
    eqn:Hdlow.
  - destruct (Ascii.eqb_spec c (ascii_upper d)) as [E|_].
    + rewrite <- E in Hd. congruence.
    + destruct (Ascii.eqb_spec c d) as [E|_]; [|reflexivity].
      subst d. congruence.
  - rewrite Hd. reflexivity.
Qed.

(** On a period of plain characters the [LIKE] pattern is the prefix
    test. *)
Lemma like_plain_prefix p :
  plain p = true -> forall s, like (p ++ "%") s = starts_with p s.
Proof.
  unfold starts_with. induction p as [|c p IH]; intros Hp s.
  - simpl String.append. rewrite any_run_true by reflexivity.
    destruct s; reflexivity.
  - simpl in Hp. apply andb_true_iff in Hp as [Hc Hp].
    destruct (plain_char_parts c Hc) as [Hpc [Hus _]].
    simpl. rewrite Hpc, Hus.
    destruct s as [|d s]; [reflexivity|].
    rewrite (like_char_eq_plain c d Hc), (IH Hp s). cbn [prefix].
    destruct (Ascii.eqb_spec c d) as [E|Hne];
      destruct (ascii_dec c d); try congruence; reflexivity.
Qed.

(** A plain period holds no zero byte: the filter is read whole, and the
    part of a timestamp that [LIKE] reads decides the prefix test. *)
Lemma c_string_plain p : plain p = true -> c_string (p ++ "%") = p ++ "%".
Proof.
  induction p as [|c p IH]; intros Hp; [reflexivity|].
  simpl in Hp. apply andb_true_iff in Hp as [Hc Hp].
  destruct (plain_char_parts c Hc) as [_ [_ [_ [_ Hz]]]].
  simpl. rewrite Hz, (IH Hp). reflexivity.
Qed.

Lemma prefix_c_string p :
  plain p = true -> forall s, starts_with p (c_string s) = starts_with p s.
Proof.
  unfold starts_with. induction p as [|c p IH]; intros Hp s.
  - destruct s as [|d s]; simpl; [reflexivity|].
    destruct (Ascii.eqb d Ascii.zero); reflexivity.
  - simpl in Hp. apply andb_true_iff in Hp as [Hc Hp].
    destruct (plain_char_parts c Hc) as [_ [_ [_ [_ Hz]]]].
    destruct s as [|d s]; [reflexivity|].
    cbn [c_string]. destruct (Ascii.eqb_spec d Ascii.zero) as [E|_].
    + subst d. cbn [prefix].
      destruct (ascii_dec c Ascii.zero) as [E|_]; [|reflexivity].
      subst c. discriminate.
    + cbn [prefix]. destruct (ascii_dec c d); [apply IH; exact Hp | reflexivity].
Qed.

Lemma sql_like_plain_prefix p :
  plain p = true -> forall s, sql_like (p ++ "%") s = starts_with p s.
Proof.
  intros Hp s. unfold sql_like.
  rewrite (c_string_plain p Hp), (like_plain_prefix p Hp).
  apply prefix_c_string; exact Hp.
Qed.

(** For such periods the aggregate ranges over exactly the calls of the
    customer whose timestamp begins with the period. *)
Lemma select_sum_count_plain db cid period :
  plain period = true ->
  select_sum_count db cid (period ++ "%")
  = (sql_sum (map cost (calls_in_period db cid period)),
     Z.of_nat (List.length (calls_in_period db cid period))).
Proof.
  intros Hp. unfold select_sum_count, calls_in_period.
  assert (E : filter (call_matches cid (period ++ "%")) (CallLogs db)
              = filter (fun r => (Z.eqb (call_customer_id r) cid
                                  && starts_with period (start_time r))%bool)
                       (CallLogs db)).
  { apply filter_ext. intros r. unfold call_matches.
    rewrite (sql_like_plain_prefix period Hp). reflexivity. }
  rewrite E. reflexivity.
Qed.

(** With an id and a plain period within the limits of the store, a
    customer without a call beginning with the period gets the
    "no calls" box and no bill is written. *)
Lemma generate_bill_no_calls_plain db cid period now :
  sqlite_int cid = true -> plain period = true ->
  byte_length (period ++ "%") <= SQLITE_MAX_LIKE_PATTERN_LENGTH ->
  calls_in_period db cid period = [] ->
  generate_bill None db cid period now = mkOutcome db [Info_NoCalls] None.
Proof.
  intros Hc Hp Hlen Hnone.
  apply (generate_bill_zero_count _ _ _ _ None).
  rewrite (select_calls_ok db cid _ Hc Hlen), (select_sum_count_plain db cid _ Hp).
  rewrite Hnone. reflexivity.
Qed.

Example plain_year_month : plain "2024-05" = true.
Proof. reflexivity. Qed.

(** C4 at the period "2024_05": no call of customer 1 begins with it, yet
    the [_] is read as a wildcard, the call of 3 May is aggregated and a
    bill with one call is stored under the period "2024_05". *)
Theorem generate_bill_wildcard_period :
  calls_in_period db_one_call 1 "2024_05" = []
  /\ select_sum_count db_one_call 1 ("2024_05" ++ "%")
     = (Some (0 + inject_Z 120 * (5 # 100))%Q, 1)
  /\ generate_bill None db_one_call 1 "2024_05" "2024-06-01 09:00:00"
     = mkOutcome
         (mkDB (Customers db_one_call) (CallLogs db_one_call)
               [mkBill 1 1 "2024_05" 1 (Some (0 + inject_Z 120 * (5 # 100))%Q)
                       "2024-06-01 09:00:00"]
               1 1 1)
         [Info_BillGenerated "2024_05" (0 + inject_Z 120 * (5 # 100))%Q]
         None.
Proof. repeat split. Qed.

(** ** Periods without activity *)

Example no_activity_in_june :
  calls_in_period db_one_bill 1 "2024-06" = []
  /\ generate_bill None db_one_bill 1 "2024-06" "2024-07-01 09:00:00"
     = mkOutcome db_one_bill [Info_NoCalls] None.
Proof. split; reflexivity. Qed.

(** C6 at the period "2024_05": customer 1 has no call record whose
    timestamp begins with the period and no bill, yet the call does not
    end with the "no calls" box; it inserts a bill for one call under the
    period "2024_05" and shows the "bill generated" box. *)
Theorem generate_bill_no_activity :
  calls_in_period db_one_call 1 "2024_05" = []
  /\ BillHistory db_one_call = []
  /\ out_msgs (generate_bill None db_one_call 1 "2024_05" "2024-06-01 09:00:00")
     = [Info_BillGenerated "2024_05" (0 + inject_Z 120 * (5 # 100))%Q]
  /\ BillHistory
       (out_db (generate_bill None db_one_call 1 "2024_05" "2024-06-01 09:00:00"))
     = [mkBill 1 1 "2024_05" 1 (Some (0 + inject_Z 120 * (5 # 100))%Q)
               "2024-06-01 09:00:00"].
Proof. repeat split. Qed.

End BillingSpec.

(** * Properties of the selection handlers *)

Module SelectionSpec.
Import Selection.

Local Open Scope nat_scope.
Local Open Scope string_scope.

(** ** Running the model *)

Example single_click_trace :
  option_map snd (run (init_app two_rows) [TreeviewSelect [2]; AfterFires 0])
  = Some [DeleteIntent 2].
Proof. reflexivity. Qed.

Example double_click_trace :
  option_map snd (run (init_app two_rows) [TreeviewSelect [2]; Double1 (Some 2)])
  = Some [UpdateIntent 2].
Proof. reflexivity. Qed.

Example cancelled_timer_cannot_fire :
  run (init_app two_rows) [TreeviewSelect [2]; Double1 (Some 2); AfterFires 0]
  = None.
Proof. reflexivity. Qed.

Example app_updating_form :
  form app_updating
  = mkForm 7%Z (mkEntry "555-0100" DISABLED) "Ada" "1 Main St" "Premium"
           DISABLED NORMAL NORMAL
  /\ timer app_updating = None.
Proof. split; reflexivity. Qed.

(** ** The handlers on a state whose timer is tracked *)

Lemma phone_cleared e :
  entry_delete_all (entry_config e NORMAL) = mkEntry "" NORMAL.
Proof. reflexivity. Qed.

Lemma cancel_timer_tracked s :
  timer_tracks s ->
  cancel_timer s
  = mkApp None (form s) (customer_tree s) (tree_selection s) [] (after_serial s).
Proof.
  unfold timer_tracks, cancel_timer, after_cancel, set_timer.
  destruct s as [[t|] f tree sel pend serial]; simpl; intros ->; simpl.
  - rewrite Nat.eqb_refl. reflexivity.
  - reflexivity.
Qed.

(** The timer callback runs with its own id already out of the queue. *)
Lemma cancel_timer_fired s :
  after_pending s = [] ->
  cancel_timer s
  = mkApp None (form s) (customer_tree s) (tree_selection s) [] (after_serial s).
Proof.
  unfold cancel_timer, after_cancel, set_timer.
  destruct s as [[t|] f tree sel pend serial]; simpl; intros ->; reflexivity.
Qed.

Lemma clear_after_cancel s :
  cancel_timer s
  = mkApp None (form s) (customer_tree s) (tree_selection s) [] (after_serial s) ->
  clear_customer_entries s
  = mkApp None cleared_form (customer_tree s) [] [] (after_serial s).
Proof.
  intros Hc. unfold clear_customer_entries. rewrite Hc.
  unfold set_form, set_selection; simpl.
  destruct (tree_selection s); reflexivity.
Qed.

Lemma clear_tracked s :
  timer_tracks s ->
  clear_customer_entries s
  = mkApp None cleared_form (customer_tree s) [] [] (after_serial s).
Proof. intros H. apply clear_after_cancel, cancel_timer_tracked, H. Qed.

Lemma select_tracked s r sel :
  timer_tracks s ->
  handle_treeview_select (set_selection s (r :: sel))
  = mkApp (Some (after_serial s)) (form s) (customer_tree s) (r :: sel)
          [after_serial s] (S (after_serial s)).
Proof.
  unfold timer_tracks, handle_treeview_select, set_selection, after,
    after_cancel, set_timer.
  destruct s as [[t|] f tree sel0 pend serial]; simpl; intros ->; simpl.
  - rewrite Nat.eqb_refl. reflexivity.
  - reflexivity.
Qed.

Lemma item_values_tree s s' row :
  customer_tree s' = customer_tree s -> item_values s' row = item_values s row.
Proof. unfold item_values. intros ->. reflexivity. Qed.

(** A double click on a row that carries no values only cancels the
    timer. *)
Lemma step_double_no_values s r :
  timer_tracks s -> item_values s r = None ->
  step s (Double1 (Some r))
  = Some (mkApp None (form s) (customer_tree s) (tree_selection s) []
                (after_serial s), None).
Proof.
  intros Htr Hv. cbn [step]. unfold handle_double_click_update.
  rewrite (cancel_timer_tracked s Htr).
  erewrite item_values_tree; [rewrite Hv | reflexivity]. reflexivity.
Qed.

(** ** The timer handle along every run *)

Lemma step_tracks s e s' i :
  timer_tracks s -> step s e = Some (s', i) -> timer_tracks s'.
Proof.
  intros Htr. destruct e as [sel | row | | id]; simpl.
  - intros E; inversion E; subst; clear E.
    destruct sel as [|r sel].
    + unfold handle_treeview_select; simpl.
      rewrite clear_tracked by exact Htr. reflexivity.
    + rewrite select_tracked by exact Htr. reflexivity.
  - unfold handle_double_click_update.
    rewrite (cancel_timer_tracked s Htr).
    destruct row as [r|].
    + destruct (item_values _ r); intros E; inversion E; reflexivity.
    + intros E; inversion E; subst.
      rewrite clear_tracked by reflexivity. reflexivity.
  - intros E; inversion E; subst. rewrite clear_tracked by exact Htr. reflexivity.
  - destruct (existsb (Nat.eqb id) (after_pending s)) eqn:Hin; [|discriminate].
    assert (Hp : after_pending (after_cancel s id) = []).
    { unfold timer_tracks in Htr. unfold after_cancel; simpl. rewrite Htr in *.
      destruct (timer s) as [t|]; simpl in *; [|reflexivity].
      rewrite orb_false_r in Hin. rewrite Nat.eqb_sym, Hin. reflexivity. }
    unfold execute_single_click_delete.
    destruct (tree_selection (after_cancel s id)) as [|row sel] eqn:Hsel.
    + intros E; inversion E; subst.
      rewrite (clear_after_cancel _ (cancel_timer_fired _ Hp)). reflexivity.
    + destruct (item_values (after_cancel s id) row);
        intros E; inversion E; subst; unfold timer_tracks; simpl;
        simpl in Hp; exact Hp.
Qed.

Lemma run_tracks evs : forall s s' out,
  timer_tracks s -> run s evs = Some (s', out) -> timer_tracks s'.
Proof.
  induction evs as [|e evs IH]; simpl; intros s s' out Htr.
  - intros E; inversion E; subst; exact Htr.
  - destruct (step s e) as [[s1 i]|] eqn:Hs; [|discriminate].
    destruct (run s1 evs) as [[s2 rest]|] eqn:Hr; [|discriminate].
    intros E; inversion E; subst.
    apply (IH s1 s' rest); [eapply step_tracks; eauto | exact Hr].
Qed.

(** C10. In every state reached from start-up by selection changes,
    double clicks, explicit clears and timer expiries, at most one
    single-click callback is scheduled, it is the one [self.timer] holds,
    and [self.timer] is [None] exactly when no callback is scheduled. *)
Theorem timer_handle_invariant rows evs s out :
  run (init_app rows) evs = Some (s, out) ->
  timer_tracks s
  /\ (List.length (after_pending s) <= 1)%nat
  /\ (timer s = None <-> after_pending s = []).
Proof.
  intros Hrun.
  assert (Htr : timer_tracks s)
    by (apply (run_tracks evs (init_app rows) s out); [reflexivity | exact Hrun]).
  split; [exact Htr|]. unfold timer_tracks in Htr. rewrite Htr.
  destruct (timer s); simpl; split; try lia; split; congruence.
Qed.

Lemma timer_handle_invariant_witness :
  run (init_app two_rows)
      [TreeviewSelect [1]; TreeviewSelect [2]; Double1 (Some 2); ClearSelection]
  = Some (mkApp None cleared_form two_rows [] [] 2, [UpdateIntent 2])
  /\ timer_tracks (mkApp None cleared_form two_rows [] [] 2).
Proof.
  split; [reflexivity|].
  exact (proj1 (timer_handle_invariant two_rows
                  [TreeviewSelect [1]; TreeviewSelect [2]; Double1 (Some 2);
                   ClearSelection]
                  (mkApp None cleared_form two_rows [] [] 2) [UpdateIntent 2]
                  eq_refl)).
Defined.

(** ** Gestures *)

Lemma append_empty (t : string) : t ++ "" = t.
Proof. induction t as [|c t IH]; simpl; [|rewrite IH]; reflexivity. Qed.

Lemma run_two s e1 e2 s1 i1 s2 i2 :
  step s e1 = Some (s1, i1) -> step s1 e2 = Some (s2, i2) ->
  run s [e1; e2] = Some (s2, (emitted i1 ++ emitted i2)%list).
Proof.
  intros H1 H2. cbn [run]. rewrite H1, H2, app_nil_r. reflexivity.
Qed.

Lemma run_three s e1 e2 e3 s1 i1 s2 i2 s3 i3 :
  step s e1 = Some (s1, i1) -> step s1 e2 = Some (s2, i2) ->
  step s2 e3 = Some (s3, i3) ->
  run s [e1; e2; e3] = Some (s3, (emitted i1 ++ emitted i2 ++ emitted i3)%list).
Proof.
  intros H1 H2 H3. cbn [run]. rewrite H1, H2, H3, app_nil_r. reflexivity.
Qed.

Lemma step_select s r sel :
  timer_tracks s ->
  step s (TreeviewSelect (r :: sel))
  = Some (mkApp (Some (after_serial s)) (form s) (customer_tree s) (r :: sel)
                [after_serial s] (S (after_serial s)), None).
Proof. intros H. simpl. rewrite select_tracked by exact H. reflexivity. Qed.

(** The pending timer fires on a selected row. *)
Lemma step_fire f tree r sel t serial v :
  item_values (mkApp (Some t) f tree (r :: sel) [t] serial) r = Some v ->
  step (mkApp (Some t) f tree (r :: sel) [t] serial) (AfterFires t)
  = Some (mkApp None (delete_form v) tree (r :: sel) [] serial,
          Some (DeleteIntent r)).
Proof.
  intros Hv. cbn [step after_pending existsb]. rewrite Nat.eqb_refl. cbn [orb].
  unfold execute_single_click_delete, after_cancel. cbn [tree_selection].
  erewrite item_values_tree; [rewrite Hv | reflexivity].
  cbn. rewrite Nat.eqb_refl. reflexivity.
Qed.

Lemma step_double s r v :
  timer_tracks s -> item_values s r = Some v ->
  step s (Double1 (Some r))
  = Some (mkApp None (update_form v) (customer_tree s) (tree_selection s) []
                (after_serial s), Some (UpdateIntent r)).
Proof.
  intros Htr Hv. cbn [step]. unfold handle_double_click_update.
  rewrite (cancel_timer_tracked s Htr).
  erewrite item_values_tree; [rewrite Hv | reflexivity].
  unfold set_form, update_form, text_insert0, text_delete_all, entry_insert0; cbn.
  rewrite !append_empty. reflexivity.
Qed.

(** An event emits an update intent only as a double click on a row, and a
    delete intent only as an expiry of the timer. *)
Lemma step_intent s e s' i :
  step s e = Some (s', Some i) ->
  (exists row, e = Double1 (Some row) /\ i = UpdateIntent row)
  \/ (exists t row, e = AfterFires t /\ i = DeleteIntent row).
Proof.
  destruct e as [sel | row | | id]; cbn [step]; try discriminate.
  - unfold handle_double_click_update. destruct row as [r|]; [|discriminate].
    destruct (item_values (cancel_timer s) r); [|discriminate].
    intros E; inversion E; subst. left; eauto.
  - destruct (existsb (Nat.eqb id) (after_pending s)); [|discriminate].
    unfold execute_single_click_delete.
    destruct (tree_selection (after_cancel s id)) as [|row sel]; [discriminate|].
    destruct (item_values (after_cancel s id) row); [|discriminate].
    intros E; inversion E; subst. right; eauto.
Qed.

(** A double click leaves no callback scheduled: the timer it found was
    cancelled, and no expiry can follow before the next selection. *)
Lemma step_double_quiet s row s' i :
  timer_tracks s -> step s (Double1 row) = Some (s', i) ->
  timer s' = None /\ after_pending s' = []
  /\ forall t, step s' (AfterFires t) = None.
Proof.
  intros Htr. cbn [step]. unfold handle_double_click_update.
  rewrite (cancel_timer_tracked s Htr).
  assert (Hq : forall x, timer x = None -> after_pending x = [] ->
                timer x = None /\ after_pending x = []
                /\ forall t, step x (AfterFires t) = None).
  { intros x Ht Hp. split; [exact Ht|]. split; [exact Hp|].
    intros t. cbn [step]. rewrite Hp. reflexivity. }
  destruct row as [r|].
  - destruct (item_values _ r); intros E; inversion E; subst; apply Hq; reflexivity.
  - intros E; inversion E; subst.
    rewrite clear_tracked by reflexivity. apply Hq; reflexivity.
Qed.

(** C2, as the code has it. From any state whose timer is tracked, for a
    row r that carries values: a click on r left alone until the timer it
    started expires emits exactly [DeleteIntent r] and leaves the form in
    delete mode for the row's customer; a click on r followed by a double
    click on r before the expiry emits exactly [UpdateIntent r], leaves the
    form in update mode and no callback scheduled, so that the cancelled
    timer cannot fire any more; a double click on r that arrives only
    after the timer has expired comes too late to cancel it, and the
    gesture emits both, [DeleteIntent r] at the expiry and then
    [UpdateIntent r], ending in update mode. An event emits at most one
    intent, an update one only on a double click and a delete one only on
    a timer expiry; and after any double click no callback is scheduled,
    so no delete intent follows an update intent before the next
    selection. *)
Theorem click_gestures s r v :
  timer_tracks s -> item_values s r = Some v ->
  (exists s1,
      run s [TreeviewSelect [r]; AfterFires (after_serial s)]
      = Some (s1, [DeleteIntent r])
      /\ timer s1 = None /\ after_pending s1 = []
      /\ form s1 = delete_form v
      /\ form_mode (form s1) = Some DeleteMode)
  /\ (exists s2,
        run s [TreeviewSelect [r]; Double1 (Some r)] = Some (s2, [UpdateIntent r])
        /\ timer s2 = None /\ after_pending s2 = []
        /\ form s2 = update_form v
        /\ form_mode (form s2) = Some UpdateMode
        /\ forall t, step s2 (AfterFires t) = None)
  /\ (exists s3,
        run s [TreeviewSelect [r]; AfterFires (after_serial s); Double1 (Some r)]
        = Some (s3, [DeleteIntent r; UpdateIntent r])
        /\ timer s3 = None /\ after_pending s3 = []
        /\ form s3 = update_form v
        /\ form_mode (form s3) = Some UpdateMode)
  /\ (forall s0 e s' i,
        step s0 e = Some (s', Some i) ->
        (exists row, e = Double1 (Some row) /\ i = UpdateIntent row)
        \/ (exists t row, e = AfterFires t /\ i = DeleteIntent row))
  /\ (forall s0 row s' i,
        timer_tracks s0 -> step s0 (Double1 row) = Some (s', i) ->
        timer s' = None /\ after_pending s' = []
        /\ forall t, step s' (AfterFires t) = None).
Proof.
  intros Htr Hv.
  pose proof (step_select s r [] Htr) as Hsel.
  assert (Hfire := step_fire (form s) (customer_tree s) r []
                             (after_serial s) (S (after_serial s)) v Hv).
  split; [|split; [|split; [|split; [exact step_intent | exact step_double_quiet]]]].
  - eexists. split.
    + rewrite (run_two _ _ _ _ _ _ _ Hsel Hfire). reflexivity.
    + repeat split.
  - assert (Hdbl := step_double
                      (mkApp (Some (after_serial s)) (form s) (customer_tree s)
                             [r] [after_serial s] (S (after_serial s)))
                      r v eq_refl Hv).
    eexists. split.
    + rewrite (run_two _ _ _ _ _ _ _ Hsel Hdbl). reflexivity.
    + repeat split.
  - assert (Hdbl := step_double
                      (mkApp None (delete_form v) (customer_tree s) [r] []
                             (S (after_serial s)))
                      r v eq_refl Hv).
    eexists. split.
    + rewrite (run_three _ _ _ _ _ _ _ _ _ _ Hsel Hfire Hdbl). reflexivity.
    + repeat split.
Qed.

Lemma click_gestures_witness :
  timer_tracks (init_app two_rows)
  /\ item_values (init_app two_rows) 2
     = Some (mkValues 9 "555-0101" "Bob" "2 High St" "Standard")
  /\ (exists s1,
        run (init_app two_rows) [TreeviewSelect [2]; AfterFires 0]
        = Some (s1, [DeleteIntent 2])
        /\ timer s1 = None /\ after_pending s1 = []
        /\ form s1 = delete_form (mkValues 9 "555-0101" "Bob" "2 High St" "Standard")
        /\ form_mode (form s1) = Some DeleteMode)
  /\ (exists s2,
        run (init_app two_rows) [TreeviewSelect [2]; Double1 (Some 2)]
        = Some (s2, [UpdateIntent 2])
        /\ timer s2 = None /\ after_pending s2 = []
        /\ form s2 = update_form (mkValues 9 "555-0101" "Bob" "2 High St" "Standard")
        /\ form_mode (form s2) = Some UpdateMode
        /\ forall t, step s2 (AfterFires t) = None).
Proof.
  split; [reflexivity|]. split; [reflexivity|].
  destruct (click_gestures (init_app two_rows) 2
              (mkValues 9 "555-0101" "Bob" "2 High St" "Standard")
              eq_refl eq_refl) as [H1 [H2 _]].
  split; [exact H1 | exact H2].
Defined.

(** C2, as stated, fails: a double click on row 2 whose second click
    arrives after the single-click timer of the first has fired is one
    gesture, and it yields both a delete intent and an update intent. *)
Lemma click_gestures_counterexample :
  exists s',
    run (init_app two_rows) [TreeviewSelect [2]; AfterFires 0; Double1 (Some 2)]
    = Some (s', [DeleteIntent 2; UpdateIntent 2])
    /\ form s' = update_form (mkValues 9 "555-0101" "Bob" "2 High St" "Standard").
Proof. eexists. split; reflexivity. Qed.

(** ** Reselecting before the timer fires *)

(** C8. From any state whose timer is tracked, a selection of r1 followed
    by a selection of r2 emits nothing and leaves one callback scheduled,
    the second one: the first timer was cancelled and cannot fire. When
    the second timer fires the trace is exactly [DeleteIntent r2]. *)
Theorem reselect_restarts_debounce s r1 r2 v2 :
  timer_tracks s -> item_values s r2 = Some v2 ->
  exists s2 s3,
    run s [TreeviewSelect [r1]; TreeviewSelect [r2]] = Some (s2, [])
    /\ timer s2 = Some (S (after_serial s))
    /\ after_pending s2 = [S (after_serial s)]
    /\ step s2 (AfterFires (after_serial s)) = None
    /\ run s [TreeviewSelect [r1]; TreeviewSelect [r2];
              AfterFires (S (after_serial s))]
       = Some (s3, [DeleteIntent r2])
    /\ timer s3 = None /\ after_pending s3 = []
    /\ form s3 = delete_form v2.
Proof.
  intros Htr Hv.
  pose proof (step_select s r1 [] Htr) as H1.
  set (s1 := mkApp (Some (after_serial s)) (form s) (customer_tree s) [r1]
                   [after_serial s] (S (after_serial s))) in H1.
  assert (H2 : step s1 (TreeviewSelect [r2])
               = Some (mkApp (Some (S (after_serial s))) (form s)
                             (customer_tree s) [r2] [S (after_serial s)]
                             (S (S (after_serial s))), None))
    by (apply (step_select s1 r2 [] eq_refl)).
  assert (H3 := step_fire (form s) (customer_tree s) r2 []
                          (S (after_serial s)) (S (S (after_serial s))) v2 Hv).
  eexists; eexists.
  split; [rewrite (run_two _ _ _ _ _ _ _ H1 H2); reflexivity|].
  split; [reflexivity|]. split; [reflexivity|].
  split.
  { cbn [step after_pending existsb].
    assert (E : Nat.eqb (after_serial s) (S (after_serial s)) = false)
      by (apply Nat.eqb_neq; lia).
    rewrite E. reflexivity. }
  split; [rewrite (run_three _ _ _ _ _ _ _ _ _ _ H1 H2 H3); reflexivity|].
  repeat split.
Qed.

Lemma reselect_restarts_debounce_witness :
  timer_tracks (init_app two_rows)
  /\ item_values (init_app two_rows) 2
     = Some (mkValues 9 "555-0101" "Bob" "2 High St" "Standard")
  /\ exists s2 s3,
       run (init_app two_rows) [TreeviewSelect [1]; TreeviewSelect [2]]
       = Some (s2, [])
       /\ timer s2 = Some 1
       /\ after_pending s2 = [1]
       /\ step s2 (AfterFires 0) = None
       /\ run (init_app two_rows)
              [TreeviewSelect [1]; TreeviewSelect [2]; AfterFires 1]
          = Some (s3, [DeleteIntent 2])
       /\ timer s3 = None /\ after_pending s3 = []
       /\ form s3 = delete_form (mkValues 9 "555-0101" "Bob" "2 High St" "Standard").
Proof.
  split; [reflexivity|]. split; [reflexivity|].
  exact (reselect_restarts_debounce (init_app two_rows) 1 2
           (mkValues 9 "555-0101" "Bob" "2 High St" "Standard")
           eq_refl eq_refl).
Defined.

(** ** A double click outside the rows *)

(** C9, as the code has it. With no timer pending, a double click for
    which [identify_row] names no row emits no intent and raises nothing,
    schedules and cancels nothing, and runs [clear_customer_entries]: the
    selected customer id becomes 0, the form fields are emptied, the
    buttons go back to add mode and the tree selection is removed. *)
Theorem double_click_off_rows s :
  timer s = None ->
  step s (Double1 None)
  = Some (mkApp None cleared_form (customer_tree s) [] (after_pending s)
                (after_serial s), None)
  /\ form_mode cleared_form = Some AddMode.
Proof.
  intros Ht. split; [|reflexivity].
  cbn [step]. unfold handle_double_click_update, clear_customer_entries,
    cancel_timer, set_form, set_selection.
  destruct s as [t f tree sel pend serial]; simpl in Ht; subst t; simpl.
  destruct sel; reflexivity.
Qed.

Lemma double_click_off_rows_witness :
  timer app_updating = None
  /\ step app_updating (Double1 None)
     = Some (mkApp None cleared_form two_rows [] [] 1, None).
Proof.
  split; [reflexivity|].
  exact (proj1 (double_click_off_rows app_updating eq_refl)).
Defined.

(** C9, as stated, fails: in update mode for customer 7 with no timer
    pending, a double click outside the rows resets the selected customer
    id to 0 and empties the form. *)
Lemma double_click_off_rows_counterexample :
  timer app_updating = None
  /\ selected_customer_id (form app_updating) = 7%Z
  /\ exists s',
       step app_updating (Double1 None) = Some (s', None)
       /\ selected_customer_id (form s') = 0%Z
       /\ form s' <> form app_updating
       /\ tree_selection s' <> tree_selection app_updating.
Proof.
  split; [reflexivity|]. split; [reflexivity|].
  eexists. split; [reflexivity|].
  split; [reflexivity|]. split; discriminate.
Qed.

End SelectionSpec.

(** * Properties of the customer table *)

Module StoreSpec.
Import Billing Store.

Local Open Scope Z_scope.
Local Open Scope string_scope.

(** ** Running the model *)

Example get_all_customers_two :
  map customer_id (get_all_customers db_two_customers) = [2; 1].
Proof. reflexivity. Qed.

Example add_duplicate_phone :
  add_customer db_two_customers "555-0101" "Eve" "" "Standard"
  = (db_two_customers, false).
Proof. reflexivity. Qed.

Example update_to_taken_phone :
  update_customer db_two_customers 1 "555-0101" "Ada" "1 Main St" "Standard"
  = (db_two_customers, false).
Proof. reflexivity. Qed.

(** ** Lists in key order *)

Section KeyedLists.
Context {A : Type} (key : A -> Z).

Lemma sorted_snoc (l : list A) (x : A) :
  StronglySorted (fun a b => key a < key b) l ->
  (forall a, In a l -> key a < key x) ->
  StronglySorted (fun a b => key a < key b) (l ++ [x]).
Proof.
  induction 1 as [|a l Hs IH Ha]; simpl; intros Hx.
  - constructor; [constructor | constructor].
  - constructor.
    + apply IH. intros b Hb. apply Hx. right; exact Hb.
    + apply Forall_app. split; [exact Ha|].
      constructor; [apply Hx; left; reflexivity | constructor].
Qed.

Lemma sorted_filter (P : A -> bool) (l : list A) :
  StronglySorted (fun a b => key a < key b) l ->
  StronglySorted (fun a b => key a < key b) (filter P l).
Proof.
  induction 1 as [|a l Hs IH Ha]; simpl; [constructor|].
  destruct (P a); [|exact IH].
  constructor; [exact IH|].
  apply Forall_forall. intros b Hb. apply filter_In in Hb as [Hb _].
  rewrite Forall_forall in Ha. apply Ha; exact Hb.
Qed.

Lemma sorted_map_same_key (f : A -> A) (l : list A) :
  (forall a, key (f a) = key a) ->
  StronglySorted (fun a b => key a < key b) l ->
  StronglySorted (fun a b => key a < key b) (map f l).
Proof.
  intros Hf. induction 1 as [|a l Hs IH Ha]; simpl; [constructor|].
  constructor; [exact IH|].
  apply Forall_forall. intros b Hb. apply in_map_iff in Hb as [b0 [<- Hb0]].
  rewrite !Hf. rewrite Forall_forall in Ha. apply Ha; exact Hb0.
Qed.

Lemma sorted_key_inj (l : list A) (a b : A) :
  StronglySorted (fun a b => key a < key b) l ->
  In a l -> In b l -> key a = key b -> a = b.
Proof.
  induction 1 as [|x l Hs IH Hx]; simpl; [intros []|].
  rewrite Forall_forall in Hx.
  intros [<- | Ha] [<- | Hb] E; auto.
  - apply Hx in Hb. lia.
  - apply Hx in Ha. lia.
Qed.
End KeyedLists.

(** ** The [UNIQUE] phone number under an update *)

Lemma update_phones_nodup (cid : Z) (phone nm addr plan : string)
    (l : list Customer) :
  StronglySorted (fun a b => customer_id a < customer_id b) l ->
  NoDup (map phone_number l) ->
  (forall c, In c l -> customer_id c <> cid -> phone_number c <> phone) ->
  NoDup (map phone_number
           (map (fun c => if Z.eqb (customer_id c) cid
                          then mkCustomer (customer_id c) phone nm addr plan
                          else c) l)).
Proof.
  induction 1 as [|x l Hs IH Hx]; simpl; intros Hnd Hfree; [constructor|].
  inversion Hnd as [|? ? Hnotin Hnd']; subst.
  rewrite Forall_forall in Hx.
  destruct (Z.eqb_spec (customer_id x) cid) as [E|E]; simpl.
  - assert (Hid : map (fun c => if Z.eqb (customer_id c) cid
                                then mkCustomer (customer_id c) phone nm addr plan
                                else c) l = l).
    { rewrite <- (map_id l) at 2. apply map_ext_in. intros c Hc.
      apply Hx in Hc. destruct (Z.eqb_spec (customer_id c) cid); [lia | reflexivity]. }
    rewrite Hid. constructor; [|exact Hnd'].
    intros Hin. apply in_map_iff in Hin as [c [Hp Hc]].
    apply (Hfree c); [right; exact Hc | | exact Hp].
    apply Hx in Hc. lia.
  - constructor.
    + intros Hin. apply in_map_iff in Hin as [c' [Hp Hc']].
      apply in_map_iff in Hc' as [c [<- Hc]].
      destruct (Z.eqb_spec (customer_id c) cid); simpl in Hp.
      * apply (Hfree x); [left; reflexivity | exact E | congruence].
      * apply Hnotin. apply in_map_iff. exists c. auto.
    + apply IH; [exact Hnd'|]. intros c Hc. apply Hfree. right; exact Hc.
Qed.

Lemma phone_taken_false db phone but :
  phone_taken db phone but = false ->
  forall c, In c (Customers db) -> phone_number c = phone ->
            match but with
            | Some cid => customer_id c = cid
            | None => False
            end.
Proof.
  unfold phone_taken. intros Hf c Hc Hp.
  assert (H := existsb_exists
                 (fun c => (String.eqb (phone_number c) phone
                            && match but with
                               | Some cid => negb (Z.eqb (customer_id c) cid)
                               | None => true
                               end)%bool) (Customers db)).
  destruct but as [cid|].
  - destruct (Z.eqb_spec (customer_id c) cid) as [E|E]; [exact E|].
    assert (Ht : existsb (fun c => (String.eqb (phone_number c) phone
                                    && negb (Z.eqb (customer_id c) cid))%bool)
                         (Customers db) = true).
    { apply H. exists c. split; [exact Hc|].
      apply andb_true_iff. split; [apply String.eqb_eq; exact Hp|].
      apply negb_true_iff. apply Z.eqb_neq. exact E. }
    congruence.
  - assert (Ht : existsb (fun c => (String.eqb (phone_number c) phone && true)%bool)
                         (Customers db) = true).
    { apply H. exists c. split; [exact Hc|].
      apply andb_true_iff. split; [apply String.eqb_eq; exact Hp | reflexivity]. }
    congruence.
Qed.

(** ** The customer table along every history *)

Lemma customers_ok_same db db' :
  Customers db' = Customers db -> seq_customers db' = seq_customers db ->
  customers_ok db -> customers_ok db'.
Proof.
  intros Hc Hs [H0 Hr Hso Hp]. constructor; rewrite ?Hc, ?Hs; auto.
Qed.

Lemma customers_ok_add db phone nm addr plan :
  customers_ok db -> customers_ok (fst (add_customer db phone nm addr plan)).
Proof.
  intros Hok. unfold add_customer.
  destruct (phone_taken db phone None) eqn:Ht; simpl; [exact Hok|].
  destruct Hok as [H0 Hr Hso Hp]. constructor; simpl.
  - lia.
  - intros c Hc. apply in_app_iff in Hc as [Hc | [<- | []]]; simpl.
    + apply Hr in Hc. lia.
    + lia.
  - apply sorted_snoc; [exact Hso|]. intros a Ha. apply Hr in Ha. simpl; lia.
  - rewrite map_app; simpl. apply BillingSpec.NoDup_snoc; [exact Hp|].
    intros Hin. apply in_map_iff in Hin as [c [Hph Hc]].
    exact (phone_taken_false db phone None Ht c Hc Hph).
Qed.

Lemma customers_ok_update db cid phone nm addr plan :
  customers_ok db -> customers_ok (fst (update_customer db cid phone nm addr plan)).
Proof.
  intros Hok. unfold update_customer.
  destruct (existsb (fun c => Z.eqb (customer_id c) cid) (Customers db)) eqn:Hex;
    simpl.
  - destruct (phone_taken db phone (Some cid)) eqn:Ht; simpl; [exact Hok|].
    destruct Hok as [H0 Hr Hso Hp]. constructor; simpl.
    + exact H0.
    + intros c Hc. apply in_map_iff in Hc as [c0 [<- Hc0]].
      destruct (Z.eqb (customer_id c0) cid); simpl; apply Hr; exact Hc0.
    + apply sorted_map_same_key; [|exact Hso].
      intros a. destruct (Z.eqb (customer_id a) cid); reflexivity.
    + apply update_phones_nodup; auto.
      intros c Hc Hne Hph.
      apply Hne. exact (phone_taken_false db phone (Some cid) Ht c Hc Hph).
  - assert (Hid : map (fun c => if Z.eqb (customer_id c) cid
                                then mkCustomer (customer_id c) phone nm addr plan
                                else c) (Customers db) = Customers db).
    { rewrite <- (map_id (Customers db)) at 2. apply map_ext_in. intros c Hc.
      destruct (Z.eqb (customer_id c) cid) eqn:E; [|reflexivity].
      assert (Ht : existsb (fun c => Z.eqb (customer_id c) cid) (Customers db) = true)
        by (apply existsb_exists; eauto).
      congruence. }
    revert Hok. apply customers_ok_same; simpl; auto.
Qed.

Lemma customers_ok_delete db cid :
  customers_ok db -> customers_ok (fst (delete_customer db cid)).
Proof.
  intros [H0 Hr Hso Hp]. constructor; simpl.
  - exact H0.
  - intros c Hc. apply filter_In in Hc as [Hc _]. apply Hr; exact Hc.
  - apply sorted_filter; exact Hso.
  - apply BillingSpec.NoDup_map_filter; exact Hp.
Qed.

Lemma customers_ok_apply db o : customers_ok db -> customers_ok (apply_op db o).
Proof.
  intros Hok. destruct o as [ph nm ad pl | cid ph nm ad pl | cid
                            | ph callee d now | flt cid p now]; simpl.
  - apply customers_ok_add; exact Hok.
  - apply customers_ok_update; exact Hok.
  - apply customers_ok_delete; exact Hok.
  - destruct (BillingSpec.log_call_cases db ph callee d now)
      as [[-> _] | [c [pl [_ [_ [_ [_ ->]]]]]]]; [exact Hok|].
    revert Hok; apply customers_ok_same; reflexivity.
  - destruct (BillingSpec.generate_bill_atomic flt db cid p now) as [-> | E];
      [exact Hok|].
    revert Hok; apply customers_ok_same.
    + apply (BillingSpec.generate_bill_tables flt db cid p now).
    + rewrite E, BillingSpec.generate_bill_None.
      destruct (select_calls db cid (p ++ "%")) as [e | [charge calls]]; auto.
      destruct (Z.eqb calls 0); auto.
      destruct (select_bill_id db cid p);
        [destruct (format_charge charge (Info_BillUpdated p))
        |destruct (format_charge charge (Info_BillGenerated p))]; reflexivity.
Qed.

Lemma customers_ok_empty : customers_ok empty_db.
Proof.
  constructor; simpl; [lia | intros c [] | constructor | constructor].
Qed.

Lemma customers_ok_history ops : customers_ok (history ops).
Proof.
  apply (BillingSpec.fold_apply_invariant customers_ok customers_ok_apply).
  exact customers_ok_empty.
Qed.

Lemma sorted_ids_nodup (l : list Customer) :
  StronglySorted (fun a b => customer_id a < customer_id b) l ->
  NoDup (map customer_id l).
Proof.
  induction 1 as [|x l Hs IH Hx]; simpl; constructor; [|exact IH].
  rewrite Forall_forall in Hx. intros Hin.
  apply in_map_iff in Hin as [c [E Hc]]. apply Hx in Hc. lia.
Qed.

(** X1. In every database the program builds from a fresh file, by any
    sequence of customer additions, updates and deletions, logged calls
    and generated bills, no two customers share an id or a phone number,
    and every customer id lies between 1 and the sequence counter. *)
Theorem history_customers_distinct ops :
  NoDup (map customer_id (Customers (history ops)))
  /\ NoDup (map phone_number (Customers (history ops)))
  /\ (forall c, In c (Customers (history ops)) ->
                0 < customer_id c <= seq_customers (history ops)).
Proof.
  destruct (customers_ok_history ops) as [H0 Hr Hso Hp].
  split; [apply sorted_ids_nodup; exact Hso|]. split; assumption.
Qed.

(** ** Listing the customers *)

Lemma insert_desc_perm c l : Permutation (insert_desc c l) (c :: l).
Proof.
  induction l as [|x l IH]; simpl; [reflexivity|].
  destruct (Z.ltb (customer_id x) (customer_id c)); [reflexivity|].
  rewrite IH. apply perm_swap.
Qed.

Lemma insert_desc_sorted c l :
  StronglySorted (fun a b => customer_id a >= customer_id b) l ->
  StronglySorted (fun a b => customer_id a >= customer_id b) (insert_desc c l).
Proof.
  induction 1 as [|x l Hs IH Hx]; simpl.
  - constructor; constructor.
  - destruct (Z.ltb_spec (customer_id x) (customer_id c)) as [Hlt|Hge].
    + constructor; [constructor; assumption|].
      constructor; [lia|].
      rewrite Forall_forall in *. intros b Hb. apply Hx in Hb. lia.
    + constructor; [exact IH|].
      rewrite Forall_forall in *. intros b Hb.
      apply (Permutation_in _ (insert_desc_perm c l)) in Hb.
      destruct Hb as [<- | Hb]; [lia | apply Hx; exact Hb].
Qed.

Lemma order_by_id_desc_perm l : Permutation (order_by_id_desc l) l.
Proof.
  unfold order_by_id_desc. induction l as [|c l IH]; simpl; [constructor|].
  rewrite insert_desc_perm. constructor. exact IH.
Qed.

Lemma get_all_customers_in db c :
  In c (get_all_customers db) <-> In c (Customers db).
Proof.
  unfold get_all_customers. split; apply Permutation_in;
    [|symmetry]; apply order_by_id_desc_perm.
Qed.

(** X2. [get_all_customers] returns every row of the customer table
    exactly once, in descending order of customer id. *)
Theorem get_all_customers_sorted db :
  Permutation (get_all_customers db) (Customers db)
  /\ StronglySorted (fun a b => customer_id a >= customer_id b)
                    (get_all_customers db).
Proof.
  unfold get_all_customers, order_by_id_desc.
  induction (Customers db) as [|c l [IHp IHs]]; simpl.
  - split; constructor.
  - split.
    + rewrite insert_desc_perm. constructor. exact IHp.
    + apply insert_desc_sorted. exact IHs.
Qed.




(** ** Adding a customer *)





(** ** Deleting a customer *)

Section FilterFacts.
Context {A : Type}.



End FilterFacts.



(** ** What [generate_bill] leaves alone *)

Lemma bill_id_inj db b b' :
  bills_ok db -> In b (BillHistory db) -> In b' (BillHistory db) ->
  bill_id b = bill_id b' -> b = b'.
Proof.
  intros [Hid _ _]. revert Hid.
  induction (BillHistory db) as [|x l IH]; simpl; [intros _ []|].
  intros Hnd. inversion Hnd as [|? ? Hx Hl]; subst.
  intros [<- | Hb] [<- | Hb'] E; auto.
  - exfalso. apply Hx. rewrite E. apply in_map; exact Hb'.
  - exfalso. apply Hx. rewrite <- E. apply in_map; exact Hb.
Qed.

(** X5. In a store whose bills are unique per (customer, period),
    a call of [generate_bill], with or without a storage fault, leaves
    the bills of every other (customer, period) pair exactly as they
    were, never touches customers or call logs, and adds at most one
    row to [BillHistory]. *)
Theorem generate_bill_frame flt db cid period now :
  bills_ok db ->
  (forall c p, (c, p) <> (cid, period) ->
     bills_for (out_db (generate_bill flt db cid period now)) c p
     = bills_for db c p)
  /\ Customers (out_db (generate_bill flt db cid period now)) = Customers db
  /\ CallLogs (out_db (generate_bill flt db cid period now)) = CallLogs db
  /\ (List.length (BillHistory db)
      <= List.length (BillHistory (out_db (generate_bill flt db cid period now)))
      <= S (List.length (BillHistory db)))%nat.
Proof.
  intros Hok.
  destruct (BillingSpec.generate_bill_tables flt db cid period now) as [Hc Hl].
  assert (Hcases :
    out_db (generate_bill flt db cid period now) = db
    \/ (exists bid calls charge,
           select_bill_id db cid period = Some bid
           /\ out_db (generate_bill flt db cid period now)
              = update_bill db bid calls charge now)
    \/ (exists calls charge,
           out_db (generate_bill flt db cid period now)
           = insert_bill db cid period calls charge now)).
  { destruct (BillingSpec.generate_bill_atomic flt db cid period now) as [E | E];
      [left; exact E|].
    rewrite E, BillingSpec.generate_bill_None.
    destruct (select_calls db cid (period ++ "%")) as [e | [charge calls]];
      [left; reflexivity|].
    destruct (Z.eqb calls 0); [left; reflexivity|].
    destruct (select_bill_id db cid period) as [bid|] eqn:Hs.
    - right; left. exists bid, calls, charge. split; [reflexivity|].
      destruct (format_charge charge (Info_BillUpdated period)); reflexivity.
    - right; right. exists calls, charge.
      destruct (format_charge charge (Info_BillGenerated period)); reflexivity. }
  split; [|split; [exact Hc | split; [exact Hl|]]].
  - intros c p Hne.
    destruct Hcases as [-> | [[bid [calls [charge [Hs ->]]]] | [calls [charge ->]]]];
      [reflexivity | |].
    + rewrite BillingSpec.bills_for_update.
      rewrite <- (map_id (bills_for db c p)) at 2.
      apply map_ext_in. intros b Hb. apply BillingSpec.touch_other.
      intros Hid. apply Hne.
      unfold bills_for in Hb. apply filter_In in Hb as [Hb Hm].
      apply BillingSpec.bill_matches_key in Hm.
      destruct (BillingSpec.select_found db cid period bid Hok Hs)
        as [b0 [Hb0 [Hid0 [Hc0 Hp0]]]].
      assert (Hin0 : In b0 (BillHistory db)).
      { assert (H : In b0 (bills_for db cid period)) by (rewrite Hb0; left; reflexivity).
        unfold bills_for in H. apply filter_In in H as [H _]. exact H. }
      assert (b = b0) by (apply (bill_id_inj db); auto; congruence).
      subst b0. unfold bill_key in Hm. congruence.
    + unfold bills_for. cbn [insert_bill BillHistory].
      rewrite filter_app. simpl.
      destruct (bill_matches c p (mkBill (seq_bills db + 1) cid period calls charge now))
        eqn:Hm; [|apply app_nil_r].
      apply BillingSpec.bill_matches_key in Hm. unfold bill_key in Hm; simpl in Hm.
      congruence.
  - destruct Hcases as [-> | [[bid [calls [charge [Hs ->]]]] | [calls [charge ->]]]].
    + lia.
    + rewrite BillingSpec.update_bill_rows, length_map. lia.
    + cbn [insert_bill BillHistory]. rewrite length_app. simpl. lia.
Qed.

Lemma generate_bill_frame_witness :
  bills_ok db_two_customers
  /\ bills_for (out_db (generate_bill None db_two_customers 1 "2024-05"
                                      "2024-07-01 09:00:00")) 2 "2024-05"
     = bills_for db_two_customers 2 "2024-05".
Proof.
  split; [exact (BillingSpec.history_bills_ok ops_two_customers)|].
  apply (proj1 (generate_bill_frame None db_two_customers 1 "2024-05"
                  "2024-07-01 09:00:00" (BillingSpec.history_bills_ok ops_two_customers))).
  discriminate.
Defined.

(** ** Logging calls *)

Lemma find_by_unique_key {A K : Type} (key : A -> K) (P : A -> bool) (k : K)
    (l : list A) (a : A) :
  (forall x, P x = true <-> key x = k) ->
  NoDup (map key l) -> In a l -> key a = k -> find P l = Some a.
Proof.
  intros HP. induction l as [|x l IH]; simpl; intros Hnd Hin Hk; [contradiction|].
  inversion Hnd as [|? ? Hx Hl]; subst.
  destruct (P x) eqn:Px.
  - destruct Hin as [-> | Hin]; [reflexivity|].
    exfalso. apply Hx. apply HP in Px. rewrite Px. apply in_map_iff. eauto.
  - destruct Hin as [-> | Hin].
    + assert (P a = true) by (apply HP; reflexivity). congruence.
    + apply IH; auto.
Qed.

Lemma select_by_phone_owner db c :
  customers_ok db -> In c (Customers db) ->
  select_customer_by_phone db (phone_number c) = Some (customer_id c, rate_plan c).
Proof.
  intros [_ _ _ Hp] Hc. unfold select_customer_by_phone.
  rewrite (find_by_unique_key phone_number _ (phone_number c) (Customers db) c);
    auto.
  intros x. apply String.eqb_eq.
Qed.







(** ** Rates *)

Lemma resolve_rate_cases plan :
  resolve_rate plan = 5 # 100 \/ resolve_rate plan = 3 # 100
  \/ resolve_rate plan = 8 # 100.
Proof.
  unfold resolve_rate, dict_get, RATE_PLANS, dict_lookup.
  destruct (String.eqb "Standard" plan); [left; reflexivity|].
  destruct (String.eqb "Premium" plan); [right; left; reflexivity|].
  destruct (String.eqb "Business" plan); [right; right; reflexivity|].
  left; reflexivity.
Qed.

(** ** Updating a customer *)




(** ** Regenerating a bill after a new call *)

Lemma select_sum_count_nonneg db cid pat : 0 <= snd (select_sum_count db cid pat).
Proof. unfold select_sum_count; simpl. apply Nat2Z.is_nonneg. Qed.



End StoreSpec.

(** * Properties of the customer tab *)

Module DeskSpec.
Import Billing Store Selection Desk.

Local Open Scope nat_scope.
Local Open Scope string_scope.

(** ** Running the model *)

Example desk_two_rows :
  map values (customer_tree (app desk_two))
  = [Some (mkValues 2 "555-0101" "Bob" "2 High St" "Premium");
     Some (mkValues 1 "555-0100" "Ada" "1 Main St" "Standard")].
Proof. reflexivity. Qed.

Example click_delete_ids :
  option_map (fun r => map customer_id (Customers (db (fst r))))
    (run desk_two [Sel (TreeviewSelect [0]); Sel (AfterFires 0); DeleteButton true])
  = Some [1%Z].
Proof. reflexivity. Qed.

Example delete_without_click :
  run desk_two [DeleteButton true] = Some (desk_two, []).
Proof. reflexivity. Qed.

Example add_with_empty_name :
  option_map snd (run desk_two [TypePhone "555-0102"; AddButton])
  = Some [Warn_AddInput].
Proof. reflexivity. Qed.

(** ** The tree after a reload *)

Lemma insert_rows_values n cs :
  map values (insert_rows n cs) = map (fun c => Some (values_of c)) cs.
Proof.
  revert n. induction cs as [|c cs IH]; intros n; simpl; [reflexivity|].
  rewrite IH. reflexivity.
Qed.

Lemma load_app d :
  app (load_customers_to_treeview d)
  = mkApp (timer (app d)) (form (app d))
          (insert_rows (tree_serial d) (get_all_customers (db d)))
          [] (after_pending (app d)) (after_serial (app d))
  /\ db (load_customers_to_treeview d) = db d.
Proof.
  unfold load_customers_to_treeview.
  destruct (tree_selection (app d)) eqn:E; simpl; rewrite ?E; split; reflexivity.
Qed.

Lemma refresh_tracked a db' serial :
  timer_tracks a ->
  app (refresh a db' serial)
  = mkApp None cleared_form (insert_rows serial (get_all_customers db'))
          [] [] (after_serial a)
  /\ db (refresh a db' serial) = db'.
Proof.
  intros Htr. unfold refresh.
  destruct (load_app (mkDesk (clear_customer_entries a) db' serial)) as [-> ->].
  cbn [app db tree_serial]. rewrite (SelectionSpec.clear_tracked a Htr).
  split; reflexivity.
Qed.

(** ** Rows and customers *)

Lemma item_values_in a row v :
  item_values a row = Some v -> In (Some v) (map values (customer_tree a)).
Proof.
  unfold item_values.
  destruct (find (fun it => Nat.eqb (iid it) row) (customer_tree a)) as [it|] eqn:Hf;
    [|discriminate].
  intros Hv. apply find_some in Hf as [Hin _].
  rewrite <- Hv. apply in_map. exact Hin.
Qed.

Lemma row_customer d row v :
  tree_mirrors d -> item_values (app d) row = Some v ->
  exists c, In c (Customers (db d)) /\ v = values_of c.
Proof.
  intros Hm Hv. apply item_values_in in Hv. rewrite Hm in Hv.
  apply in_map_iff in Hv as [c [E Hc]]. inversion E; subst.
  exists c. split; [apply StoreSpec.get_all_customers_in; exact Hc | reflexivity].
Qed.

(** ** One selection event *)

Lemma sel_step_cases a e a' i :
  timer_tracks a -> Selection.step a e = Some (a', i) ->
  timer_tracks a'
  /\ customer_tree a' = customer_tree a
  /\ (form a' = form a \/ form a' = cleared_form
      \/ exists row v, item_values a row = Some v
                       /\ (form a' = delete_form v \/ form a' = update_form v)).
Proof.
  intros Htr Hs.
  split; [exact (SelectionSpec.step_tracks a e a' i Htr Hs)|].
  destruct e as [sel | row | | id].
  - cbn [Selection.step] in Hs. inversion Hs; subst; clear Hs.
    destruct sel as [|r sel].
    + unfold handle_treeview_select. cbn [set_selection tree_selection].
      rewrite (SelectionSpec.clear_tracked (set_selection a []) Htr).
      split; [reflexivity | right; left; reflexivity].
    + rewrite (SelectionSpec.select_tracked a r sel Htr).
      split; [reflexivity | left; reflexivity].
  - destruct row as [r|].
    + destruct (item_values a r) as [v|] eqn:Hv.
      * rewrite (SelectionSpec.step_double a r v Htr Hv) in Hs.
        inversion Hs; subst. split; [reflexivity|].
        right; right. exists r, v. split; [exact Hv | right; reflexivity].
      * rewrite (SelectionSpec.step_double_no_values a r Htr Hv) in Hs.
        inversion Hs; subst. split; [reflexivity | left; reflexivity].
    + cbn [Selection.step] in Hs. unfold handle_double_click_update in Hs.
      rewrite (SelectionSpec.cancel_timer_tracked a Htr) in Hs.
      rewrite SelectionSpec.clear_tracked in Hs by reflexivity.
      inversion Hs; subst. split; [reflexivity | right; left; reflexivity].
  - cbn [Selection.step] in Hs. rewrite (SelectionSpec.clear_tracked a Htr) in Hs.
    inversion Hs; subst. split; [reflexivity | right; left; reflexivity].
  - cbn [Selection.step] in Hs.
    destruct (existsb (Nat.eqb id) (after_pending a)) eqn:Hin; [|discriminate].
    assert (Hp : after_pending (after_cancel a id) = []).
    { unfold timer_tracks in Htr. unfold after_cancel; cbn [after_pending].
      rewrite Htr in *.
      destruct (timer a) as [t|]; simpl in *; [|reflexivity].
      rewrite orb_false_r in Hin. rewrite Nat.eqb_sym, Hin. reflexivity. }
    unfold execute_single_click_delete in Hs.
    destruct (tree_selection (after_cancel a id)) as [|row sel] eqn:Hsel.
    + rewrite (SelectionSpec.clear_after_cancel _
                 (SelectionSpec.cancel_timer_fired _ Hp)) in Hs.
      inversion Hs; subst. split; [reflexivity | right; left; reflexivity].
    + destruct (item_values (after_cancel a id) row) as [v|] eqn:Hv;
        inversion Hs; subst; clear Hs.
      * split; [reflexivity|]. right; right. exists row, v.
        split; [exact Hv | left; reflexivity].
      * split; [reflexivity | left; reflexivity].
Qed.

(** ** The form after each kind of step *)

Lemma form_ok_cleared db0 : form_ok db0 cleared_form.
Proof. reflexivity. Qed.

Lemma form_ok_delete db0 c :
  In c (Customers db0) -> form_ok db0 (delete_form (values_of c)).
Proof. intros Hc. exists c. split; [exact Hc | reflexivity]. Qed.

Lemma form_ok_update db0 c :
  In c (Customers db0) -> form_ok db0 (update_form (values_of c)).
Proof.
  intros Hc. split; [reflexivity|].
  exists c. split; [exact Hc | split; reflexivity].
Qed.

(** Modes in which the Add button is enabled say nothing about the phone
    entry. *)
Lemma form_ok_phone_add db0 f e :
  add_btn f = NORMAL -> form_ok db0 f -> form_ok db0 (set_phone_entry f e).
Proof.
  destruct f as [sid ph nm ad rt ab ub dl]; cbn [add_btn].
  intros ->. unfold form_ok, form_mode; cbn.
  destruct ub, dl; auto.
Qed.

Lemma form_ok_phone_typed db0 f t :
  entry_state (phone_entry f) = NORMAL -> form_ok db0 f ->
  form_ok db0 (set_phone_entry f (mkEntry t NORMAL)).
Proof.
  destruct f as [sid ph nm ad rt ab ub dl]; cbn [phone_entry].
  intros Hst. unfold form_ok, form_mode; cbn.
  destruct ab, ub, dl; auto. intros [Hd _]. congruence.
Qed.

Lemma form_ok_phone_state db0 f st :
  entry_state (phone_entry f) = st -> form_ok db0 f ->
  form_ok db0 (set_phone_entry f (entry_config (phone_entry f) st)).
Proof.
  destruct f as [sid [txt st0] nm ad rt ab ub dl]; cbn.
  intros ->. auto.
Qed.

Lemma form_ok_other_fields db0 f :
  form_ok db0 f ->
  (forall t, form_ok db0 (set_name_entry f t))
  /\ (forall t, form_ok db0 (set_address_entry f t))
  /\ (forall k, form_ok db0 (set_rate_plan_var f k)).
Proof.
  destruct f as [sid ph nm ad rt ab ub dl]. unfold form_ok, form_mode; cbn.
  auto.
Qed.

Lemma view_ok_sel d se a' i :
  view_ok d -> Selection.step (app d) se = Some (a', i) ->
  view_ok (with_app d a').
Proof.
  intros [Htr Hm Hf] Hs.
  destruct (sel_step_cases (app d) se a' i Htr Hs) as [Htr' [Htree Hform]].
  constructor; cbn [with_app app db].
  - exact Htr'.
  - unfold tree_mirrors in *. cbn [with_app app db]. rewrite Htree. exact Hm.
  - destruct Hform as [-> | [-> | [row [v [Hv Hform]]]]];
      [exact Hf | apply form_ok_cleared |].
    destruct (row_customer d row v Hm Hv) as [c [Hc ->]].
    destruct Hform as [-> | ->];
      [apply form_ok_delete | apply form_ok_update]; exact Hc.
Qed.

Lemma view_ok_refresh a db' serial :
  timer_tracks a -> view_ok (refresh a db' serial).
Proof.
  intros Htr. destruct (refresh_tracked a db' serial Htr) as [Ha Hd].
  constructor.
  - rewrite Ha. reflexivity.
  - unfold tree_mirrors. rewrite Ha, Hd. cbn [customer_tree].
    apply insert_rows_values.
  - rewrite Ha, Hd. apply form_ok_cleared.
Qed.

Lemma view_ok_form d f :
  view_ok d -> form_ok (db d) f -> view_ok (with_app d (set_form (app d) f)).
Proof.
  intros [Htr Hm Hf] Hf'. constructor; cbn [with_app app db set_form form];
    [exact Htr | exact Hm | exact Hf'].
Qed.

Lemma timer_tracks_config a st : timer_tracks a -> timer_tracks (config_phone a st).
Proof. intros H. exact H. Qed.

(** ** The three button handlers *)

Lemma refresh_config a db' serial :
  timer_tracks a ->
  mkDesk (config_phone (app (refresh a db' serial)) NORMAL)
         (db (refresh a db' serial)) (tree_serial (refresh a db' serial))
  = refresh a db' serial.
Proof.
  intros Htr. destruct (refresh_tracked a db' serial Htr) as [Ha Hd].
  destruct (refresh a db' serial) as [a1 db1 s1]. cbn [app db tree_serial] in *.
  subst a1. reflexivity.
Qed.

Lemma view_ok_add d :
  view_ok d -> add_btn (form (app d)) = NORMAL ->
  view_ok (fst (handle_add_customer d)).
Proof.
  intros Hok Hadd. unfold handle_add_customer.
  set (a := config_phone (app d) NORMAL).
  assert (Htr : timer_tracks a) by (destruct Hok; assumption).
  assert (Hstay : view_ok (mkDesk (config_phone a NORMAL) (db d) (tree_serial d))).
  { destruct Hok as [Ht Hm Hf]. constructor; cbn [app db].
    - exact Ht.
    - exact Hm.
    - exact (form_ok_phone_add (db d) (form a) _ Hadd
               (form_ok_phone_add (db d) (form (app d)) _ Hadd Hf)). }
  destruct (fields_valid _ _ _); [|exact Hstay].
  destruct (add_customer (db d) _ _ _ _) as [db' [|]]; [|exact Hstay].
  cbn [fst]. rewrite (refresh_config a db' (tree_serial d) Htr).
  apply view_ok_refresh; exact Htr.
Qed.

Lemma update_mode_form db0 f :
  update_btn f = NORMAL -> form_ok db0 f ->
  form_mode f = Some UpdateMode
  /\ entry_state (phone_entry f) = DISABLED
  /\ exists c, In c (Customers db0)
               /\ customer_id c = selected_customer_id f
               /\ phone_number c = entry_text (phone_entry f).
Proof.
  destruct f as [sid ph nm ad rt ab ub dl]; cbn [update_btn].
  intros ->. unfold form_ok, form_mode; cbn.
  destruct ab, dl; try contradiction. intros [Hst Hc]. auto.
Qed.

Lemma view_ok_update d :
  view_ok d -> update_btn (form (app d)) = NORMAL ->
  view_ok (fst (handle_update_customer d)).
Proof.
  intros Hok Hupd. unfold handle_update_customer.
  destruct (Z.leb (selected_customer_id (form (app d))) 0); [exact Hok|].
  destruct (fields_valid _ _ _); [|exact Hok].
  assert (Htr : timer_tracks (config_phone (app d) NORMAL))
    by (destruct Hok; assumption).
  destruct (update_customer (db d) _ _ _ _ _) as [db' [|]]; cbn [fst].
  - apply view_ok_refresh; exact Htr.
  - destruct Hok as [Ht Hm Hf]. constructor; cbn [app db];
      [exact Ht | exact Hm |].
    destruct (update_mode_form _ _ Hupd Hf) as [_ [Hst _]].
    cbn [config_phone set_form form].
    destruct (form (app d)) as [sid [txt st] nm ad rt ab ub dl].
    cbn in Hst; subst st. exact Hf.
Qed.

Lemma view_ok_delete d confirm :
  view_ok d -> view_ok (fst (handle_delete_customer d confirm)).
Proof.
  intros Hok. unfold handle_delete_customer.
  destruct (Z.leb (selected_customer_id (form (app d))) 0); [exact Hok|].
  destruct confirm; [|exact Hok].
  cbn [delete_customer fst]. apply view_ok_refresh.
  destruct Hok; assumption.
Qed.

Lemma view_ok_step d e d' boxes :
  view_ok d -> step d e = Some (d', boxes) -> view_ok d'.
Proof.
  intros Hok. pose proof Hok as [Htr Hm Hf].
  destruct (form_ok_other_fields _ _ Hf) as [Hname [Haddr Hrate]].
  destruct e as [se | t | t | t | k | | | confirm]; cbn [step].
  - destruct (Selection.step (app d) se) as [[a' i]|] eqn:Hs; [|discriminate].
    intros E; inversion E; subst. exact (view_ok_sel d se a' i Hok Hs).
  - destruct (entry_state (phone_entry (form (app d)))) eqn:Hst;
      intros E; inversion E; subst; [|exact Hok].
    apply view_ok_form; [exact Hok | apply form_ok_phone_typed; assumption].
  - intros E; inversion E; subst. apply view_ok_form; auto.
  - intros E; inversion E; subst. apply view_ok_form; auto.
  - destruct (dict_mem RATE_PLANS k); intros E; inversion E; subst;
      [apply view_ok_form; auto | exact Hok].
  - destruct (add_btn (form (app d))) eqn:Hb; intros E; inversion E; subst;
      [|exact Hok].
    change d' with (fst (d', boxes)). rewrite <- H0. apply view_ok_add; assumption.
  - destruct (update_btn (form (app d))) eqn:Hb; intros E; inversion E; subst;
      [|exact Hok].
    change d' with (fst (d', boxes)). rewrite <- H0. apply view_ok_update; assumption.
  - destruct (delete_btn (form (app d))) eqn:Hb; intros E; inversion E; subst;
      [|exact Hok].
    change d' with (fst (d', boxes)). rewrite <- H0. apply view_ok_delete; assumption.
Qed.

Lemma view_ok_init db0 : view_ok (init_desk db0).
Proof.
  unfold init_desk.
  destruct (load_app (mkDesk (init_app []) db0 0)) as [Ha Hd].
  constructor.
  - rewrite Ha. reflexivity.
  - unfold tree_mirrors. rewrite Ha, Hd. apply insert_rows_values.
  - rewrite Ha, Hd. reflexivity.
Qed.

Lemma run_invariant (P : Desk -> Prop) :
  (forall d e d' boxes, P d -> step d e = Some (d', boxes) -> P d') ->
  forall evs d d' boxes, P d -> run d evs = Some (d', boxes) -> P d'.
Proof.
  intros Hstep evs. induction evs as [|e evs IH]; simpl; intros d d' boxes Hd.
  - intros E; inversion E; subst; exact Hd.
  - destruct (step d e) as [[d1 bs]|] eqn:Hs; [|discriminate].
    destruct (run d1 evs) as [[d2 rest]|] eqn:Hr; [|discriminate].
    intros E; inversion E; subst.
    apply (IH d1 d' rest); [eapply Hstep; eauto | exact Hr].
Qed.

Lemma view_ok_reachable db0 d : reachable_from db0 d -> view_ok d.
Proof.
  intros [evs [boxes Hrun]].
  apply (run_invariant view_ok view_ok_step evs (init_desk db0) d boxes);
    [apply view_ok_init | exact Hrun].
Qed.

(** ** The database after each kind of step *)

Lemma refresh_db a db' serial : db (refresh a db' serial) = db'.
Proof.
  unfold refresh.
  exact (proj2 (load_app (mkDesk (clear_customer_entries a) db' serial))).
Qed.

Lemma handle_add_db d :
  db (fst (handle_add_customer d)) = db d
  \/ exists phone nm addr rate,
       fields_valid phone nm rate = true
       /\ db (fst (handle_add_customer d))
          = fst (add_customer (db d) phone nm addr rate).
Proof.
  unfold handle_add_customer.
  set (a := config_phone (app d) NORMAL).
  destruct (fields_valid (entry_text (phone_entry (form a))) (name_entry (form a))
                         (rate_plan_var (form a))) eqn:Hv; [|left; reflexivity].
  right. exists (entry_text (phone_entry (form a))), (name_entry (form a)),
           (address_entry (form a)), (rate_plan_var (form a)).
  split; [exact Hv|].
  destruct (add_customer (db d) _ _ _ _) as [db' [|]] eqn:Ha; cbn [fst db].
  - apply refresh_db.
  - unfold add_customer in Ha.
    destruct (phone_taken (db d) _ None); inversion Ha; reflexivity.
Qed.

Lemma handle_update_db d :
  db (fst (handle_update_customer d)) = db d
  \/ (fields_valid (entry_text (phone_entry (form (app d))))
                   (name_entry (form (app d)))
                   (rate_plan_var (form (app d))) = true
      /\ db (fst (handle_update_customer d))
         = fst (update_customer (db d)
                  (selected_customer_id (form (app d)))
                  (entry_text (phone_entry (form (app d))))
                  (name_entry (form (app d)))
                  (address_entry (form (app d)))
                  (rate_plan_var (form (app d))))).
Proof.
  unfold handle_update_customer.
  destruct (Z.leb (selected_customer_id (form (app d))) 0); [left; reflexivity|].
  destruct (fields_valid _ _ _) eqn:Hv; [|left; reflexivity].
  right. split; [reflexivity|].
  destruct (update_customer (db d) _ _ _ _ _) as [db' [|]] eqn:Hu; cbn [fst db].
  - apply refresh_db.
  - unfold update_customer in Hu.
    destruct (existsb _ (Customers (db d)) && phone_taken (db d) _ _)%bool;
      inversion Hu; reflexivity.
Qed.

Lemma handle_delete_db d confirm :
  db (fst (handle_delete_customer d confirm)) = db d
  \/ (confirm = true
      /\ db (fst (handle_delete_customer d confirm))
         = fst (delete_customer (db d) (selected_customer_id (form (app d))))).
Proof.
  unfold handle_delete_customer.
  destruct (Z.leb (selected_customer_id (form (app d))) 0); [left; reflexivity|].
  destruct confirm; [|left; reflexivity].
  right. split; [reflexivity|]. cbn [delete_customer fst]. apply refresh_db.
Qed.

(** The database changes through the three data-access functions only,
    and a customer is stored only with validated fields. *)
Lemma step_db d e d' boxes :
  step d e = Some (d', boxes) ->
  db d' = db d
  \/ (exists phone nm addr rate,
        fields_valid phone nm rate = true
        /\ db d' = fst (add_customer (db d) phone nm addr rate))
  \/ (exists cid phone nm addr rate,
        fields_valid phone nm rate = true
        /\ db d' = fst (update_customer (db d) cid phone nm addr rate))
  \/ (exists cid, db d' = fst (delete_customer (db d) cid)).
Proof.
  destruct e as [se | t | t | t | k | | | confirm]; cbn [step].
  - destruct (Selection.step (app d) se) as [[a' i]|]; [|discriminate].
    intros E; inversion E; subst. left; reflexivity.
  - destruct (entry_state _); intros E; inversion E; subst; left; reflexivity.
  - intros E; inversion E; subst. left; reflexivity.
  - intros E; inversion E; subst. left; reflexivity.
  - destruct (dict_mem RATE_PLANS k); intros E; inversion E; subst;
      left; reflexivity.
  - destruct (add_btn _); intros E; inversion E; subst; [|left; reflexivity].
    change d' with (fst (d', boxes)). rewrite <- H0.
    destruct (handle_add_db d) as [-> | H]; [left; reflexivity | right; left; exact H].
  - destruct (update_btn _); intros E; inversion E; subst; [|left; reflexivity].
    change d' with (fst (d', boxes)). rewrite <- H0.
    destruct (handle_update_db d) as [-> | [Hv ->]]; [left; reflexivity|].
    right; right; left. eauto 10.
  - destruct (delete_btn _); intros E; inversion E; subst; [|left; reflexivity].
    change d' with (fst (d', boxes)). rewrite <- H0.
    destruct (handle_delete_db d confirm) as [-> | [_ ->]]; [left; reflexivity|].
    right; right; right. eauto.
Qed.

Lemma customers_valid_add db0 phone nm addr rate :
  fields_valid phone nm rate = true -> customers_valid db0 ->
  customers_valid (fst (add_customer db0 phone nm addr rate)).
Proof.
  intros Hv Hok. unfold add_customer.
  destruct (phone_taken db0 phone None); cbn [fst]; [exact Hok|].
  intros c Hc. cbn [Customers] in Hc.
  apply in_app_iff in Hc as [Hc | [<- | []]]; [apply Hok; exact Hc | exact Hv].
Qed.

Lemma customers_valid_update db0 cid phone nm addr rate :
  fields_valid phone nm rate = true -> customers_valid db0 ->
  customers_valid (fst (update_customer db0 cid phone nm addr rate)).
Proof.
  intros Hv Hok. unfold update_customer.
  destruct (existsb _ (Customers db0) && phone_taken db0 phone (Some cid))%bool;
    cbn [fst]; [exact Hok|].
  intros c Hc. cbn [Customers] in Hc.
  apply in_map_iff in Hc as [c0 [<- Hc0]].
  destruct (Z.eqb (customer_id c0) cid); [exact Hv | apply Hok; exact Hc0].
Qed.

Lemma customers_valid_delete db0 cid :
  customers_valid db0 -> customers_valid (fst (delete_customer db0 cid)).
Proof.
  intros Hok c Hc. cbn [delete_customer fst Customers] in Hc.
  apply filter_In in Hc as [Hc _]. apply Hok; exact Hc.
Qed.

Lemma customers_valid_step d e d' boxes :
  customers_valid (db d) -> step d e = Some (d', boxes) ->
  customers_valid (db d').
Proof.
  intros Hok Hs.
  destruct (step_db d e d' boxes Hs)
    as [-> | [[ph [nm [ad [rt [Hv ->]]]]]
             | [[cid [ph [nm [ad [rt [Hv ->]]]]]] | [cid ->]]]].
  - exact Hok.
  - apply customers_valid_add; assumption.
  - apply customers_valid_update; assumption.
  - apply customers_valid_delete; assumption.
Qed.

Lemma customers_ok_step d e d' boxes :
  customers_ok (db d) -> step d e = Some (d', boxes) -> customers_ok (db d').
Proof.
  intros Hok Hs.
  destruct (step_db d e d' boxes Hs)
    as [-> | [[ph [nm [ad [rt [Hv ->]]]]]
             | [[cid [ph [nm [ad [rt [Hv ->]]]]]] | [cid ->]]]].
  - exact Hok.
  - apply StoreSpec.customers_ok_add; assumption.
  - apply StoreSpec.customers_ok_update; assumption.
  - apply StoreSpec.customers_ok_delete; assumption.
Qed.

Lemma init_desk_db db0 : db (init_desk db0) = db0.
Proof. exact (proj2 (load_app (mkDesk (init_app []) db0 0))). Qed.

Lemma customers_ok_reachable db0 d :
  customers_ok db0 -> reachable_from db0 d -> customers_ok (db d).
Proof.
  intros H0 [evs [boxes Hrun]].
  apply (run_invariant (fun d => customers_ok (db d)) customers_ok_step
                       evs (init_desk db0) d boxes);
    [rewrite init_desk_db; exact H0 | exact Hrun].
Qed.

Lemma customers_valid_reachable db0 d :
  customers_valid db0 -> reachable_from db0 d -> customers_valid (db d).
Proof.
  intros H0 [evs [boxes Hrun]].
  apply (run_invariant (fun d => customers_valid (db d)) customers_valid_step
                       evs (init_desk db0) d boxes);
    [rewrite init_desk_db; exact H0 | exact Hrun].
Qed.

Lemma reachable_init db0 : reachable_from db0 (init_desk db0).
Proof. exists [], []. reflexivity. Qed.

(** ** Invariants of the customer tab *)

(** X11. In every state the customer tab reaches from start-up, by
    selection events, edits of the form and clicks on the Add, Update and
    Delete buttons, at most one single-click callback is scheduled, it is
    the one [self.timer] holds, and [self.timer] is [None] exactly when
    none is scheduled. *)
Theorem desk_timer_invariant db0 d :
  reachable_from db0 d ->
  timer_tracks (app d)
  /\ (List.length (after_pending (app d)) <= 1)%nat
  /\ (timer (app d) = None <-> after_pending (app d) = []).
Proof.
  intros Hr. destruct (view_ok_reachable db0 d Hr) as [Htr _ _].
  split; [exact Htr|]. unfold timer_tracks in Htr. rewrite Htr.
  destruct (timer (app d)); simpl; split; try lia; split; congruence.
Qed.

Lemma desk_timer_invariant_witness :
  reachable_from db_two_customers desk_two
  /\ timer_tracks (app desk_two).
Proof.
  split; [exact (reachable_init db_two_customers)|].
  exact (proj1 (desk_timer_invariant db_two_customers desk_two
                  (reachable_init db_two_customers))).
Defined.

(** X12. In every state the customer tab reaches, the rows of the tree
    are the rows of the customer table, one per customer with its five
    columns, in descending order of customer id: a successful add, update
    or delete reloads the tree, and nothing else changes the table. *)
Theorem desk_tree_mirrors db0 d :
  reachable_from db0 d ->
  map values (customer_tree (app d))
  = map (fun c => Some (values_of c)) (get_all_customers (db d)).
Proof.
  intros Hr. destruct (view_ok_reachable db0 d Hr) as [_ Hm _]. exact Hm.
Qed.

Lemma desk_tree_mirrors_witness :
  reachable_from empty_db
    (mkDesk (mkApp None cleared_form
                   [mkItem 0 (Some (mkValues 1 "555-0100" "Ada" "" "Standard"))]
                   [] [] 0)
            (fst (add_customer empty_db "555-0100" "Ada" "" "Standard")) 1)
  /\ map values [mkItem 0 (Some (mkValues 1 "555-0100" "Ada" "" "Standard"))]
     = map (fun c => Some (values_of c))
           (get_all_customers
              (fst (add_customer empty_db "555-0100" "Ada" "" "Standard"))).
Proof.
  assert (Hr : reachable_from empty_db
                 (mkDesk (mkApp None cleared_form
                            [mkItem 0 (Some (mkValues 1 "555-0100" "Ada" ""
                                                      "Standard"))]
                            [] [] 0)
                         (fst (add_customer empty_db "555-0100" "Ada" ""
                                            "Standard")) 1)).
  { exists [TypePhone "555-0100"; TypeName "Ada"; AddButton],
           [Info_CustomerAdded "Ada"]. reflexivity. }
  split; [exact Hr|].
  exact (desk_tree_mirrors empty_db _ Hr).
Defined.

Lemma nonempty_true t : nonempty t = true -> t <> "".
Proof.
  unfold nonempty. intros H E. subst t. discriminate.
Qed.

Lemma dict_mem_known k :
  dict_mem RATE_PLANS k = true -> exists r, In (k, r) RATE_PLANS.
Proof.
  unfold dict_mem. intros H. apply existsb_exists in H as [[k' r] [Hin Hk]].
  apply String.eqb_eq in Hk. cbn [fst] in Hk. subst k'. eauto.
Qed.

(** X13. When the customers of the starting database passed the
    handlers' validation, so do the customers of every state the tab
    reaches: each has a non-empty phone number, a non-empty name and a
    rate plan that is a key of [RATE_PLANS], so the rate resolved for it
    is that plan's configured rate and never the fallback for an unknown
    name. *)
Theorem desk_customers_valid db0 d :
  customers_valid db0 -> reachable_from db0 d ->
  forall c, In c (Customers (db d)) ->
    phone_number c <> "" /\ Billing.name c <> ""
    /\ exists r, In (rate_plan c, r) RATE_PLANS
                 /\ resolve_rate (rate_plan c) = r.
Proof.
  intros H0 Hr c Hc.
  pose proof (customers_valid_reachable db0 d H0 Hr c Hc) as Hv.
  unfold fields_valid in Hv.
  apply andb_true_iff in Hv as [Hv Hrate].
  apply andb_true_iff in Hv as [Hph Hnm].
  split; [apply nonempty_true; exact Hph|].
  split; [apply nonempty_true; exact Hnm|].
  destruct (dict_mem_known _ Hrate) as [r Hin].
  exists r. split; [exact Hin|].
  unfold resolve_rate, dict_get.
  rewrite (BillingSpec.rate_plans_known _ _ Hin). reflexivity.
Qed.

Lemma customers_valid_two : customers_valid db_two_customers.
Proof. intros c [<- | [<- | []]]; reflexivity. Qed.

Lemma reachable_two_added : reachable_from db_two_customers desk_two_added.
Proof.
  exists [TypePhone "555-0102"; TypeName "Cy"; PickRate "Business"; AddButton],
         [Info_CustomerAdded "Cy"].
  reflexivity.
Qed.

Lemma desk_customers_valid_witness :
  customers_valid db_two_customers
  /\ reachable_from db_two_customers desk_two_added
  /\ In (mkCustomer 3 "555-0102" "Cy" "" "Business")
        (Customers (db desk_two_added))
  /\ "555-0102" <> "" /\ "Cy" <> ""
  /\ exists r, In ("Business", r) RATE_PLANS /\ resolve_rate "Business" = r.
Proof.
  split; [exact customers_valid_two|].
  split; [exact reachable_two_added|].
  assert (Hin : In (mkCustomer 3 "555-0102" "Cy" "" "Business")
                   (Customers (db desk_two_added)))
    by (right; right; left; reflexivity).
  split; [exact Hin|].
  exact (desk_customers_valid db_two_customers desk_two_added
           customers_valid_two reachable_two_added
           (mkCustomer 3 "555-0102" "Cy" "" "Business") Hin).
Defined.

(** X14. In every state the customer tab reaches, the buttons show one
    of the three modes; whenever Update or Delete is enabled the selected
    customer id is the id of a customer in the table; whenever Update is
    enabled the phone entry is disabled and holds that customer's phone
    number; and when both are disabled the selected id is 0. *)
Theorem desk_selected_customer db0 d :
  reachable_from db0 d ->
  form_mode (form (app d)) <> None
  /\ (update_btn (form (app d)) = NORMAL \/ delete_btn (form (app d)) = NORMAL ->
      exists c, In c (Customers (db d))
                /\ customer_id c = selected_customer_id (form (app d)))
  /\ (update_btn (form (app d)) = NORMAL ->
      entry_state (phone_entry (form (app d))) = DISABLED
      /\ exists c, In c (Customers (db d))
                   /\ customer_id c = selected_customer_id (form (app d))
                   /\ phone_number c = entry_text (phone_entry (form (app d))))
  /\ (update_btn (form (app d)) = DISABLED ->
      delete_btn (form (app d)) = DISABLED ->
      selected_customer_id (form (app d)) = 0%Z).
Proof.
  intros Hr. destruct (view_ok_reachable db0 d Hr) as [_ _ Hf].
  revert Hf. generalize (db d) as db1.
  destruct (form (app d)) as [sid ph nm ad rt ab ub dl].
  intros db1. unfold form_ok, form_mode; cbn.
  destruct ab, ub, dl; intros Hf; try contradiction;
    (split; [discriminate|]);
    (split; [intros [H | H]; try discriminate; try exact Hf;
             destruct Hf as [_ [c [Hc [Hid _]]]]; eauto|]);
    (split; [intros H; try discriminate; exact Hf|]);
    intros H1 H2; try discriminate; exact Hf.
Qed.

Lemma desk_selected_customer_witness :
  reachable_from db_two_customers desk_two
  /\ form_mode (form (app desk_two)) <> None.
Proof.
  split; [exact (reachable_init db_two_customers)|].
  exact (proj1 (desk_selected_customer db_two_customers desk_two
                  (reachable_init db_two_customers))).
Defined.

(** ** The Update button *)

Lemma nodup_map_inj {A K : Type} (key : A -> K) (l : list A) (a b : A) :
  NoDup (map key l) -> In a l -> In b l -> key a = key b -> a = b.
Proof.
  induction l as [|x l IH]; simpl; [intros _ []|].
  intros Hnd. inversion Hnd as [|? ? Hx Hl]; subst.
  intros [<- | Ha] [<- | Hb] E; auto.
  - exfalso. apply Hx. rewrite E. apply in_map; exact Hb.
  - exfalso. apply Hx. rewrite <- E. apply in_map; exact Ha.
Qed.

Lemma own_phone_free db0 c :
  customers_ok db0 -> In c (Customers db0) ->
  phone_taken db0 (phone_number c) (Some (customer_id c)) = false.
Proof.
  intros [_ _ _ Hp] Hc.
  destruct (phone_taken db0 (phone_number c) (Some (customer_id c))) eqn:E;
    [|reflexivity].
  unfold phone_taken in E. apply existsb_exists in E as [c' [Hc' Hm]].
  apply andb_true_iff in Hm as [Hph Hne].
  apply String.eqb_eq in Hph. apply negb_true_iff, Z.eqb_neq in Hne.
  exfalso. apply Hne.
  rewrite (nodup_map_inj phone_number _ c' c Hp Hc' Hc Hph). reflexivity.
Qed.




Lemma reachable_two_delete : reachable_from db_two_customers desk_two_delete.
Proof.
  exists [Sel (TreeviewSelect [0]); Sel (AfterFires 0)], []. reflexivity.
Qed.


(** ** The Delete button *)

(** X16. In every state the customer tab reaches, a click on the Delete
    button changes nothing at all unless the confirmation is answered
    yes; and when it changes the database, the customer deleted is a
    customer of the table, the one whose id is selected, the deletion is
    that of [delete_customer] (with its cascade), and the form is back
    in add mode with no row selected. *)
Theorem delete_button_effect db0 d confirm d' boxes :
  reachable_from db0 d ->
  step d (DeleteButton confirm) = Some (d', boxes) ->
  (confirm = false -> d' = d)
  /\ (db d' = db d
      \/ (confirm = true
          /\ exists c, In c (Customers (db d))
               /\ customer_id c = selected_customer_id (form (app d))
               /\ db d' = fst (delete_customer (db d) (customer_id c))
               /\ form (app d') = cleared_form
               /\ tree_selection (app d') = []
               /\ In (Info_CustomerDeleted (customer_id c)) boxes)).
Proof.
  intros Hr. destruct (view_ok_reachable db0 d Hr) as [Htr _ Hf].
  cbn [step]. destruct (delete_btn (form (app d))) eqn:Hb;
    [|intros E; inversion E; subst; auto].
  assert (Hsel : exists c, In c (Customers (db d))
                           /\ customer_id c = selected_customer_id (form (app d))).
  { revert Hf Hb. generalize (db d) as db1.
    destruct (form (app d)) as [sid ph nm ad rt ab ub dl].
    intros db1. unfold form_ok, form_mode; cbn.
    destruct ab, ub, dl; intros Hf Hb; try contradiction; try discriminate.
    - exact Hf.
    - destruct Hf as [_ [c [Hc [Hid _]]]]. eauto. }
  destruct Hsel as [c [Hc Hid]].
  unfold handle_delete_customer.
  destruct (Z.leb (selected_customer_id (form (app d))) 0);
    [intros E; inversion E; subst; auto|].
  destruct confirm; [|intros E; inversion E; subst; auto].
  cbn [delete_customer fst]. intros E; inversion E; subst; clear E.
  split; [discriminate|]. right. split; [reflexivity|].
  exists c. split; [exact Hc|]. split; [exact Hid|].
  destruct (refresh_tracked (config_phone (app d) NORMAL)
              (fst (delete_customer (db d) (selected_customer_id (form (app d)))))
              (tree_serial d) Htr) as [Ha Hd].
  cbn [delete_customer fst] in Ha, Hd. rewrite Ha, Hd, Hid.
  repeat split. right; left; reflexivity.
Qed.

Lemma delete_button_effect_witness :
  reachable_from db_two_customers desk_two_delete
  /\ exists d' boxes,
       step desk_two_delete (DeleteButton false) = Some (d', boxes)
       /\ (false = false -> d' = desk_two_delete).
Proof.
  split; [exact reachable_two_delete|].
  eexists. eexists. split; [reflexivity|].
  refine (proj1 (delete_button_effect db_two_customers desk_two_delete false _ _
                   reachable_two_delete eq_refl)).
Defined.

(** ** Gestures followed by a button *)

Lemma desk_run_three d e1 e2 e3 d1 b1 d2 b2 d3 b3 :
  step d e1 = Some (d1, b1) -> step d1 e2 = Some (d2, b2) ->
  step d2 e3 = Some (d3, b3) ->
  run d [e1; e2; e3] = Some (d3, (b1 ++ b2 ++ b3)%list).
Proof.
  intros H1 H2 H3. cbn [run]. rewrite H1, H2, H3, app_nil_r. reflexivity.
Qed.

Lemma step_sel d se a' i :
  Selection.step (app d) se = Some (a', i) ->
  step d (Sel se) = Some (with_app d a', []).
Proof. intros H. cbn [step]. rewrite H. reflexivity. Qed.

Lemma update_same db0 c :
  customers_ok db0 -> In c (Customers db0) ->
  update_customer db0 (customer_id c) (phone_number c) (Billing.name c)
                  (address c) (rate_plan c)
  = (db0, true).
Proof.
  intros Hok Hc. unfold update_customer.
  rewrite (own_phone_free db0 c Hok Hc), andb_false_r.
  f_equal. destruct Hok as [_ _ Hso _].
  assert (Hid : map (fun x => if Z.eqb (customer_id x) (customer_id c)
                              then mkCustomer (customer_id x) (phone_number c)
                                     (Billing.name c) (address c) (rate_plan c)
                              else x) (Customers db0) = Customers db0).
  { rewrite <- (map_id (Customers db0)) at 2. apply map_ext_in. intros x Hx.
    destruct (Z.eqb_spec (customer_id x) (customer_id c)) as [E|E];
      [|reflexivity].
    rewrite (StoreSpec.sorted_key_inj customer_id _ x c Hso Hx Hc E).
    destruct c; reflexivity. }
  rewrite Hid. destruct db0; reflexivity.
Qed.

(** X17. From every state the customer tab reaches on a store with
    unique ids and phone numbers and validated customers: a click on a
    row, a double click on it and a click on Update, with no edit in
    between, shows the "updated" box for the row's customer, leaves the
    database exactly as it was, and puts the form back in add mode. *)
Theorem update_without_edit db0 d row v :
  customers_ok db0 -> customers_valid db0 -> reachable_from db0 d ->
  item_values (app d) row = Some v ->
  exists d',
    run d [Sel (TreeviewSelect [row]); Sel (Double1 (Some row)); UpdateButton]
    = Some (d', [Info_CustomerUpdated (v_id v)])
    /\ db d' = db d
    /\ form (app d') = cleared_form
    /\ timer (app d') = None.
Proof.
  intros H0 Hv0 Hr Hv.
  pose proof (customers_ok_reachable db0 d H0 Hr) as Hok.
  pose proof (customers_valid_reachable db0 d Hv0 Hr) as Hvalid.
  destruct (view_ok_reachable db0 d Hr) as [Htr Hm _].
  destruct (row_customer d row v Hm Hv) as [c [Hc ->]].
  set (a1 := mkApp (Some (after_serial (app d))) (form (app d))
                   (customer_tree (app d)) [row] [after_serial (app d)]
                   (S (after_serial (app d)))).
  set (a2 := mkApp None (update_form (values_of c)) (customer_tree (app d))
                   [row] [] (S (after_serial (app d)))).
  assert (S1 : step d (Sel (TreeviewSelect [row])) = Some (with_app d a1, []))
    by (apply (step_sel d _ a1 None), (SelectionSpec.step_select _ row [] Htr)).
  assert (S2 : step (with_app d a1) (Sel (Double1 (Some row)))
               = Some (with_app (with_app d a1) a2, [])).
  { apply (step_sel (with_app d a1) _ a2 (Some (UpdateIntent row))).
    exact (SelectionSpec.step_double a1 row (values_of c) eq_refl Hv). }
  assert (Hpos : Z.leb (customer_id c) 0 = false).
  { apply Z.leb_gt. destruct Hok as [_ Hrange _ _].
    destruct (Hrange c Hc). assumption. }
  assert (S3 : step (with_app (with_app d a1) a2) UpdateButton
               = Some (refresh (config_phone a2 NORMAL) (db d) (tree_serial d),
                       [Info_CustomerUpdated (customer_id c)])).
  { cbn [step with_app app form a2 update_form update_btn].
    unfold handle_update_customer.
    cbn [with_app app db tree_serial form a2 update_form selected_customer_id
         phone_entry name_entry address_entry rate_plan_var entry_text
         values_of v_id v_phone v_name v_address v_rate].
    rewrite Hpos, (Hvalid c Hc), (update_same (db d) c Hok Hc). reflexivity. }
  eexists. split; [rewrite (desk_run_three _ _ _ _ _ _ _ _ _ _ S1 S2 S3);
                   reflexivity|].
  destruct (refresh_tracked (config_phone a2 NORMAL) (db d) (tree_serial d)
              eq_refl) as [Ha Hd].
  rewrite Ha, Hd. repeat split.
Qed.

Lemma update_without_edit_witness :
  customers_ok db_two_customers /\ customers_valid db_two_customers
  /\ reachable_from db_two_customers desk_two
  /\ item_values (app desk_two) 1
     = Some (mkValues 1 "555-0100" "Ada" "1 Main St" "Standard")
  /\ exists d',
       run desk_two [Sel (TreeviewSelect [1]); Sel (Double1 (Some 1)); UpdateButton]
       = Some (d', [Info_CustomerUpdated 1])
       /\ db d' = db desk_two
       /\ form (app d') = cleared_form
       /\ timer (app d') = None.
Proof.
  split; [exact (StoreSpec.customers_ok_history ops_two_customers)|].
  split; [exact customers_valid_two|].
  split; [exact (reachable_init db_two_customers)|].
  split; [reflexivity|].
  exact (update_without_edit db_two_customers desk_two 1
           (mkValues 1 "555-0100" "Ada" "1 Main St" "Standard")
           (StoreSpec.customers_ok_history ops_two_customers)
           customers_valid_two (reachable_init db_two_customers) eq_refl).
Defined.

(** X18. From every state the customer tab reaches on a store with
    unique ids: a click on a row, the expiry of the single-click timer
    and a confirmed click on Delete ask for confirmation with the row's
    customer id and name, delete exactly that customer through
    [delete_customer], and reload the tree, which no longer has a row
    for the customer; the form is back in add mode. *)
Theorem click_then_delete db0 d row v :
  customers_ok db0 -> reachable_from db0 d ->
  item_values (app d) row = Some v ->
  exists d',
    run d [Sel (TreeviewSelect [row]); Sel (AfterFires (after_serial (app d)));
           DeleteButton true]
    = Some (d', [Ask_ConfirmDeletion (v_id v) (v_name v);
                 Info_CustomerDeleted (v_id v)])
    /\ db d' = fst (delete_customer (db d) (v_id v))
    /\ (forall c, In c (Customers (db d')) -> customer_id c <> v_id v)
    /\ (forall w, In (Some w) (map values (customer_tree (app d'))) ->
                  v_id w <> v_id v)
    /\ form (app d') = cleared_form.
Proof.
  intros H0 Hr Hv.
  pose proof (customers_ok_reachable db0 d H0 Hr) as Hok.
  destruct (view_ok_reachable db0 d Hr) as [Htr Hm _].
  destruct (row_customer d row v Hm Hv) as [c [Hc Ev]].
  set (n := after_serial (app d)).
  set (a1 := mkApp (Some n) (form (app d)) (customer_tree (app d)) [row] [n] (S n)).
  set (a2 := mkApp None (delete_form v) (customer_tree (app d)) [row] [] (S n)).
  assert (S1 : step d (Sel (TreeviewSelect [row])) = Some (with_app d a1, []))
    by (apply (step_sel d _ a1 None), (SelectionSpec.step_select _ row [] Htr)).
  assert (S2 : step (with_app d a1) (Sel (AfterFires n))
               = Some (with_app (with_app d a1) a2, [])).
  { apply (step_sel (with_app d a1) _ a2 (Some (DeleteIntent row))).
    exact (SelectionSpec.step_fire (form (app d)) (customer_tree (app d)) row []
             n (S n) v Hv). }
  assert (Hpos : Z.leb (v_id v) 0 = false).
  { apply Z.leb_gt. destruct Hok as [_ Hrange _ _].
    destruct (Hrange c Hc). subst v. assumption. }
  assert (Hname : selected_name a2 = v_name v).
  { unfold selected_name. cbn [a2 tree_selection].
    erewrite SelectionSpec.item_values_tree; [rewrite Hv | reflexivity].
    reflexivity. }
  assert (S3 : step (with_app (with_app d a1) a2) (DeleteButton true)
               = Some (refresh (config_phone a2 NORMAL)
                               (fst (delete_customer (db d) (v_id v)))
                               (tree_serial d),
                       [Ask_ConfirmDeletion (v_id v) (v_name v);
                        Info_CustomerDeleted (v_id v)])).
  { cbn [step with_app app form a2 delete_form delete_btn].
    unfold handle_delete_customer.
    cbn [with_app app db tree_serial form delete_form selected_customer_id].
    fold a2. rewrite Hname.
    change (selected_customer_id (form a2)) with (v_id v).
    rewrite Hpos. reflexivity. }
  eexists. split; [rewrite (desk_run_three _ _ _ _ _ _ _ _ _ _ S1 S2 S3);
                   reflexivity|].
  destruct (refresh_tracked (config_phone a2 NORMAL)
              (fst (delete_customer (db d) (v_id v))) (tree_serial d) eq_refl)
    as [Ha Hd].
  rewrite Ha, Hd.
  assert (Hgone : forall c', In c' (Customers (fst (delete_customer (db d) (v_id v)))) ->
                             customer_id c' <> v_id v).
  { intros c' Hc'. cbn [delete_customer fst Customers] in Hc'.
    apply filter_In in Hc' as [_ Hne].
    apply negb_true_iff, Z.eqb_neq in Hne. exact Hne. }
  split; [reflexivity|]. split; [exact Hgone|]. split; [|reflexivity].
  intros w Hw. cbn [customer_tree] in Hw. rewrite insert_rows_values in Hw.
  apply in_map_iff in Hw as [c' [E Hc']]. inversion E; subst w.
  apply StoreSpec.get_all_customers_in in Hc'.
  exact (Hgone c' Hc').
Qed.

Lemma click_then_delete_witness :
  customers_ok db_two_customers
  /\ reachable_from db_two_customers desk_two
  /\ item_values (app desk_two) 0
     = Some (mkValues 2 "555-0101" "Bob" "2 High St" "Premium")
  /\ exists d',
       run desk_two [Sel (TreeviewSelect [0]); Sel (AfterFires 0); DeleteButton true]
       = Some (d', [Ask_ConfirmDeletion 2 "Bob"; Info_CustomerDeleted 2])
       /\ db d' = fst (delete_customer (db desk_two) 2).
Proof.
  split; [exact (StoreSpec.customers_ok_history ops_two_customers)|].
  split; [exact (reachable_init db_two_customers)|].
  split; [reflexivity|].
  destruct (click_then_delete db_two_customers desk_two 0
              (mkValues 2 "555-0101" "Bob" "2 High St" "Premium")
              (StoreSpec.customers_ok_history ops_two_customers)
              (reachable_init db_two_customers) eq_refl)
    as [d' [Hrun [Hdb _]]].
  exists d'. split; [exact Hrun | exact Hdb].
Defined.

End DeskSpec.

(** * Properties of the call-log and billing tabs *)

Module OfficeSpec.
Import Billing Store Selection Desk Office.

Local Open Scope Z_scope.
Local Open Scope string_scope.

(** ** Running the model *)

Example office_two_options :
  customer_options office_two = ["Bob (555-0101)"; "Ada (555-0100)"]
  /\ call_customer_var office_two = "Bob (555-0101)"
  /\ map_get (customer_phone_map office_two) "Ada (555-0100)"
     = Some (1, "555-0100").
Proof. repeat split. Qed.

Example log_call_rejects_zero :
  option_map snd
    (run digits_int office_two
         [TypeCallee "555-0199"; TypeDuration "0"; LogCallButton "2024-05-06 10:00:00"])
  = Some [Warn_DurationNotPositive].
Proof. reflexivity. Qed.

Example log_call_rejects_text :
  option_map snd
    (run digits_int office_two
         [TypeCallee "555-0199"; TypeDuration "one"; LogCallButton "2024-05-06 10:00:00"])
  = Some [Warn_DurationNotInteger].
Proof. reflexivity. Qed.

(** A duration beyond 64 bits passes the handler's checks and fails in
    the store: the "DB Error" box, nothing logged, the callee kept. *)
Example log_call_button_beyond_integer :
  run digits_int office_two
      [TypeCallee "555-0199"; TypeDuration "9223372036854775808";
       LogCallButton "2024-05-06 10:00:00"]
  = Some (mkOffice (desk office_two) (customer_phone_map office_two)
                   (customer_options office_two) (call_customer_var office_two)
                   "555-0199" "9223372036854775808"
                   (bill_customer_var office_two) (billing_period_var office_two),
          [Store_box (Error_DatabaseOperationFailed OverflowError)]).
Proof. reflexivity. Qed.

Example generate_rejects_empty_period :
  run digits_int office_two [TypePeriod ""; GenerateButton None "2024-06-01 09:00:00"]
  = Some (mkOffice (desk office_two) (customer_phone_map office_two)
                   (customer_options office_two) (call_customer_var office_two)
                   (callee_entry office_two) (duration_entry office_two)
                   (bill_customer_var office_two) "",
          [Warn_CustomerAndPeriod]).
Proof. reflexivity. Qed.

(** ** What [generate_bill] writes *)

Lemma generate_bill_db_cases flt db0 cid period now :
  out_db (generate_bill flt db0 cid period now) = db0
  \/ exists calls ch,
       select_sum_count db0 cid (period ++ "%") = (Some ch, calls)
       /\ 1 <= calls
       /\ ((exists bid, select_bill_id db0 cid period = Some bid
                        /\ out_db (generate_bill flt db0 cid period now)
                           = update_bill db0 bid calls (Some ch) now)
           \/ (select_bill_id db0 cid period = None
               /\ out_db (generate_bill flt db0 cid period now)
                  = insert_bill db0 cid period calls (Some ch) now)).
Proof.
  destruct (BillingSpec.generate_bill_atomic flt db0 cid period now) as [E | E];
    [left; exact E|].
  rewrite E.
  destruct (select_calls db0 cid (period ++ "%")) as [e | [charge calls]] eqn:Hq;
    [left; rewrite (BillingSpec.generate_bill_raises _ _ _ _ _ Hq); reflexivity|].
  pose proof (eq_sym (BillingSpec.select_calls_inr _ _ _ _ Hq)) as Hagg.
  destruct (Z.eq_dec calls 0) as [Hz | Hnz].
  - left. subst calls.
    rewrite (BillingSpec.generate_bill_zero_count _ _ _ _ _ Hq). reflexivity.
  - right.
    destruct (BillingSpec.generate_bill_writes db0 cid period now _ _ Hq Hnz)
      as [ch [-> Hgen]].
    exists calls, ch. split; [exact Hagg|]. split.
    + pose proof (StoreSpec.select_sum_count_nonneg db0 cid (period ++ "%")) as Hge.
      rewrite Hagg in Hge. cbn [snd] in Hge. lia.
    + rewrite Hgen.
      destruct (select_bill_id db0 cid period) as [bid|];
        [left; exists bid; split; reflexivity | right; split; reflexivity].
Qed.

Lemma customer_exists_in db0 cid :
  customer_exists db0 cid = true <->
  exists c, In c (Customers db0) /\ customer_id c = cid.
Proof.
  unfold customer_exists. rewrite existsb_exists.
  split; intros [c [Hc Hid]]; exists c; split; auto;
    [apply Z.eqb_eq | apply Z.eqb_eq]; exact Hid.
Qed.

Lemma customer_exists_same db0 db1 cid :
  map customer_id (Customers db1) = map customer_id (Customers db0) ->
  customer_exists db1 cid = customer_exists db0 cid.
Proof.
  unfold customer_exists. intros H.
  rewrite <- (map_id (Customers db1)), <- (map_id (Customers db0)).
  transitivity (existsb (fun i => Z.eqb i cid) (map customer_id (Customers db1))).
  - rewrite !map_id. clear H. induction (Customers db1); simpl; congruence.
  - rewrite H. rewrite !map_id. clear H.
    induction (Customers db0); simpl; congruence.
Qed.

Lemma aggregate_has_call db0 cid pat charge calls :
  select_sum_count db0 cid pat = (charge, calls) -> 1 <= calls ->
  exists r, In r (CallLogs db0) /\ call_customer_id r = cid.
Proof.
  unfold select_sum_count.
  destruct (filter (call_matches cid pat) (CallLogs db0)) as [|r rows] eqn:Hf;
    intros E Hc; inversion E; subst; [simpl in Hc; lia|].
  assert (Hr : In r (filter (call_matches cid pat) (CallLogs db0)))
    by (rewrite Hf; left; reflexivity).
  apply filter_In in Hr as [Hr Hm]. exists r. split; [exact Hr|].
  unfold call_matches in Hm. apply andb_true_iff in Hm as [Hm _].
  apply Z.eqb_eq. exact Hm.
Qed.

Lemma bills_counted_generate flt db0 cid period now :
  calls_owned db0 -> bills_counted db0 ->
  bills_counted (out_db (generate_bill flt db0 cid period now)).
Proof.
  intros Hown Hok.
  destruct (generate_bill_db_cases flt db0 cid period now)
    as [-> | [calls [ch [Hagg [Hc [[bid [Hs ->]] | [Hs ->]]]]]]]; [exact Hok | |].
  - intros b Hb. rewrite BillingSpec.update_bill_rows in Hb.
    apply in_map_iff in Hb as [b0 [<- Hb0]].
    destruct (Hok b0 Hb0) as [H1 [H2 H3]].
    unfold touch. destruct (Z.eqb (bill_id b0) bid); cbn.
    + split; [exact Hc|]. split; [discriminate | exact H3].
    + split; [exact H1|]. split; [exact H2 | exact H3].
  - intros b Hb. cbn [insert_bill BillHistory] in Hb.
    apply in_app_iff in Hb as [Hb | [<- | []]].
    + exact (Hok b Hb).
    + cbn. split; [exact Hc|]. split; [discriminate|].
      destruct (aggregate_has_call db0 cid _ _ _ Hagg Hc) as [r [Hr Hid]].
      destruct (Hown r Hr) as [c [Hin Hcid]].
      apply customer_exists_in. exists c. split; [exact Hin | congruence].
Qed.

Lemma bills_counted_apply db0 o :
  calls_owned db0 -> bills_counted db0 -> bills_counted (apply_op db0 o).
Proof.
  intros Hown Hok.
  destruct o as [ph nm ad pl | cid ph nm ad pl | cid
                | ph callee d now | flt cid p now]; cbn [apply_op].
  - unfold add_customer. destruct (phone_taken db0 ph None); cbn [fst];
      [exact Hok|].
    intros b Hb. destruct (Hok b Hb) as [H1 [H2 H3]].
    split; [exact H1|]. split; [exact H2|].
    unfold customer_exists in *. cbn [Customers].
    rewrite existsb_app, H3. reflexivity.
  - unfold update_customer.
    destruct (existsb _ (Customers db0) && phone_taken db0 ph (Some cid))%bool;
      cbn [fst]; [exact Hok|].
    intros b Hb. destruct (Hok b Hb) as [H1 [H2 H3]].
    split; [exact H1|]. split; [exact H2|].
    rewrite <- H3. apply customer_exists_same. cbn [Customers].
    rewrite map_map. apply map_ext. intros c.
    destruct (Z.eqb (customer_id c) cid); reflexivity.
  - intros b Hb. cbn [delete_customer fst BillHistory] in Hb.
    apply filter_In in Hb as [Hb Hne].
    apply negb_true_iff, Z.eqb_neq in Hne.
    destruct (Hok b Hb) as [H1 [H2 H3]].
    split; [exact H1|]. split; [exact H2|].
    apply customer_exists_in in H3 as [c [Hc Hid]].
    apply customer_exists_in. exists c. split; [|exact Hid].
    cbn [delete_customer fst Customers]. apply filter_In. split; [exact Hc|].
    apply negb_true_iff, Z.eqb_neq. congruence.
  - destruct (BillingSpec.log_call_cases db0 ph callee d now)
      as [[-> _] | [c [pl [_ [_ [_ [_ ->]]]]]]]; exact Hok.
  - apply bills_counted_generate; assumption.
Qed.

(** X19. In every database the program builds from a fresh file, every
    stored bill counts at least one call, carries a non-NULL total
    charge, and belongs to a customer that exists, although
    [generate_bill] neither looks the customer up nor enables foreign
    keys: a bill is only written when a call of the customer matched. *)
Theorem history_bills_counted ops b :
  In b (BillHistory (history ops)) ->
  1 <= total_calls b
  /\ total_charge b <> None
  /\ customer_exists (history ops) (bill_customer_id b) = true.
Proof.
  assert (H : calls_owned (history ops) /\ bills_counted (history ops)).
  { apply (BillingSpec.fold_apply_invariant
             (fun d => calls_owned d /\ bills_counted d)).
    - intros d o [Hown Hok]. split.
      + apply BillingSpec.calls_owned_apply; exact Hown.
      + apply bills_counted_apply; assumption.
    - split; [intros r [] | intros x []]. }
  destruct H as [_ Hok]. exact (Hok b).
Qed.

Lemma history_bills_counted_witness :
  In (mkBill 1 1 "2024-05" 1 (Some (0 + inject_Z 120 * (5 # 100))%Q)
             "2024-06-01 09:00:00")
     (BillHistory (history ops_two_customers))
  /\ customer_exists (history ops_two_customers) 1 = true.
Proof.
  split; [left; reflexivity|].
  exact (proj2 (proj2 (history_bills_counted ops_two_customers
                         (mkBill 1 1 "2024-05" 1
                                 (Some (0 + inject_Z 120 * (5 # 100))%Q)
                                 "2024-06-01 09:00:00")
                         (or_introl eq_refl)))).
Defined.

(** ** The phone map *)

Lemma build_phone_map_get cs k :
  map_get (build_phone_map cs) k
  = option_map (fun c => (customer_id c, phone_number c))
               (find (fun c => String.eqb (display_name c) k) (rev cs)).
Proof.
  unfold build_phone_map.
  assert (H : forall acc,
             map_get (fold_left
                        (fun m c => (display_name c,
                                     (customer_id c, phone_number c)) :: m)
                        cs acc) k
             = match find (fun c => String.eqb (display_name c) k) (rev cs) with
               | Some c => Some (customer_id c, phone_number c)
               | None => map_get acc k
               end).
  { induction cs as [|c cs IH]; intros acc; [reflexivity|].
    cbn [fold_left rev]. rewrite IH, BillingSpec.find_snoc.
    destruct (find (fun c0 => String.eqb (display_name c0) k) (rev cs));
      [reflexivity|].
    cbn [map_get]. destruct (String.eqb (display_name c) k); reflexivity. }
  rewrite H.
  destruct (find (fun c => String.eqb (display_name c) k) (rev cs)); reflexivity.
Qed.

Lemma phone_map_sound o k cid phone :
  dropdowns_current o ->
  map_get (customer_phone_map o) k = Some (cid, phone) ->
  exists c, In c (Customers (db (desk o)))
            /\ display_name c = k /\ customer_id c = cid
            /\ phone_number c = phone.
Proof.
  intros [Hm _]. rewrite Hm, build_phone_map_get.
  destruct (find (fun c => String.eqb (display_name c) k)
                 (rev (get_all_customers (db (desk o))))) as [c|] eqn:Hf;
    [|discriminate].
  cbn [option_map]. intros E; inversion E; subst.
  apply find_some in Hf as [Hin Hk]. apply String.eqb_eq in Hk.
  exists c. split; [|auto].
  apply StoreSpec.get_all_customers_in. apply in_rev. exact Hin.
Qed.

(** ** One event of the tabs *)

Lemma desk_step_quiet d te d' boxes :
  Desk.step d te = Some (d', boxes) ->
  existsb is_change_info boxes = false -> db d' = db d.
Proof.
  destruct te as [se | t | t | t | k | | | confirm]; cbn [Desk.step].
  - destruct (Selection.step (app d) se) as [[a' i]|]; [|discriminate].
    intros E; inversion E; reflexivity.
  - destruct (entry_state _); intros E; inversion E; reflexivity.
  - intros E; inversion E; reflexivity.
  - intros E; inversion E; reflexivity.
  - destruct (dict_mem RATE_PLANS k); intros E; inversion E; reflexivity.
  - destruct (add_btn _); [|intros E; inversion E; reflexivity].
    unfold handle_add_customer.
    destruct (fields_valid _ _ _); [|intros E; inversion E; reflexivity].
    destruct (add_customer (db d) _ _ _ _) as [db' [|]];
      intros E; inversion E; subst; [discriminate | reflexivity].
  - destruct (update_btn _); [|intros E; inversion E; reflexivity].
    unfold handle_update_customer.
    destruct (Z.leb _ 0); [intros E; inversion E; reflexivity|].
    destruct (fields_valid _ _ _); [|intros E; inversion E; reflexivity].
    destruct (update_customer (db d) _ _ _ _ _) as [db' [|]];
      intros E; inversion E; subst; [discriminate | reflexivity].
  - destruct (delete_btn _); [|intros E; inversion E; reflexivity].
    unfold handle_delete_customer.
    destruct (Z.leb _ 0); [intros E; inversion E; reflexivity|].
    destruct confirm; [|intros E; inversion E; reflexivity].
    cbn [delete_customer fst]. intros E; inversion E; subst. discriminate.
Qed.

Lemma dropdowns_current_same o o' :
  Customers (db (desk o')) = Customers (db (desk o)) ->
  customer_phone_map o' = customer_phone_map o ->
  customer_options o' = customer_options o ->
  dropdowns_current o -> dropdowns_current o'.
Proof.
  unfold dropdowns_current, get_all_customers. intros -> -> ->. auto.
Qed.

Section WithInt.
Variable int_of_string : string -> option Z.

Abbreviation step := (Office.step int_of_string).
Abbreviation run := (Office.run int_of_string).
Abbreviation reachable_from := (Office.reachable_from int_of_string).

(** What a click on "Log Call" does to the store. *)
Lemma handle_log_call_cases o now :
  (fst (handle_log_call int_of_string o now) = o)
  \/ exists cid phone dur,
       map_get (customer_phone_map o) (call_customer_var o) = Some (cid, phone)
       /\ phone <> "" /\ callee_entry o <> ""
       /\ int_of_string (duration_entry o) = Some dur /\ 0 < dur
       /\ ((exists db' msgs,
              log_call (db (desk o)) phone (callee_entry o) dur now
              = (db', msgs, Returns true)
              /\ handle_log_call int_of_string o now
                 = (mkOffice (desk (set_db o db')) (customer_phone_map o)
                             (customer_options o) (call_customer_var o) ""
                             (duration_entry o) (bill_customer_var o)
                             (billing_period_var o),
                    map Store_box msgs))
           \/ (exists msgs,
                 log_call (db (desk o)) phone (callee_entry o) dur now
                 = (db (desk o), msgs, Returns false)
                 /\ fst (handle_log_call int_of_string o now)
                    = set_db o (db (desk o)))).
Proof.
  unfold handle_log_call.
  destruct (nonempty (call_customer_var o)); [|left; reflexivity].
  destruct (nonempty (callee_entry o)) eqn:Hcallee; [|left; reflexivity].
  destruct (nonempty (duration_entry o)); [|left; reflexivity].
  cbn [negb orb].
  destruct (int_of_string (duration_entry o)) as [dur|]; [|left; reflexivity].
  destruct (Z.leb_spec dur 0) as [Hle|Hpos]; [left; reflexivity|].
  destruct (map_get (customer_phone_map o) (call_customer_var o))
    as [[cid phone]|]; [|left; reflexivity].
  destruct (nonempty phone) eqn:Hphone; [|left; reflexivity].
  destruct (log_call (db (desk o)) phone (callee_entry o) dur now)
    as [[db' msgs] [[|]|e]] eqn:Hlog; [| |left; reflexivity];
    right; exists cid, phone, dur;
    (split; [reflexivity|]);
    (split; [apply DeskSpec.nonempty_true; exact Hphone|]);
    (split; [apply DeskSpec.nonempty_true; exact Hcallee|]);
    (split; [reflexivity|]); (split; [exact Hpos|]).
  - left. exists db', msgs. split; [exact Hlog | reflexivity].
  - right. exists msgs.
    assert (E : db' = db (desk o)).
    { destruct (BillingSpec.log_call_cases (db (desk o)) phone (callee_entry o)
                  dur now) as [[Hdb _] | [c [pl [_ [_ [_ [_ Hst]]]]]]].
      - rewrite Hlog in Hdb. exact Hdb.
      - rewrite Hlog in Hst. discriminate. }
    subst db'. split; [exact Hlog | reflexivity].
Qed.

(** What a click on "Generate" does to the store. *)
Lemma handle_generate_bill_cases o flt now :
  handle_generate_bill o flt now = (o, [Warn_CustomerAndPeriod])
  \/ handle_generate_bill o flt now = (o, [])
  \/ exists cid phone,
       map_get (customer_phone_map o) (bill_customer_var o) = Some (cid, phone)
       /\ cid <> 0 /\ billing_period_var o <> ""
       /\ handle_generate_bill o flt now
          = (set_db o (out_db (generate_bill flt (db (desk o)) cid
                                             (billing_period_var o) now)),
             map Store_box
                 (out_msgs (generate_bill flt (db (desk o)) cid
                                          (billing_period_var o) now))).
Proof.
  unfold handle_generate_bill.
  destruct (nonempty (bill_customer_var o)); [|left; reflexivity].
  destruct (nonempty (billing_period_var o)) eqn:Hp; [|left; reflexivity].
  cbn [negb orb].
  destruct (map_get (customer_phone_map o) (bill_customer_var o))
    as [[cid phone]|]; [|right; left; reflexivity].
  destruct (Z.eqb_spec cid 0) as [E|E]; [right; left; reflexivity|].
  right; right. exists cid, phone.
  split; [reflexivity|]. split; [exact E|].
  split; [apply DeskSpec.nonempty_true; exact Hp | reflexivity].
Qed.

(** The store after an event: a step of the customer tab, no change, a
    logged call of positive duration, or a bill generated for a
    non-empty period. *)
Lemma office_step_db o e o' boxes :
  step o e = Some (o', boxes) ->
  (exists te d' bs, Desk.step (desk o) te = Some (d', bs)
                    /\ db (desk o') = db d')
  \/ db (desk o') = db (desk o)
  \/ (exists phone dur now,
        0 < dur
        /\ db (desk o')
           = fst (fst (log_call (db (desk o)) phone (callee_entry o) dur now)))
  \/ (exists flt cid now,
        billing_period_var o <> ""
        /\ db (desk o')
           = out_db (generate_bill flt (db (desk o)) cid (billing_period_var o)
                                   now)).
Proof.
  destruct e as [te | k | t | t | now | k | t | flt now]; cbn [Office.step].
  - destruct (Desk.step (desk o) te) as [[d' bs]|] eqn:Hs; [|discriminate].
    intros E; inversion E; subst; clear E.
    left. exists te, d', bs. split; [exact Hs|].
    destruct (existsb is_change_info bs); reflexivity.
  - destruct (existsb _ (customer_options o)); intros E; inversion E; subst;
      right; left; reflexivity.
  - intros E; inversion E; subst; right; left; reflexivity.
  - intros E; inversion E; subst; right; left; reflexivity.
  - intros E; inversion E as [H0]; clear E.
    destruct (handle_log_call_cases o now)
      as [Hsame | [cid [phone [dur [_ [_ [_ [_ [Hpos
           [[db' [msgs [Hlog Hres]]] | [msgs [Hlog Hres]]]]]]]]]]]].
    + right; left. rewrite H0 in Hsame. cbn [fst] in Hsame. subst o'. reflexivity.
    + right; right; left. exists phone, dur, now. split; [exact Hpos|].
      rewrite Hres in H0. inversion H0; subst. rewrite Hlog. reflexivity.
    + right; left. rewrite H0 in Hres. cbn [fst] in Hres. subst o'. reflexivity.
  - destruct (existsb _ (customer_options o)); intros E; inversion E; subst;
      right; left; reflexivity.
  - intros E; inversion E; subst; right; left; reflexivity.
  - intros E; inversion E as [H0]; clear E.
    destruct (handle_generate_bill_cases o flt now)
      as [Hres | [Hres | [cid [phone [_ [_ [Hp Hres]]]]]]];
      rewrite Hres in H0; inversion H0; subst.
    + right; left; reflexivity.
    + right; left; reflexivity.
    + right; right; right. exists flt, cid, now. split; [exact Hp | reflexivity].
Qed.

Lemma office_run_invariant (P : Office -> Prop) :
  (forall o e o' boxes, P o -> step o e = Some (o', boxes) -> P o') ->
  forall evs o o' boxes, P o -> run o evs = Some (o', boxes) -> P o'.
Proof.
  intros Hstep evs. induction evs as [|e evs IH]; simpl; intros o o' boxes Ho.
  - intros E; inversion E; subst; exact Ho.
  - destruct (step o e) as [[o1 bs]|] eqn:Hs; [|discriminate].
    destruct (run o1 evs) as [[o2 rest]|] eqn:Hr; [|discriminate].
    intros E; inversion E; subst.
    apply (IH o1 o' rest); [eapply Hstep; eauto | exact Hr].
Qed.

Lemma init_office_db db0 month : db (desk (init_office db0 month)) = db0.
Proof. cbn [init_office update_customer_dropdowns desk]. apply DeskSpec.init_desk_db. Qed.

Lemma log_call_tables db0 phone callee dur now :
  Customers (fst (fst (log_call db0 phone callee dur now))) = Customers db0
  /\ BillHistory (fst (fst (log_call db0 phone callee dur now))) = BillHistory db0.
Proof.
  destruct (BillingSpec.log_call_cases db0 phone callee dur now)
    as [[-> _] | [c [pl [_ [_ [_ [_ ->]]]]]]]; split; reflexivity.
Qed.

Lemma dropdowns_current_step o e o' boxes :
  dropdowns_current o -> step o e = Some (o', boxes) -> dropdowns_current o'.
Proof.
  intros Hok.
  destruct e as [te | k | t | t | now | k | t | flt now]; cbn [Office.step].
  - destruct (Desk.step (desk o) te) as [[d' bs]|] eqn:Hs; [|discriminate].
    intros E; inversion E; subst; clear E.
    destruct (existsb is_change_info bs) eqn:Hinfo; [split; reflexivity|].
    revert Hok. apply dropdowns_current_same; try reflexivity.
    cbn [set_desk desk]. rewrite (desk_step_quiet _ _ _ _ Hs Hinfo). reflexivity.
  - destruct (existsb _ (customer_options o)); intros E; inversion E; subst;
      exact Hok.
  - intros E; inversion E; subst; exact Hok.
  - intros E; inversion E; subst; exact Hok.
  - intros E; inversion E as [H0]; clear E.
    destruct (handle_log_call_cases o now)
      as [Hsame | [cid [phone [dur [_ [_ [_ [_ [_
           [[db' [msgs [Hlog Hres]]] | [msgs [Hlog Hres]]]]]]]]]]]].
    + rewrite H0 in Hsame. cbn [fst] in Hsame. subst o'. exact Hok.
    + rewrite Hres in H0. inversion H0; subst.
      revert Hok. apply dropdowns_current_same; try reflexivity.
      cbn [set_db set_desk desk db].
      pose proof (proj1 (log_call_tables (db (desk o)) phone (callee_entry o)
                                         dur now)) as Hc.
      rewrite Hlog in Hc. exact Hc.
    + rewrite H0 in Hres. cbn [fst] in Hres. subst o'. exact Hok.
  - destruct (existsb _ (customer_options o)); intros E; inversion E; subst;
      exact Hok.
  - intros E; inversion E; subst; exact Hok.
  - intros E; inversion E as [H0]; clear E.
    destruct (handle_generate_bill_cases o flt now)
      as [Hres | [Hres | [cid [phone [_ [_ [_ Hres]]]]]]];
      rewrite Hres in H0; inversion H0; subst; try exact Hok.
    revert Hok. apply dropdowns_current_same; try reflexivity.
    cbn [set_db set_desk desk db].
    apply (BillingSpec.generate_bill_tables flt (db (desk o)) cid
             (billing_period_var o) now).
Qed.

Lemma dropdowns_current_reachable db0 month o :
  reachable_from db0 month o -> dropdowns_current o.
Proof.
  intros [evs [boxes Hrun]].
  apply (office_run_invariant dropdowns_current dropdowns_current_step
                              evs (init_office db0 month) o boxes);
    [split; reflexivity | exact Hrun].
Qed.

Lemma customers_ok_office_step o e o' boxes :
  customers_ok (db (desk o)) -> step o e = Some (o', boxes) ->
  customers_ok (db (desk o')).
Proof.
  intros Hok Hs.
  destruct (office_step_db o e o' boxes Hs)
    as [[te [d' [bs [Hd ->]]]] | [-> | [[ph [dur [now [_ ->]]]]
                                      | [flt [cid [now [_ ->]]]]]]].
  - exact (DeskSpec.customers_ok_step _ _ _ _ Hok Hd).
  - exact Hok.
  - exact (StoreSpec.customers_ok_apply _ (OpLogCall ph (callee_entry o) dur now) Hok).
  - exact (StoreSpec.customers_ok_apply _
             (OpGenerateBill flt cid (billing_period_var o) now) Hok).
Qed.

Lemma customers_ok_office db0 month o :
  customers_ok db0 -> reachable_from db0 month o -> customers_ok (db (desk o)).
Proof.
  intros H0 [evs [boxes Hrun]].
  apply (office_run_invariant (fun o => customers_ok (db (desk o)))
                              customers_ok_office_step
                              evs (init_office db0 month) o boxes);
    [rewrite init_office_db; exact H0 | exact Hrun].
Qed.

Lemma find_exists {A : Type} (P : A -> bool) (l : list A) (a : A) :
  In a l -> P a = true -> exists b, find P l = Some b.
Proof.
  induction l as [|x l IH]; simpl; [intros []|].
  intros [-> | Hin] Hp.
  - rewrite Hp. eauto.
  - destruct (P x); eauto.
Qed.

(** X20. In every state the application reaches, the dropdown options and
    the phone map are those of the current customer table: every option
    is the display name of a customer; every binding of the map gives the
    id and phone number of a customer with that display name; and the
    display name of every customer is an option and is bound to a
    customer carrying that same display name. *)
Theorem phone_map_current db0 month o :
  reachable_from db0 month o ->
  (forall k, In k (customer_options o) ->
     exists c, In c (Customers (db (desk o))) /\ display_name c = k)
  /\ (forall k cid phone,
        map_get (customer_phone_map o) k = Some (cid, phone) ->
        exists c, In c (Customers (db (desk o)))
                  /\ display_name c = k /\ customer_id c = cid
                  /\ phone_number c = phone)
  /\ (forall c, In c (Customers (db (desk o))) ->
        In (display_name c) (customer_options o)
        /\ exists c', In c' (Customers (db (desk o)))
                      /\ display_name c' = display_name c
                      /\ map_get (customer_phone_map o) (display_name c)
                         = Some (customer_id c', phone_number c')).
Proof.
  intros Hr. pose proof (dropdowns_current_reachable db0 month o Hr) as Hcur.
  pose proof Hcur as [Hm Ho].
  split; [|split].
  - intros k Hk. rewrite Ho in Hk. apply in_map_iff in Hk as [c [E Hc]].
    exists c. split; [apply StoreSpec.get_all_customers_in; exact Hc | exact E].
  - intros k cid phone. apply phone_map_sound; exact Hcur.
  - intros c Hc. apply StoreSpec.get_all_customers_in in Hc. split.
    + rewrite Ho. apply in_map. exact Hc.
    + rewrite Hm, build_phone_map_get.
      assert (Hrev : In c (rev (get_all_customers (db (desk o)))))
        by (apply in_rev in Hc; exact Hc).
      destruct (find_exists (fun x => String.eqb (display_name x) (display_name c))
                            (rev (get_all_customers (db (desk o)))) c Hrev
                            (String.eqb_refl _))
        as [c' Hf].
      rewrite Hf. cbn [option_map].
      apply find_some in Hf as [Hin Hk]. apply String.eqb_eq in Hk.
      exists c'. split; [|split; [exact Hk | reflexivity]].
      apply StoreSpec.get_all_customers_in. apply in_rev. exact Hin.
Qed.

(** ** The Log Call button *)

(** X21. In every state the application reaches on a store with unique
    ids and phone numbers, a click on "Log Call" either leaves the store
    and the callee entry as they were, or logs exactly one call: for a
    customer of the table whose display name is the one selected, with
    the duration parsed from the entry, which is positive, the callee
    typed, which is not empty, and the cost of that duration at the rate
    resolved for that customer's plan; the callee entry is then emptied
    and the "call logged" box shown. *)
Theorem log_call_button_effect db0 month o now o' boxes :
  customers_ok db0 -> reachable_from db0 month o ->
  step o (LogCallButton now) = Some (o', boxes) ->
  (db (desk o') = db (desk o) /\ callee_entry o' = callee_entry o)
  \/ exists c dur,
       In c (Customers (db (desk o)))
       /\ display_name c = call_customer_var o
       /\ int_of_string (duration_entry o) = Some dur /\ 0 < dur
       /\ callee_entry o <> ""
       /\ db (desk o')
          = insert_call (db (desk o)) (customer_id c) (callee_entry o) now dur
                        (inject_Z dur * resolve_rate (rate_plan c))%Q
       /\ callee_entry o' = ""
       /\ boxes = [Store_box (Info_CallLogged (phone_number c) (rate_plan c) dur
                                (inject_Z dur * resolve_rate (rate_plan c))%Q)].
Proof.
  intros H0 Hr. pose proof (customers_ok_office db0 month o H0 Hr) as Hok.
  pose proof (dropdowns_current_reachable db0 month o Hr) as Hcur.
  cbn [Office.step]. intros E; inversion E as [H1]; clear E.
  destruct (handle_log_call_cases o now)
    as [Hsame | [cid [phone [dur [Hget [_ [Hcallee [Hint [Hpos
         [[db' [msgs [Hlog Hres]]] | [msgs [Hlog Hres]]]]]]]]]]]].
  - left. rewrite H1 in Hsame. cbn [fst] in Hsame. subst o'. split; reflexivity.
  - right. destruct (phone_map_sound o _ cid phone Hcur Hget)
      as [c [Hc [Hname [Hid Hph]]]].
    exists c, dur. split; [exact Hc|]. split; [exact Hname|].
    split; [exact Hint|]. split; [exact Hpos|]. split; [exact Hcallee|].
    rewrite Hres in H1. inversion H1; subst o' boxes; clear H1.
    cbn [set_db set_desk desk db callee_entry].
    subst phone.
    destruct (BillingSpec.log_call_cases (db (desk o)) (phone_number c)
                (callee_entry o) dur now)
      as [[_ Hno] | [cid' [plan [Hsel [_ [_ [_ Hst]]]]]]];
      [rewrite Hlog in Hno; exfalso; apply Hno; reflexivity|].
    rewrite (StoreSpec.select_by_phone_owner _ c Hok Hc) in Hsel.
    inversion Hsel; subst cid' plan.
    rewrite Hlog in Hst. inversion Hst; subst. repeat split.
  - left. rewrite H1 in Hres. cbn [fst] in Hres. subst o'. split; reflexivity.
Qed.

(** ** The call table *)

Lemma rate_positive plan : (0 < resolve_rate plan)%Q.
Proof.
  destruct (StoreSpec.resolve_rate_cases plan) as [-> | [-> | ->]]; reflexivity.
Qed.

Lemma calls_positive_log db0 phone callee dur now :
  0 < dur -> calls_positive db0 ->
  calls_positive (fst (fst (log_call db0 phone callee dur now))).
Proof.
  intros Hpos Hok.
  destruct (BillingSpec.log_call_cases db0 phone callee dur now)
    as [[-> _] | [cid [plan [_ [_ [_ [_ ->]]]]]]]; [exact Hok|].
  intros r Hr. cbn [fst insert_call CallLogs] in Hr.
  apply in_app_iff in Hr as [Hr | [<- | []]]; [exact (Hok r Hr)|].
  cbn [duration_seconds cost]. split; [exact Hpos|].
  fold (resolve_rate plan). pose proof (rate_positive plan) as Hrate.
  revert Hrate. generalize (resolve_rate plan). intros q Hq.
  unfold Qlt, Qmult, inject_Z in *; cbn in *. nia.
Qed.

Lemma calls_positive_desk_step d te d' bs :
  calls_positive (db d) -> Desk.step d te = Some (d', bs) ->
  calls_positive (db d').
Proof.
  intros Hok Hs.
  destruct (DeskSpec.step_db d te d' bs Hs)
    as [-> | [[ph [nm [ad [rt [_ ->]]]]]
             | [[cid [ph [nm [ad [rt [_ ->]]]]]] | [cid ->]]]].
  - exact Hok.
  - unfold add_customer. destruct (phone_taken (db d) ph None); exact Hok.
  - unfold update_customer.
    destruct (existsb _ (Customers (db d)) && phone_taken (db d) ph (Some cid))%bool;
      exact Hok.
  - intros r Hr. cbn [delete_customer fst CallLogs] in Hr.
    apply filter_In in Hr as [Hr _]. exact (Hok r Hr).
Qed.

Lemma calls_positive_step o e o' boxes :
  calls_positive (db (desk o)) -> step o e = Some (o', boxes) ->
  calls_positive (db (desk o')).
Proof.
  intros Hok Hs.
  destruct (office_step_db o e o' boxes Hs)
    as [[te [d' [bs [Hd ->]]]] | [-> | [[ph [dur [now [Hpos ->]]]]
                                      | [flt [cid [now [_ ->]]]]]]].
  - exact (calls_positive_desk_step _ _ _ _ Hok Hd).
  - exact Hok.
  - apply calls_positive_log; assumption.
  - unfold calls_positive.
    rewrite (proj2 (BillingSpec.generate_bill_tables flt (db (desk o)) cid
                      (billing_period_var o) now)).
    exact Hok.
Qed.

(** X22. When every call of the starting database has a positive
    duration and a positive cost, so has every call of every state the
    application reaches: "Log Call" stores a call only for a duration
    that parses to a positive integer, at a positive rate, and no other
    handler adds or rewrites a call. *)
Theorem office_calls_positive db0 month o :
  calls_positive db0 -> reachable_from db0 month o ->
  forall r, In r (CallLogs (db (desk o))) ->
            0 < duration_seconds r /\ (0 < cost r)%Q.
Proof.
  intros H0 [evs [boxes Hrun]].
  apply (office_run_invariant (fun o => calls_positive (db (desk o)))
                              calls_positive_step
                              evs (init_office db0 month) o boxes);
    [rewrite init_office_db; exact H0 | exact Hrun].
Qed.

(** ** The Generate button *)

(** X23. In every state the application reaches, a click on
    "Generate/Recalculate Bill" either leaves the store as it was, or
    runs [generate_bill] once, for the id of a customer of the table
    whose display name is the one selected and for the period typed,
    which is not empty; its message boxes are the ones shown. *)
Theorem generate_button_effect db0 month o flt now o' boxes :
  reachable_from db0 month o ->
  step o (GenerateButton flt now) = Some (o', boxes) ->
  (db (desk o') = db (desk o))
  \/ exists c,
       In c (Customers (db (desk o)))
       /\ display_name c = bill_customer_var o
       /\ billing_period_var o <> ""
       /\ db (desk o')
          = out_db (generate_bill flt (db (desk o)) (customer_id c)
                                  (billing_period_var o) now)
       /\ boxes
          = map Store_box
                (out_msgs (generate_bill flt (db (desk o)) (customer_id c)
                                         (billing_period_var o) now)).
Proof.
  intros Hr. pose proof (dropdowns_current_reachable db0 month o Hr) as Hcur.
  cbn [Office.step]. intros E; inversion E as [H1]; clear E.
  destruct (handle_generate_bill_cases o flt now)
    as [Hres | [Hres | [cid [phone [Hget [_ [Hp Hres]]]]]]];
    rewrite Hres in H1; inversion H1; subst o' boxes; clear H1.
  - left; reflexivity.
  - left; reflexivity.
  - right. destruct (phone_map_sound o _ cid phone Hcur Hget)
      as [c [Hc [Hname [Hid _]]]].
    exists c. subst cid. repeat split; assumption.
Qed.

Lemma bills_named_generate flt db1 cid period now :
  period <> "" -> bills_named db1 ->
  bills_named (out_db (generate_bill flt db1 cid period now)).
Proof.
  intros Hp Hok.
  destruct (generate_bill_db_cases flt db1 cid period now)
    as [-> | [calls [ch [_ [_ [[bid [_ ->]] | [_ ->]]]]]]]; [exact Hok | |].
  - intros b Hb. rewrite BillingSpec.update_bill_rows in Hb.
    apply in_map_iff in Hb as [b0 [<- Hb0]].
    unfold touch. destruct (Z.eqb (bill_id b0) bid); exact (Hok b0 Hb0).
  - intros b Hb. cbn [insert_bill BillHistory] in Hb.
    apply in_app_iff in Hb as [Hb | [<- | []]]; [exact (Hok b Hb) | exact Hp].
Qed.

Lemma bills_named_step o e o' boxes :
  bills_named (db (desk o)) -> step o e = Some (o', boxes) ->
  bills_named (db (desk o')).
Proof.
  intros Hok Hs.
  destruct (office_step_db o e o' boxes Hs)
    as [[te [d' [bs [Hd ->]]]] | [-> | [[ph [dur [now [Hpos ->]]]]
                                      | [flt [cid [now [Hp ->]]]]]]].
  - destruct (DeskSpec.step_db _ te d' bs Hd)
      as [-> | [[ph [nm [ad [rt [_ ->]]]]]
               | [[cid [ph [nm [ad [rt [_ ->]]]]]] | [cid ->]]]].
    + exact Hok.
    + unfold add_customer. destruct (phone_taken _ ph None); exact Hok.
    + unfold update_customer.
      destruct (existsb _ (Customers (db (desk o)))
                && phone_taken (db (desk o)) ph (Some cid))%bool; exact Hok.
    + intros b Hb. cbn [delete_customer fst BillHistory] in Hb.
      apply filter_In in Hb as [Hb _]. exact (Hok b Hb).
  - exact Hok.
  - unfold bills_named.
    rewrite (proj2 (log_call_tables (db (desk o)) ph (callee_entry o) dur now)).
    exact Hok.
  - apply bills_named_generate; assumption.
Qed.

(** X24. When no bill of the starting database has an empty billing
    period, no bill of any state the application reaches has one: the
    handler refuses an empty period before [generate_bill] is called
    (with an empty period the filter would match every call of the
    customer). *)
Theorem office_bills_named db0 month o :
  bills_named db0 -> reachable_from db0 month o ->
  forall b, In b (BillHistory (db (desk o))) -> billing_period b <> "".
Proof.
  intros H0 [evs [boxes Hrun]].
  apply (office_run_invariant (fun o => bills_named (db (desk o)))
                              bills_named_step
                              evs (init_office db0 month) o boxes);
    [rewrite init_office_db; exact H0 | exact Hrun].
Qed.

End WithInt.

(** ** Instances on the sample data *)

Lemma reachable_office_two :
  Office.reachable_from digits_int db_two_customers "2024-05" office_two.
Proof. exists [], []. reflexivity. Qed.

Lemma phone_map_current_witness :
  Office.reachable_from digits_int db_two_customers "2024-05" office_two
  /\ forall k cid phone,
       map_get (customer_phone_map office_two) k = Some (cid, phone) ->
       exists c, In c (Customers (db (desk office_two)))
                 /\ display_name c = k /\ customer_id c = cid
                 /\ phone_number c = phone.
Proof.
  split; [exact reachable_office_two|].
  exact (proj1 (proj2 (phone_map_current digits_int db_two_customers "2024-05"
                         office_two reachable_office_two))).
Defined.

Lemma reachable_office_two_call :
  Office.reachable_from digits_int db_two_customers "2024-05" office_two_call.
Proof. exists [TypeCallee "555-0199"], []. reflexivity. Qed.

Lemma log_call_button_effect_witness :
  customers_ok db_two_customers
  /\ Office.reachable_from digits_int db_two_customers "2024-05" office_two_call
  /\ exists o' boxes,
       Office.step digits_int office_two_call (LogCallButton "2024-05-06 10:00:00")
       = Some (o', boxes)
       /\ ((db (desk o') = db (desk office_two_call)
            /\ callee_entry o' = callee_entry office_two_call)
           \/ exists c dur,
                In c (Customers (db (desk office_two_call)))
                /\ display_name c = call_customer_var office_two_call
                /\ digits_int (duration_entry office_two_call) = Some dur
                /\ 0 < dur
                /\ callee_entry office_two_call <> ""
                /\ db (desk o')
                   = insert_call (db (desk office_two_call)) (customer_id c)
                       (callee_entry office_two_call) "2024-05-06 10:00:00" dur
                       (inject_Z dur * resolve_rate (rate_plan c))%Q
                /\ callee_entry o' = ""
                /\ boxes
                   = [Store_box
                        (Info_CallLogged (phone_number c) (rate_plan c) dur
                           (inject_Z dur * resolve_rate (rate_plan c))%Q)]).
Proof.
  split; [exact (StoreSpec.customers_ok_history ops_two_customers)|].
  split; [exact reachable_office_two_call|].
  eexists. eexists. split; [reflexivity|].
  refine (log_call_button_effect digits_int db_two_customers "2024-05"
            office_two_call "2024-05-06 10:00:00" _ _
            (StoreSpec.customers_ok_history ops_two_customers)
            reachable_office_two_call eq_refl).
Defined.

Lemma calls_positive_two : calls_positive db_two_customers.
Proof. intros r [<- | [<- | []]]; split; reflexivity. Qed.

Lemma office_calls_positive_witness :
  calls_positive db_two_customers
  /\ Office.reachable_from digits_int db_two_customers "2024-05" office_two_call
  /\ forall r, In r (CallLogs (db (desk office_two_call))) ->
               0 < duration_seconds r /\ (0 < cost r)%Q.
Proof.
  split; [exact calls_positive_two|].
  split; [exact reachable_office_two_call|].
  exact (office_calls_positive digits_int db_two_customers "2024-05"
           office_two_call calls_positive_two reachable_office_two_call).
Defined.

Lemma generate_button_effect_witness :
  Office.reachable_from digits_int db_two_customers "2024-05" office_two
  /\ exists o' boxes,
       Office.step digits_int office_two
                   (GenerateButton None "2024-06-02 09:00:00")
       = Some (o', boxes)
       /\ ((db (desk o') = db (desk office_two))
           \/ exists c,
                In c (Customers (db (desk office_two)))
                /\ display_name c = bill_customer_var office_two
                /\ billing_period_var office_two <> ""
                /\ db (desk o')
                   = out_db (generate_bill None (db (desk office_two))
                               (customer_id c) (billing_period_var office_two)
                               "2024-06-02 09:00:00")
                /\ boxes
                   = map Store_box
                         (out_msgs (generate_bill None (db (desk office_two))
                                      (customer_id c)
                                      (billing_period_var office_two)
                                      "2024-06-02 09:00:00"))).
Proof.
  split; [exact reachable_office_two|].
  eexists. eexists. split; [reflexivity|].
  refine (generate_button_effect digits_int db_two_customers "2024-05"
            office_two None "2024-06-02 09:00:00" _ _
            reachable_office_two eq_refl).
Defined.

Lemma bills_named_two : bills_named db_two_customers.
Proof. intros b [<- | [<- | []]]; discriminate. Qed.

Lemma office_bills_named_witness :
  bills_named db_two_customers
  /\ Office.reachable_from digits_int db_two_customers "2024-05" office_two
  /\ forall b, In b (BillHistory (db (desk office_two))) ->
               billing_period b <> "".
Proof.
  split; [exact bills_named_two|].
  split; [exact reachable_office_two|].
  exact (office_bills_named digits_int db_two_customers "2024-05" office_two
           bills_named_two reachable_office_two).
Defined.

End OfficeSpec.
